(** * Credential and token lifecycle of the tecnet backend

    A shallow embedding of [src/auth/auth.service.ts] (AuthService),
    [src/users/users.service.ts] (UsersService) and
    [src/utils/auth-utils.ts], over a model of the [User] table of
    [prisma/schema.prisma].

    Every service method is an [async] function: it runs synchronously up
    to the next [await] on a Prisma call and is resumed with the result.
    A method is therefore embedded as a tree of database commands with
    continuations ([Prog]); running one tree to completion gives the
    behaviour of a single request, and interleaving the commands of two
    trees gives the behaviour of two requests in flight at once. *)

From Stdlib Require Import ZArith String Ascii List Bool Lia.
From stdpp Require Import base option list strings pretty gmap.

Local Open Scope string_scope.
Local Open Scope Z_scope.
Local Open Scope list_scope.

(** ** Data model *)

(** A row of the [User] table ([model User] of schema.prisma). [DateTime]
    columns are milliseconds since the epoch; a nullable column is an
    [option]. The bookkeeping columns [createdAt] and [updatedAt], which
    only Prisma writes and no service method reads, are left out. *)
Record User : Type := mkUser {
  id : string;
  email : string;
  password : string;
  name : string;
  lastName : string;
  address : option string;
  phone : option string;
  isActive : bool;
  activationToken : option string;
  activationTokenExpires : option Z;
  resetToken : option string;
  resetTokenExpiry : option Z;
  refreshToken : option string;
  refreshTokenExpires : option Z;
  roleId : string
}.

(** [model Role]. *)
Record Role : Type := mkRole {
  role_id : string;
  role_name : string;
  role_description : option string
}.

(** An outgoing message handed to [MailService.sendEmail]. *)
Record Mail : Type := mkMail {
  mail_to : string;
  mail_subject : string;
  mail_html : string
}.

(** What the requests share: the two tables and the mails sent so far. *)
Record World : Type := mkWorld {
  users : list User;
  roles : list Role;
  outbox : list Mail
}.

(** ** JavaScript values handed back to the HTTP layer *)

#[warnings="-register-all"]
Inductive Value : Type :=
| VNull
| VBool (b : bool)
| VStr (s : string)
| VDate (t : Z)
| VObj (o : gmap string Value).

Abbreviation JsObject := (gmap string Value).

Definition optStr (o : option string) : Value :=
  match o with Some s => VStr s | None => VNull end.

Definition optDate (o : option Z) : Value :=
  match o with Some t => VDate t | None => VNull end.

(** The object Prisma returns for a row: one own property per column. *)
Definition userObject (u : User) : JsObject :=
  list_to_map
    [ ("id", VStr (id u));
      ("email", VStr (email u));
      ("password", VStr (password u));
      ("name", VStr (name u));
      ("lastName", VStr (lastName u));
      ("address", optStr (address u));
      ("phone", optStr (phone u));
      ("isActive", VBool (isActive u));
      ("activationToken", optStr (activationToken u));
      ("activationTokenExpires", optDate (activationTokenExpires u));
      ("resetToken", optStr (resetToken u));
      ("resetTokenExpiry", optDate (resetTokenExpiry u));
      ("refreshToken", optStr (refreshToken u));
      ("refreshTokenExpires", optDate (refreshTokenExpires u));
      ("roleId", VStr (roleId u)) ].

Definition roleObject (r : Role) : JsObject :=
  list_to_map
    [ ("id", VStr (role_id r));
      ("name", VStr (role_name r));
      ("description", optStr (role_description r)) ].

(** [const { password, ...result } = user]: the rest object has every own
    property of [user] but [password]. *)
Definition withoutPassword (o : JsObject) : JsObject := delete "password" o.

Arguments userObject : simpl never.
Arguments roleObject : simpl never.
Arguments withoutPassword : simpl never.

(** ** Exceptions *)

(** Error codes of [PrismaClientKnownRequestError] that the table can
    raise: a unique constraint (the violated column is the target), a
    foreign key, and an update of a record that does not exist. *)
Inductive PrismaCode : Type :=
| P2002 (target : string)
| P2003
| P2025.

Inductive Exception : Type :=
| UnauthorizedException (message : string)
| ForbiddenException (error : string) (userEmail : string)
    (tokenExpires : option Z)
| NotFoundException (message : string)
| ConflictException (message : string)
| InternalServerErrorException (message : string)
| PrismaClientKnownRequestError (code : PrismaCode)
| RangeError (message : string).

(** The settled state of a promise (or the completion of a call). *)
Inductive Outcome (A : Type) : Type :=
| Returned (a : A)
| Thrown (e : Exception).
Arguments Returned {A} a.
Arguments Thrown {A} e.

Definition succeeded {A} (o : Outcome A) : bool :=
  match o with Returned _ => true | Thrown _ => false end.

(** The error kinds the specification distinguishes. *)
Inductive ErrorKind : Type :=
| Unauthorized | AccountInactive | NotFound | Conflict | Internal.

Definition kindOf (e : Exception) : ErrorKind :=
  match e with
  | UnauthorizedException _ => Unauthorized
  | ForbiddenException _ _ _ => AccountInactive
  | NotFoundException _ => NotFound
  | ConflictException _ => Conflict
  | InternalServerErrorException _ => Internal
  | PrismaClientKnownRequestError _ => Internal
  | RangeError _ => Internal
  end.

(** ** The [User] table as Prisma exposes it *)

(** The [where] arguments the services pass to [findUnique]. The last one
    is [{ refreshToken, refreshTokenExpires: { gt: d } }]. *)
Inductive UserWhere : Type :=
| WhereId (i : string)
| WhereEmail (e : string)
| WhereActivationToken (t : string)
| WhereResetToken (t : string)
| WhereRefreshTokenGt (t : string) (d : Z).

Definition optStrEq (o : option string) (s : string) : bool :=
  match o with Some x => String.eqb x s | None => false end.

(** SQL comparison with a nullable column: [NULL > d] is not true. *)
Definition optGt (o : option Z) (d : Z) : bool :=
  match o with Some x => d <? x | None => false end.

Definition matches (w : UserWhere) (u : User) : bool :=
  match w with
  | WhereId i => String.eqb (id u) i
  | WhereEmail e => String.eqb (email u) e
  | WhereActivationToken t => optStrEq (activationToken u) t
  | WhereResetToken t => optStrEq (resetToken u) t
  | WhereRefreshTokenGt t d =>
      optStrEq (refreshToken u) t && optGt (refreshTokenExpires u) d
  end.

Definition findUnique (w : UserWhere) (us : list User) : option User :=
  find (matches w) us.

(** The [data] argument of [update]: a column that is not mentioned keeps
    its value; a nullable column can be set to [null] ([Some None]). *)
Record UserData : Type := mkUserData {
  d_password : option string;
  d_isActive : option bool;
  d_activationToken : option (option string);
  d_activationTokenExpires : option (option Z);
  d_resetToken : option (option string);
  d_resetTokenExpiry : option (option Z);
  d_refreshToken : option (option string);
  d_refreshTokenExpires : option (option Z)
}.

Definition applyData (d : UserData) (u : User) : User :=
  {| id := id u;
     email := email u;
     password := default (password u) (d_password d);
     name := name u;
     lastName := lastName u;
     address := address u;
     phone := phone u;
     isActive := default (isActive u) (d_isActive d);
     activationToken := default (activationToken u) (d_activationToken d);
     activationTokenExpires :=
       default (activationTokenExpires u) (d_activationTokenExpires d);
     resetToken := default (resetToken u) (d_resetToken d);
     resetTokenExpiry := default (resetTokenExpiry u) (d_resetTokenExpiry d);
     refreshToken := default (refreshToken u) (d_refreshToken d);
     refreshTokenExpires :=
       default (refreshTokenExpires u) (d_refreshTokenExpires d);
     roleId := roleId u |}.

(** Two values of a [String? @unique] column clash when both are present
    and equal; [NULL] clashes with nothing. *)
Definition clash (a b : option string) : bool :=
  match a, b with
  | Some x, Some y => String.eqb x y
  | _, _ => false
  end.

(** The first unique index, in the order of the schema, that row [u]
    would violate against the rows [others]. *)
Definition uniqueViolation (u : User) (others : list User) : option string :=
  if existsb (fun r => String.eqb (id r) (id u)) others then Some "id"
  else if existsb (fun r => String.eqb (email r) (email u)) others
       then Some "email"
  else if existsb (fun r => clash (activationToken r) (activationToken u))
            others then Some "activationToken"
  else if existsb (fun r => clash (resetToken r) (resetToken u)) others
       then Some "resetToken"
  else if existsb (fun r => clash (refreshToken r) (refreshToken u)) others
       then Some "refreshToken"
  else None.

Definition otherThan (i : string) (us : list User) : list User :=
  List.filter (fun r => negb (String.eqb (id r) i)) us.

Definition replaceRow (u' : User) (us : list User) : list User :=
  map (fun r => if String.eqb (id r) (id u') then u' else r) us.

(** [prisma.user.update({ where: { id }, data })]: P2025 when no row has
    that id, P2002 when the new row would break a unique index, else the
    row is replaced and returned. *)
Definition prismaUpdate (i : string) (d : UserData) (us : list User)
  : Outcome User * list User :=
  match findUnique (WhereId i) us with
  | None => (Thrown (PrismaClientKnownRequestError P2025), us)
  | Some u =>
      let u' := applyData d u in
      match uniqueViolation u' (otherThan i us) with
      | Some col => (Thrown (PrismaClientKnownRequestError (P2002 col)), us)
      | None => (Returned u', replaceRow u' us)
      end
  end.

(** [prisma.user.create({ data })]: the new row must respect the unique
    indexes and point at an existing role. *)
Definition prismaCreate (u : User) (w : World) : Outcome User * list User :=
  match uniqueViolation u (users w) with
  | Some col => (Thrown (PrismaClientKnownRequestError (P2002 col)), users w)
  | None =>
      if existsb (fun r => String.eqb (role_id r) (roleId u)) (roles w)
      then (Returned u, users w ++ [u])
      else (Thrown (PrismaClientKnownRequestError P2003), users w)
  end.

Definition findRole (i : string) (rs : list Role) : option Role :=
  find (fun r => String.eqb (role_id r) i) rs.

(** ** Asynchronous methods as command trees *)

(** One constructor per kind of suspension point of the service methods:
    the Prisma calls that are awaited, the [bcrypt] calls that are awaited
    ([Pause]: the world is not touched), and the call that hands a mail to
    [MailService.sendEmail] without awaiting it. [Done] is the settled
    promise. *)
Inductive Prog (A : Type) : Type :=
| Done (o : Outcome A)
| FindUnique (w : UserWhere) (k : option User -> Prog A)
| FindUniqueRole (w : UserWhere) (k : option (User * option Role) -> Prog A)
| Update (i : string) (d : UserData) (k : Outcome User -> Prog A)
| Create (u : User) (k : Outcome User -> Prog A)
| Pause (k : Prog A)
| SendEmail (m : Mail) (k : Prog A).
Arguments Done {A} o.
Arguments FindUnique {A} w k.
Arguments FindUniqueRole {A} w k.
Arguments Update {A} i d k.
Arguments Create {A} u k.
Arguments Pause {A} k.
Arguments SendEmail {A} m k.

Definition setUsers (w : World) (us : list User) : World :=
  {| users := us; roles := roles w; outbox := outbox w |}.

(** Executes the command at the head of [p] against the world. *)
Definition step {A} (p : Prog A) (w : World) : Prog A * World :=
  match p with
  | Done o => (Done o, w)
  | FindUnique wh k => (k (findUnique wh (users w)), w)
  | FindUniqueRole wh k =>
      (k (match findUnique wh (users w) with
          | Some u => Some (u, findRole (roleId u) (roles w))
          | None => None
          end), w)
  | Update i d k =>
      let '(r, us) := prismaUpdate i d (users w) in (k r, setUsers w us)
  | Create u k =>
      let '(r, us) := prismaCreate u w in (k r, setUsers w us)
  | Pause k => (k, w)
  | SendEmail m k =>
      (k, {| users := users w; roles := roles w; outbox := outbox w ++ [m] |})
  end.

(** A request served with no other request in flight. *)
Fixpoint run {A} (p : Prog A) (w : World) : Outcome A * World :=
  match p with
  | Done o => (o, w)
  | FindUnique wh k => run (k (findUnique wh (users w))) w
  | FindUniqueRole wh k =>
      run (k (match findUnique wh (users w) with
              | Some u => Some (u, findRole (roleId u) (roles w))
              | None => None
              end)) w
  | Update i d k =>
      let '(r, us) := prismaUpdate i d (users w) in run (k r) (setUsers w us)
  | Create u k =>
      let '(r, us) := prismaCreate u w in run (k r) (setUsers w us)
  | Pause k => run k w
  | SendEmail m k =>
      run k {| users := users w; roles := roles w; outbox := outbox w ++ [m] |}
  end.

(** [await p] inside another method: a rejection of [p] rejects the
    caller, a value resumes it. *)
Fixpoint bind {A B} (p : Prog A) (f : A -> Prog B) : Prog B :=
  match p with
  | Done (Returned a) => f a
  | Done (Thrown e) => Done (Thrown e)
  | FindUnique wh k => FindUnique wh (fun r => bind (k r) f)
  | FindUniqueRole wh k => FindUniqueRole wh (fun r => bind (k r) f)
  | Update i d k => Update i d (fun r => bind (k r) f)
  | Create u k => Create u (fun r => bind (k r) f)
  | Pause k => Pause (bind k f)
  | SendEmail m k => SendEmail m (bind k f)
  end.

Definition ret {A} (a : A) : Prog A := Done (Returned a).
Definition throw {A} (e : Exception) : Prog A := Done (Thrown e).

(** Two requests in flight: the schedule says whose head command runs
    next ([true] for the first request). *)
Fixpoint interleave {A B} (sched : list bool) (p : Prog A) (q : Prog B)
    (w : World) : Prog A * Prog B * World :=
  match sched with
  | [] => (p, q, w)
  | true :: s => let '(p', w') := step p w in interleave s p' q w'
  | false :: s => let '(q', w') := step q w in interleave s p q' w'
  end.

(** ** Collaborators outside the repository *)

(** [bcrypt], the two [JwtService] instances and the clock-dependent
    verification of a refresh token. [bcryptHash] takes the salt that the
    library draws; the JWT functions take the instant of the call. *)
Class Crypto : Type := {
  bcryptHash : string -> string -> string;
  bcryptCompare : string -> string -> bool;
  accessSign : string -> string -> Z -> string;
  refreshSign : string -> string -> Z -> string;
  refreshVerify : string -> Z -> bool
}.

(** [ConfigService.get('FRONTEND_URL')] and the two mail templates. *)
Class Config : Type := {
  FRONTEND_URL : string;
  activationUserEmailTemplate : string -> string;
  resetPasswordEmailTemplate : string -> string
}.

(** Reads a string property of an object ([user.id], [user.email]). *)
Definition propStr (k : string) (o : JsObject) : string :=
  match o !! k with Some (VStr s) => s | _ => "" end.

(** ** src/auth/auth.service.ts *)

Record LoginResponse : Type := mkLoginResponse {
  access_token : string;
  refresh_token : string
}.

Module AuthService.
Section WithCollaborators.
Context {crypto : Crypto}.

(** [validateUser(email, pass)]: the inactive check comes first and throws;
    only then is the password compared. The value is the user without its
    [password] property, or [null]. *)
Definition validateUser (mail pass : string) : Prog (option JsObject) :=
  FindUnique (WhereEmail mail) (fun user =>
    match user with
    | Some u =>
        if negb (isActive u)
        then throw (ForbiddenException "Account Inactive" (email u)
                      (activationTokenExpires u))
        else Pause (if bcryptCompare pass (password u)
                    then ret (Some (withoutPassword (userObject u)))
                    else ret None)
    | None => ret None
    end).

Definition sevenDays : Z := 7 * 24 * 60 * 60 * 1000.

(** [data: { refreshToken: token, refreshTokenExpires: expires }]. *)
Definition storeRefresh (token : string) (expires : Z) : UserData :=
  {| d_password := None; d_isActive := None;
     d_activationToken := None; d_activationTokenExpires := None;
     d_resetToken := None; d_resetTokenExpiry := None;
     d_refreshToken := Some (Some token);
     d_refreshTokenExpires := Some (Some expires) |}.

(** [login(user)] for the payload [{ id, email }], called at instant [now]. *)
Definition login (uid mail : string) (now : Z) : Prog LoginResponse :=
  let accessToken := accessSign mail uid now in
  let refreshToken := refreshSign mail uid now in
  Update uid (storeRefresh refreshToken (now + sevenDays))
    (fun r =>
       match r with
       | Returned _ => ret (mkLoginResponse accessToken refreshToken)
       | Thrown _ =>
           throw (InternalServerErrorException
                    "Failed to complete login process.")
       end).

(** [data: { refreshToken: null, refreshTokenExpires: null }]. *)
Definition clearRefresh : UserData :=
  {| d_password := None; d_isActive := None;
     d_activationToken := None; d_activationTokenExpires := None;
     d_resetToken := None; d_resetTokenExpiry := None;
     d_refreshToken := Some None;
     d_refreshTokenExpires := Some None |}.

(** [logout(userId)]: the P2025 of a missing user is turned into the same
    success message. *)
Definition logout (userId : string) : Prog string :=
  Update userId clearRefresh (fun r =>
    match r with
    | Returned _ => ret "Logout successful"
    | Thrown (PrismaClientKnownRequestError P2025) => ret "Logout successful"
    | Thrown _ =>
        throw (InternalServerErrorException "Failed to process logout.")
    end).

(** [refreshToken(refreshToken)]: [now] is the instant of the query,
    [now'] the instant at which the method is resumed with its result. *)
Definition refreshToken (token : string) (now now' : Z)
  : Prog LoginResponse :=
  FindUnique (WhereRefreshTokenGt token now) (fun dbUser =>
    match dbUser with
    | None => throw (UnauthorizedException "Invalid or expired refresh token")
    | Some u =>
        if refreshVerify token now'
        then
          let newAccessToken := accessSign (email u) (id u) now' in
          let newRefreshToken := refreshSign (email u) (id u) now' in
          Update (id u) (storeRefresh newRefreshToken (now' + sevenDays))
            (fun r =>
               match r with
               | Returned _ =>
                   ret (mkLoginResponse newAccessToken newRefreshToken)
               | Thrown e => throw e
               end)
        else
          Update (id u) clearRefresh (fun r =>
            match r with
            | Returned _ =>
                throw (UnauthorizedException "Invalid refresh token")
            | Thrown e => throw e
            end)
    end).

(** [getProfile(user)] for the payload [{ id, email }]: the row found by
    email, with its role included, is returned as it is. (The foreign key
    makes the role exist; a dangling [roleId] would show as [null].) *)
Definition getProfile (uid mail : string) : Prog JsObject :=
  FindUniqueRole (WhereEmail mail) (fun userFound =>
    match userFound with
    | None =>
        throw (NotFoundException
                 ("User con ID " +:+ uid +:+ " no encontrado"))
    | Some (u, r) =>
        ret (<["role" := match r with
                         | Some role => VObj (roleObject role)
                         | None => VNull
                         end]> (userObject u))
    end).

End WithCollaborators.
End AuthService.

(** ** src/users/users.service.ts *)

Record CreateUserDto : Type := mkCreateUserDto {
  dto_email : string;
  dto_password : string;
  dto_name : string;
  dto_lastName : string;
  dto_address : option string;
  dto_phone : option string;
  dto_roleId : string
}.

Module UsersService.
Section WithCollaborators.
Context {crypto : Crypto} {config : Config}.

Definition oneDay : Z := 24 * 60 * 60 * 1000.
Definition oneHour : Z := 1 * 60 * 60 * 1000.

(** [!d || d < now] for a nullable date column. *)
Definition expiredAt (d : option Z) (now : Z) : bool :=
  match d with
  | None => true
  | Some t => t <? now
  end.

Definition activationMail (u : User) (token : string) : Mail :=
  mkMail (email u) "Activate Your Account"
    (activationUserEmailTemplate
       (FRONTEND_URL +:+ "/users/activate/" +:+ token)).

Definition resetMail (u : User) (token : string) : Mail :=
  mkMail (email u) "Reset Your Password"
    (resetPasswordEmailTemplate
       (FRONTEND_URL +:+ "/auth/update-password/?token=" +:+ token)).

(** [data: { ...createUserDto, password: hashedPassword, activationToken,
    activationTokenExpires, isActive: false }]; the columns that are not
    given take their defaults ([uuid()] for the id, null for the rest). *)
Definition newUser (dto : CreateUserDto) (uuid hashedPassword token : string)
    (expires : Z) : User :=
  {| id := uuid;
     email := dto_email dto;
     password := hashedPassword;
     name := dto_name dto;
     lastName := dto_lastName dto;
     address := dto_address dto;
     phone := dto_phone dto;
     isActive := false;
     activationToken := Some token;
     activationTokenExpires := Some expires;
     resetToken := None;
     resetTokenExpiry := None;
     refreshToken := None;
     refreshTokenExpires := None;
     roleId := dto_roleId dto |}.

(** [create(createUserDto)]: [salt] is what bcrypt draws, [token] what
    [generateActivationToken] draws, [uuid] the default of the [id] column. *)
Definition create (dto : CreateUserDto) (salt token uuid : string) (now : Z)
  : Prog JsObject :=
  Pause
    (let hashedPassword := bcryptHash (dto_password dto) salt in
     Create (newUser dto uuid hashedPassword token (now + oneDay))
       (fun r =>
          match r with
          | Returned user =>
              SendEmail (activationMail user token)
                (ret (withoutPassword (userObject user)))
          | Thrown (PrismaClientKnownRequestError (P2002 target)) =>
              throw (ConflictException
                       ("User with this " +:+ target +:+ " already exists."))
          | Thrown _ =>
              throw (InternalServerErrorException "Could not create user.")
          end)).

Definition findUserByEmail (mail : string) : Prog (option User) :=
  FindUnique (WhereEmail mail) (fun user => ret user).

Definition findByActivationToken (token : string) : Prog (option User) :=
  if String.eqb token "" then ret None
  else FindUnique (WhereActivationToken token) (fun user => ret user).

(** [findByResetToken(resetToken)], the expiry checked at instant [now]. *)
Definition findByResetToken (token : string) (now : Z) : Prog JsObject :=
  if String.eqb token ""
  then throw (NotFoundException "Reset token is required.")
  else
    FindUnique (WhereResetToken token) (fun user =>
      match user with
      | None => throw (NotFoundException "Invalid reset token.")
      | Some u =>
          if expiredAt (resetTokenExpiry u) now
          then throw (NotFoundException "Reset token has expired.")
          else ret (withoutPassword (userObject u))
      end).

(** [data: { isActive: true, activationToken: null,
    activationTokenExpires: null }]. *)
Definition activated : UserData :=
  {| d_password := None; d_isActive := Some true;
     d_activationToken := Some None; d_activationTokenExpires := Some None;
     d_resetToken := None; d_resetTokenExpiry := None;
     d_refreshToken := None; d_refreshTokenExpires := None |}.

(** [activateUser(token)], the expiry checked at instant [now]. *)
Definition activateUser (token : string) (now : Z) : Prog JsObject :=
  bind (findByActivationToken token) (fun user =>
    match user with
    | None => throw (UnauthorizedException "Invalid activation token.")
    | Some u =>
        if expiredAt (activationTokenExpires u) now
        then throw (UnauthorizedException "Activation token has expired.")
        else
          Update (id u) activated (fun r =>
            match r with
            | Returned updatedUser =>
                ret (withoutPassword (userObject updatedUser))
            | Thrown e => throw e
            end)
    end).

(** [data: { resetToken, resetTokenExpiry }]. *)
Definition storeReset (token : string) (expiry : Z) : UserData :=
  {| d_password := None; d_isActive := None;
     d_activationToken := None; d_activationTokenExpires := None;
     d_resetToken := Some (Some token);
     d_resetTokenExpiry := Some (Some expiry);
     d_refreshToken := None; d_refreshTokenExpires := None |}.

(** [resetPassword(email)]: [token] is what [generateResetPasswordToken]
    draws, [now] the instant at which the expiry is computed. *)
Definition resetPassword (mail token : string) (now : Z) : Prog JsObject :=
  bind (findUserByEmail mail) (fun user =>
    match user with
    | None => throw (NotFoundException "User not found")
    | Some u =>
        Update (id u) (storeReset token (now + oneHour))
          (fun r =>
             match r with
             | Returned userUpdated =>
                 SendEmail (resetMail u token)
                   (ret (withoutPassword (userObject userUpdated)))
             | Thrown _ =>
                 throw (InternalServerErrorException
                          "Failed to process password reset")
             end)
    end).

(** [data: { password: hashedPassword, resetToken: null,
    resetTokenExpiry: null }]. *)
Definition passwordReset (hashedPassword : string) : UserData :=
  {| d_password := Some hashedPassword; d_isActive := None;
     d_activationToken := None; d_activationTokenExpires := None;
     d_resetToken := Some None; d_resetTokenExpiry := Some None;
     d_refreshToken := None; d_refreshTokenExpires := None |}.

(** [updatePassword(resetToken, newPassword)]. *)
Definition updatePassword (token newPassword salt : string) (now : Z)
  : Prog JsObject :=
  bind (findByResetToken token now) (fun user =>
    Pause
      (let hashedPassword := bcryptHash newPassword salt in
       Update (propStr "id" user) (passwordReset hashedPassword) (fun r =>
         match r with
         | Returned userUpdated =>
             ret (withoutPassword (userObject userUpdated))
         | Thrown _ =>
             throw (InternalServerErrorException
                      "Could not update password.")
         end))).

(** [data: { password: hashedPassword }]. *)
Definition storePassword (hashedPassword : string) : UserData :=
  {| d_password := Some hashedPassword; d_isActive := None;
     d_activationToken := None; d_activationTokenExpires := None;
     d_resetToken := None; d_resetTokenExpiry := None;
     d_refreshToken := None; d_refreshTokenExpires := None |}.

(** [changePassword(userId, currentPassword, newPassword)]. *)
Definition changePassword (userId currentPassword newPassword salt : string)
  : Prog JsObject :=
  FindUnique (WhereId userId) (fun user =>
    match user with
    | None => throw (UnauthorizedException "User not found.")
    | Some u =>
        Pause
          (if bcryptCompare currentPassword (password u)
           then
             Pause
               (let hashedPassword := bcryptHash newPassword salt in
                Update userId (storePassword hashedPassword)
                  (fun r =>
                     match r with
                     | Returned userUpdated =>
                         ret (withoutPassword (userObject userUpdated))
                     | Thrown _ =>
                         throw (InternalServerErrorException
                                  "Could not change password.")
                     end))
           else throw (UnauthorizedException "Incorrect current password."))
    end).

(** [data: { activationToken, activationTokenExpires }]. *)
Definition storeActivation (token : string) (expires : Z) : UserData :=
  {| d_password := None; d_isActive := None;
     d_activationToken := Some (Some token);
     d_activationTokenExpires := Some (Some expires);
     d_resetToken := None; d_resetTokenExpiry := None;
     d_refreshToken := None; d_refreshTokenExpires := None |}.

(** [findByEmailAndSendEmailActivation(email)]: a new activation token
    [token] for the account, valid for a day from [now]. *)
Definition findByEmailAndSendEmailActivation (mail token : string) (now : Z)
  : Prog JsObject :=
  if String.eqb mail ""
  then throw (NotFoundException "Email is required.")
  else
    FindUnique (WhereEmail mail) (fun user =>
      match user with
      | None => throw (NotFoundException "Invalid email.")
      | Some u =>
          Update (id u) (storeActivation token (now + oneDay))
            (fun r =>
               match r with
               | Returned updatedUser =>
                   SendEmail (activationMail u token)
                     (ret (withoutPassword (userObject updatedUser)))
               | Thrown e => throw e
               end)
      end).

End WithCollaborators.
End UsersService.

(** ** src/utils/auth-utils.ts *)

Module AuthUtils.

(** Value of a hexadecimal digit, as Node's decoder reads it. *)
Definition unhex (c : ascii) : option Z :=
  let n := Z.of_nat (nat_of_ascii c) in
  if (48 <=? n) && (n <=? 57) then Some (n - 48)
  else if (97 <=? n) && (n <=? 102) then Some (n - 87)
  else if (65 <=? n) && (n <=? 70) then Some (n - 55)
  else None.

(** [Buffer.from(s, 'hex')]: one byte per pair of hexadecimal digits; the
    decoding stops at the first pair that is not, and a trailing single
    character is dropped. *)
Fixpoint bufferFromHex (s : string) : list Z :=
  match s with
  | String a (String b rest) =>
      match unhex a, unhex b with
      | Some hi, Some lo => Z.lor (Z.shiftl hi 4) lo :: bufferFromHex rest
      | _, _ => []
      end
  | _ => []
  end.

Fixpoint bytesEqual (a b : list Z) : bool :=
  match a, b with
  | [], [] => true
  | x :: a', y :: b' => (x =? y) && bytesEqual a' b'
  | _, _ => false
  end.

(** [crypto.timingSafeEqual(a, b)]: Node throws a [RangeError] when the
    buffers differ in byte length, and compares them otherwise. *)
Definition timingSafeEqual (a b : list Z) : Outcome bool :=
  if (length a =? length b)%nat
  then Returned (bytesEqual a b)
  else Thrown (RangeError "Input buffers must have the same byte length").

Definition verifyActivationToken (storedToken providedToken : string)
  : Outcome bool :=
  timingSafeEqual (bufferFromHex storedToken) (bufferFromHex providedToken).

End AuthUtils.

(** ** Integrity of the table *)

(** The primary key and the four unique indexes of [model User] hold on
    the rows: no row clashes with a later one. *)
Fixpoint uniqueRows (us : list User) : bool :=
  match us with
  | [] => true
  | u :: rest =>
      match uniqueViolation u rest with
      | None => uniqueRows rest
      | Some _ => false
      end
  end.

(** Row [r] and row [u] cannot both be in the table. *)
Definition clashes (r u : User) : bool :=
  String.eqb (id r) (id u)
  || String.eqb (email r) (email u)
  || clash (activationToken r) (activationToken u)
  || clash (resetToken r) (resetToken u)
  || clash (refreshToken r) (refreshToken u).

(** An [update] that writes no new token value: every token column is
    left alone or set to null. *)
Definition cleared {A} (o : option (option A)) : Prop :=
  match o with
  | Some (Some _) => False
  | _ => True
  end.

Definition noNewToken (d : UserData) : Prop :=
  cleared (d_activationToken d) /\
  cleared (d_resetToken d) /\
  cleared (d_refreshToken d).

Definition isNull {A} (o : option A) : bool :=
  match o with
  | None => true
  | Some _ => false
  end.

(** A token column is null exactly when its expiry column is. *)
Definition paired (u : User) : bool :=
  Bool.eqb (isNull (activationToken u)) (isNull (activationTokenExpires u))
  && Bool.eqb (isNull (resetToken u)) (isNull (resetTokenExpiry u))
  && Bool.eqb (isNull (refreshToken u)) (isNull (refreshTokenExpires u)).

(** The same for the columns an [update] writes: a token and its expiry
    are written together, both to a value or both to null, or neither is
    written. *)
Definition pairedWrite {A B} (t : option (option A)) (e : option (option B))
  : bool :=
  match t, e with
  | None, None => true
  | Some a, Some b => Bool.eqb (isNull a) (isNull b)
  | _, _ => false
  end.

Definition pairedData (d : UserData) : bool :=
  pairedWrite (d_activationToken d) (d_activationTokenExpires d)
  && pairedWrite (d_resetToken d) (d_resetTokenExpiry d)
  && pairedWrite (d_refreshToken d) (d_refreshTokenExpires d).

(** Every write a command tree can issue keeps tokens and expiries
    together. *)
Inductive pairedProg {A : Type} : Prog A -> Prop :=
| pairedDone o : pairedProg (Done o)
| pairedFindUnique w k :
    (forall r, pairedProg (k r)) -> pairedProg (FindUnique w k)
| pairedFindUniqueRole w k :
    (forall r, pairedProg (k r)) -> pairedProg (FindUniqueRole w k)
| pairedUpdate i d k :
    pairedData d = true -> (forall r, pairedProg (k r)) ->
    pairedProg (Update i d k)
| pairedCreate u k :
    paired u = true -> (forall r, pairedProg (k r)) ->
    pairedProg (Create u k)
| pairedPause k : pairedProg k -> pairedProg (Pause k)
| pairedSendEmail m k : pairedProg k -> pairedProg (SendEmail m k).

(** Every object a command tree can resolve to lacks the [password]
    property. *)
Inductive hidesPassword : Prog JsObject -> Prop :=
| hidesThrown e : hidesPassword (Done (Thrown e))
| hidesReturned o : o !! "password" = None -> hidesPassword (Done (Returned o))
| hidesFindUnique w k :
    (forall r, hidesPassword (k r)) -> hidesPassword (FindUnique w k)
| hidesFindUniqueRole w k :
    (forall r, hidesPassword (k r)) -> hidesPassword (FindUniqueRole w k)
| hidesUpdate i d k :
    (forall r, hidesPassword (k r)) -> hidesPassword (Update i d k)
| hidesCreate u k :
    (forall r, hidesPassword (k r)) -> hidesPassword (Create u k)
| hidesPause k : hidesPassword k -> hidesPassword (Pause k)
| hidesSendEmail m k : hidesPassword k -> hidesPassword (SendEmail m k).

(** ** The remaining methods of src/users/users.service.ts *)

(** [findMany], [delete] and an [update] of the profile columns are not
    commands of [Prog]; the methods that use them are written directly as
    the function of the world that serving one request computes. *)

Record UpdateUserDto : Type := mkUpdateUserDto {
  upd_email : option string;
  upd_password : option string;
  upd_name : option string;
  upd_lastName : option string;
  upd_address : option string;
  upd_phone : option string;
  upd_isActive : option bool;
  upd_roleId : option string
}.

Module UsersCrud.
Section WithCollaborators.
Context {crypto : Crypto}.

(** The row with its [role] relation included. *)
Definition withRole (u : User) (r : option Role) : JsObject :=
  <["role" := match r with
              | Some role => VObj (roleObject role)
              | None => VNull
              end]> (userObject u).

(** [findAll()]: every row with its role, returned as found. *)
Definition findAll (w : World) : list JsObject :=
  map (fun u => withRole u (findRole (roleId u) (roles w))) (users w).

(** [findOne(id)]. *)
Definition findOne (i : string) : Prog JsObject :=
  FindUniqueRole (WhereId i) (fun user =>
    match user with
    | None =>
        throw (NotFoundException ("User with ID " +:+ i +:+ " not found."))
    | Some (u, r) => ret (withoutPassword (withRole u r))
    end).

(** The row after [data: dataToUpdate]: a key that is absent keeps the
    column. *)
Definition applyUpdate (d : UpdateUserDto) (u : User) : User :=
  {| id := id u;
     email := default (email u) (upd_email d);
     password := default (password u) (upd_password d);
     name := default (name u) (upd_name d);
     lastName := default (lastName u) (upd_lastName d);
     address := match upd_address d with
                | Some a => Some a
                | None => address u
                end;
     phone := match upd_phone d with
              | Some p => Some p
              | None => phone u
              end;
     isActive := default (isActive u) (upd_isActive d);
     activationToken := activationToken u;
     activationTokenExpires := activationTokenExpires u;
     resetToken := resetToken u;
     resetTokenExpiry := resetTokenExpiry u;
     refreshToken := refreshToken u;
     refreshTokenExpires := refreshTokenExpires u;
     roleId := default (roleId u) (upd_roleId d) |}.

(** [prisma.user.update({ where: { id }, data })] for that data: the
    unique indexes are checked on the new row, and the foreign key when
    [roleId] is written. *)
Definition prismaUpdateUser (i : string) (d : UpdateUserDto) (w : World)
  : Outcome User * list User :=
  match findUnique (WhereId i) (users w) with
  | None => (Thrown (PrismaClientKnownRequestError P2025), users w)
  | Some u =>
      let u' := applyUpdate d u in
      match uniqueViolation u' (otherThan i (users w)) with
      | Some col =>
          (Thrown (PrismaClientKnownRequestError (P2002 col)), users w)
      | None =>
          match upd_roleId d with
          | Some r =>
              if existsb (fun x => String.eqb (role_id x) r) (roles w)
              then (Returned u', replaceRow u' (users w))
              else (Thrown (PrismaClientKnownRequestError P2003), users w)
          | None => (Returned u', replaceRow u' (users w))
          end
      end
  end.

(** [dataToUpdate]: a password that is present and not empty is replaced by
    its hash, any other is deleted from the data. *)
Definition dataToUpdate (dto : UpdateUserDto) (salt : string) : UpdateUserDto :=
  {| upd_email := upd_email dto;
     upd_password :=
       match upd_password dto with
       | Some p => if String.eqb p "" then None else Some (bcryptHash p salt)
       | None => None
       end;
     upd_name := upd_name dto;
     upd_lastName := upd_lastName dto;
     upd_address := upd_address dto;
     upd_phone := upd_phone dto;
     upd_isActive := upd_isActive dto;
     upd_roleId := upd_roleId dto |}.

(** [update(id, updateUserDto)]. *)
Definition update (i : string) (dto : UpdateUserDto) (salt : string)
    (w : World) : Outcome JsObject * World :=
  match run (findOne i) w with
  | (Thrown e, w1) => (Thrown e, w1)
  | (Returned _, w1) =>
      match prismaUpdateUser i (dataToUpdate dto salt) w1 with
      | (Returned updatedUser, us) =>
          (Returned (withoutPassword (userObject updatedUser)),
           setUsers w1 us)
      | (Thrown (PrismaClientKnownRequestError (P2002 target)), us) =>
          (Thrown (ConflictException
                     ("Update failed: " +:+ target +:+ " must be unique.")),
           setUsers w1 us)
      | (Thrown _, us) =>
          (Thrown (InternalServerErrorException "Could not update user."),
           setUsers w1 us)
      end
  end.

(** [prisma.user.delete({ where: { id } })]. *)
Definition prismaDelete (i : string) (us : list User)
  : Outcome User * list User :=
  match findUnique (WhereId i) us with
  | None => (Thrown (PrismaClientKnownRequestError P2025), us)
  | Some u => (Returned u, otherThan i us)
  end.

(** [remove(id)]. *)
Definition remove (i : string) (w : World) : Outcome unit * World :=
  match prismaDelete i (users w) with
  | (Returned _, us) => (Returned tt, setUsers w us)
  | (Thrown (PrismaClientKnownRequestError P2025), us) =>
      (Thrown (NotFoundException ("User with ID " +:+ i +:+ " not found.")),
       setUsers w us)
  | (Thrown _, us) =>
      (Thrown (InternalServerErrorException "Could not delete user."),
       setUsers w us)
  end.

End WithCollaborators.
End UsersCrud.

(** ** Token generation of src/utils/auth-utils.ts *)

Module TokenGenerator.

(** The digit [Buffer.toString('hex')] writes for a value below 16. *)
Definition hexDigit (n : Z) : ascii :=
  if n <? 10 then ascii_of_nat (Z.to_nat (48 + n))
  else ascii_of_nat (Z.to_nat (87 + n)).

(** [buffer.toString('hex')]: two lower-case digits per byte. *)
Fixpoint bufferToHex (bs : list Z) : string :=
  match bs with
  | [] => ""
  | b :: rest =>
      String (hexDigit (Z.shiftr b 4))
        (String (hexDigit (Z.land b 15)) (bufferToHex rest))
  end.

(** What [crypto.randomBytes(n)] can return: [n] bytes. *)
Definition isBuffer (n : nat) (bs : list Z) : bool :=
  (length bs =? n)%nat && forallb (fun b => (0 <=? b) && (b <? 256)) bs.

(** [generateActivationToken()] and [generateResetPasswordToken()], given
    the 32 bytes drawn by [crypto.randomBytes(32)]. *)
Definition generateActivationToken (randomBytes : list Z) : string :=
  bufferToHex randomBytes.

Definition generateResetPasswordToken (randomBytes : list Z) : string :=
  bufferToHex randomBytes.

End TokenGenerator.

(** ** src/utils/sanitize-filenames-utils.ts *)

Module SanitizeFilenames.

Fixpoint mapString (f : ascii -> ascii) (s : string) : string :=
  match s with
  | EmptyString => EmptyString
  | String c rest => String (f c) (mapString f rest)
  end.

Definition underscore : ascii := "_"%char.

(** The class [[a-zA-Z0-9_.\-]]. *)
Definition isSafe (c : ascii) : bool :=
  let n := Z.of_nat (nat_of_ascii c) in
  ((97 <=? n) && (n <=? 122))
  || ((65 <=? n) && (n <=? 90))
  || ((48 <=? n) && (n <=? 57))
  || (n =? 95) || (n =? 46) || (n =? 45).

(** [filename.replace(/ /g, '_')]. *)
Definition replaceSpaces (s : string) : string :=
  mapString (fun c => if Ascii.eqb c " "%char then underscore else c) s.

(** [.replace(/[^a-zA-Z0-9_.\-]/g, '_')]. *)
Definition replaceUnsafe (s : string) : string :=
  mapString (fun c => if isSafe c then c else underscore) s.

(** [.replace(/__+/g, '_')]: an underscore that another one follows is
    dropped, so that every run of underscores is left with its last one. *)
Fixpoint collapseUnderscores (s : string) : string :=
  match s with
  | EmptyString => EmptyString
  | String c rest =>
      match rest with
      | String c' _ =>
          if Ascii.eqb c underscore && Ascii.eqb c' underscore
          then collapseUnderscores rest
          else String c (collapseUnderscores rest)
      | EmptyString => String c EmptyString
      end
  end.

(** [sanitizeFilename(filename)]. A character outside ASCII is one or
    more units, every one of them outside the safe class, so that the
    result does not depend on how many. *)
Definition sanitizeFilename (filename : string) : string :=
  collapseUnderscores (replaceUnsafe (replaceSpaces filename)).

Fixpoint allSafe (s : string) : bool :=
  match s with
  | EmptyString => true
  | String c rest => isSafe c && allSafe rest
  end.

Fixpoint noUnderscoreRun (s : string) : bool :=
  match s with
  | String c ((String c' _) as rest) =>
      negb (Ascii.eqb c underscore && Ascii.eqb c' underscore)
      && noUnderscoreRun rest
  | _ => true
  end.

End SanitizeFilenames.

(** ** What a command tree cannot do *)

(** The tree only reads. *)
Inductive readOnly {A : Type} : Prog A -> Prop :=
| readOnlyDone o : readOnly (Done o)
| readOnlyFindUnique w k :
    (forall r, readOnly (k r)) -> readOnly (FindUnique w k)
| readOnlyFindUniqueRole w k :
    (forall r, readOnly (k r)) -> readOnly (FindUniqueRole w k)
| readOnlyPause k : readOnly k -> readOnly (Pause k).

(** The tree settles with a value on every path. *)
Inductive neverThrows {A : Type} : Prog A -> Prop :=
| neverThrowsDone a : neverThrows (Done (Returned a))
| neverThrowsFindUnique w k :
    (forall r, neverThrows (k r)) -> neverThrows (FindUnique w k)
| neverThrowsFindUniqueRole w k :
    (forall r, neverThrows (k r)) -> neverThrows (FindUniqueRole w k)
| neverThrowsUpdate i d k :
    (forall r, neverThrows (k r)) -> neverThrows (Update i d k)
| neverThrowsCreate u k :
    (forall r, neverThrows (k r)) -> neverThrows (Create u k)
| neverThrowsPause k : neverThrows k -> neverThrows (Pause k)
| neverThrowsSendEmail m k : neverThrows k -> neverThrows (SendEmail m k).

(** No path of the tree throws after a write that went through or a mail
    that was handed over. *)
Inductive failsClean {A : Type} : Prog A -> Prop :=
| failsCleanDone o : failsClean (Done o)
| failsCleanFindUnique w k :
    (forall r, failsClean (k r)) -> failsClean (FindUnique w k)
| failsCleanFindUniqueRole w k :
    (forall r, failsClean (k r)) -> failsClean (FindUniqueRole w k)
| failsCleanUpdate i d k :
    (forall e, failsClean (k (Thrown e))) ->
    (forall u, neverThrows (k (Returned u))) ->
    failsClean (Update i d k)
| failsCleanCreate u k :
    (forall e, failsClean (k (Thrown e))) ->
    (forall r, neverThrows (k (Returned r))) ->
    failsClean (Create u k)
| failsCleanPause k : failsClean k -> failsClean (Pause k)
| failsCleanSendEmail m k : neverThrows k -> failsClean (SendEmail m k).

(** ** Sample collaborators and worlds for the examples *)

(** Stand-ins that compute: the hash is a fixed prefix, the salt and the
    password; a token is its kind, the user id and the instant. *)
Definition demoCrypto : Crypto :=
  {| bcryptHash := fun pass salt => "$2b$10$" +:+ salt +:+ pass;
     bcryptCompare := fun pass hash =>
       match hash with
       | String _ (String _ (String _ (String _ (String _ (String _
           (String _ (String _ (String _ rest)))))))) => String.eqb rest pass
       | _ => false
       end;
     accessSign := fun mail uid now => "access." +:+ uid +:+ "." +:+ pretty now;
     refreshSign := fun mail uid now =>
       "refresh." +:+ uid +:+ "." +:+ pretty now;
     refreshVerify := fun token now => String.prefix "refresh." token |}.

Definition demoConfig : Config :=
  {| FRONTEND_URL := "https://tecnet.example";
     activationUserEmailTemplate := fun link => "<a href=" +:+ link +:+ ">";
     resetPasswordEmailTemplate := fun link => "<a href=" +:+ link +:+ ">" |}.

(** An account with one pending token of each class; the two-character
    salt of [demoCrypto] is [s1]. *)
Definition alice : User :=
  {| id := "u1"; email := "alice@example.com";
     password := "$2b$10$s1Secret1!";
     name := "Alice"; lastName := "A"; address := None; phone := None;
     isActive := false;
     activationToken := Some "act-1"; activationTokenExpires := Some 1000;
     resetToken := Some "rst-1"; resetTokenExpiry := Some 1000;
     refreshToken := Some "refresh.u1.0"; refreshTokenExpires := Some 1000;
     roleId := "r1" |}.

Definition bob : User :=
  {| id := "u2"; email := "bob@example.com";
     password := "$2b$10$s2Secret2!";
     name := "Bob"; lastName := "B"; address := None; phone := None;
     isActive := true;
     activationToken := None; activationTokenExpires := None;
     resetToken := None; resetTokenExpiry := None;
     refreshToken := Some "forged"; refreshTokenExpires := Some 5000;
     roleId := "r1" |}.

Definition demoWorld : World :=
  {| users := [alice; bob];
     roles := [mkRole "r1" "admin" None];
     outbox := [] |}.

(** A registration for the examples. *)
Definition carol : CreateUserDto :=
  {| dto_email := "carol@example.com"; dto_password := "Secret3!";
     dto_name := "Carol"; dto_lastName := "C";
     dto_address := None; dto_phone := None; dto_roleId := "r1" |}.

(** * Properties *)

(** ** Token comparison ([verifyActivationToken]) *)

Lemma bytesEqual_spec (a b : list Z) :
  AuthUtils.bytesEqual a b = true <-> a = b.
Proof.
  revert b. induction a as [|x a IH]; intros [|y b]; simpl; try easy.
  rewrite andb_true_iff, Z.eqb_eq, IH. split.
  - intros [-> ->]. reflexivity.
  - intros E. injection E as -> ->. split; reflexivity.
Qed.


Lemma verifyActivationToken_length_mismatch (stored provided : string) :
  length (AuthUtils.bufferFromHex stored)
    <> length (AuthUtils.bufferFromHex provided) ->
  AuthUtils.verifyActivationToken stored provided
    = Thrown (RangeError "Input buffers must have the same byte length").
Proof.
  intros NE. unfold AuthUtils.verifyActivationToken, AuthUtils.timingSafeEqual.
  apply Nat.eqb_neq in NE. rewrite NE. reflexivity.
Qed.

(** C4. The comparison of a stored 32-byte token with a provided token of
    two bytes does not answer [false]: [timingSafeEqual] throws a
    [RangeError], which [verifyActivationToken] lets through. *)
Theorem verifyActivationToken_short_token_throws :
  AuthUtils.verifyActivationToken
    "9f86d081884c7d659a2feaa0c55ad015a3bf4f1b2b0b822cd15d6c15b0f00a08"
    "9f86"
  = Thrown (RangeError "Input buffers must have the same byte length").
Proof. reflexivity. Qed.

(** ** Reading one command tree *)

Lemma run_bind {A B} (p : Prog A) (f : A -> Prog B) (w : World) :
  run (bind p f) w =
  match run p w with
  | (Returned a, w') => run (f a) w'
  | (Thrown e, w') => (Thrown e, w')
  end.
Proof.
  revert w. induction p as [[a|e]|wh k IH|wh k IH|i d k IH|u k IH|k IH|m k IH];
    intros w; simpl; auto.
  - destruct (prismaUpdate i d (users w)) as [r us]. apply IH.
  - destruct (prismaCreate u w) as [r us]. apply IH.
Qed.

(** A schedule that only ever picks the first request serves it exactly as
    [run] does. *)
Lemma run_is_serial {A B} (p : Prog A) (q : Prog B) (w : World) :
  exists n,
    interleave (repeat true n) p q w
    = (Done (fst (run p w)), q, snd (run p w)).
Proof.
  revert w. induction p as [o|wh k IH|wh k IH|i d k IH|u k IH|k IH|m k IH];
    intros w.
  - exists 0%nat. reflexivity.
  - destruct (IH (findUnique wh (users w)) w) as [n E].
    exists (S n). exact E.
  - destruct (IH (match findUnique wh (users w) with
                  | Some u => Some (u, findRole (roleId u) (roles w))
                  | None => None
                  end) w) as [n E].
    exists (S n). exact E.
  - simpl. destruct (prismaUpdate i d (users w)) as [r us] eqn:P.
    destruct (IH r (setUsers w us)) as [n E].
    exists (S n). simpl. rewrite P. exact E.
  - simpl. destruct (prismaCreate u w) as [r us] eqn:P.
    destruct (IH r (setUsers w us)) as [n E].
    exists (S n). simpl. rewrite P. exact E.
  - destruct (IH w) as [n E]. exists (S n). exact E.
  - destruct (IH {| users := users w; roles := roles w;
                    outbox := outbox w ++ [m] |}) as [n E].
    exists (S n). exact E.
Qed.

Lemma propStr_id (u : User) :
  propStr "id" (withoutPassword (userObject u)) = id u.
Proof. reflexivity. Qed.

Lemma withoutPassword_hides (u : User) :
  withoutPassword (userObject u) !! "password" = None.
Proof. reflexivity. Qed.

(** ** Password-reset request ([resetPassword]) *)

Section ResetRequest.
Context {config : Config}.

Lemma resetPassword_unknown_email (w : World) (mail token : string) (now : Z) :
  findUnique (WhereEmail mail) (users w) = None ->
  run (UsersService.resetPassword mail token now) w
    = (Thrown (NotFoundException "User not found"), w).
Proof.
  intros E. unfold UsersService.resetPassword, UsersService.findUserByEmail.
  simpl. rewrite E. reflexivity.
Qed.

End ResetRequest.

(** C2. A reset request for an address that no account has is answered
    with the [NotFoundException] "User not found" (the world is left as it
    was), whereas the same request for a known address returns: the two
    responses differ. *)
Theorem resetPassword_reveals_unknown_email :
  run (UsersService.resetPassword (config := demoConfig)
         "ghost@example.com" "aa11" 10) demoWorld
    = (Thrown (NotFoundException "User not found"), demoWorld)
  /\ succeeded (fst (run (UsersService.resetPassword (config := demoConfig)
                            "bob@example.com" "aa11" 10) demoWorld)) = true.
Proof. split; reflexivity. Qed.

(** ** Profile ([getProfile]) *)

Lemma getProfile_missing (w : World) (uid mail : string) :
  findUnique (WhereEmail mail) (users w) = None ->
  exists msg,
    run (AuthService.getProfile uid mail) w = (Thrown (NotFoundException msg), w).
Proof.
  intros E. unfold AuthService.getProfile. simpl. rewrite E.
  eexists. reflexivity.
Qed.

Lemma getProfile_found (w : World) (uid mail : string) (u : User) :
  findUnique (WhereEmail mail) (users w) = Some u ->
  exists o,
    run (AuthService.getProfile uid mail) w = (Returned o, w) /\
    o !! "password" = Some (VStr (password u)) /\
    o !! "activationToken" = Some (optStr (activationToken u)) /\
    o !! "resetToken" = Some (optStr (resetToken u)) /\
    o !! "refreshToken" = Some (optStr (refreshToken u)).
Proof.
  intros E. unfold AuthService.getProfile. simpl. rewrite E.
  eexists. split; [reflexivity|]. repeat split; reflexivity.
Qed.

(** C3. For the existing account of alice, [getProfile] returns an object
    that still carries the stored password hash and the three tokens. *)
Theorem getProfile_returns_password_and_tokens :
  exists o,
    run (AuthService.getProfile "u1" "alice@example.com") demoWorld
      = (Returned o, demoWorld) /\
    o !! "password" = Some (VStr "$2b$10$s1Secret1!") /\
    o !! "activationToken" = Some (VStr "act-1") /\
    o !! "resetToken" = Some (VStr "rst-1") /\
    o !! "refreshToken" = Some (VStr "refresh.u1.0").
Proof. exact (getProfile_found demoWorld "u1" "alice@example.com" alice eq_refl). Qed.

(** ** Credential check ([validateUser]) *)

Section Credentials.
Context {crypto : Crypto}.

Lemma validateUser_inactive (w : World) (mail pass : string) (u : User) :
  findUnique (WhereEmail mail) (users w) = Some u ->
  isActive u = false ->
  run (AuthService.validateUser mail pass) w
    = (Thrown (ForbiddenException "Account Inactive" (email u)
                 (activationTokenExpires u)), w).
Proof.
  intros E I. unfold AuthService.validateUser. simpl. rewrite E, I.
  reflexivity.
Qed.


End Credentials.


(** ** The unique indexes *)

Lemma existsb_false_Forall {A} (f : A -> bool) (l : list A) :
  existsb f l = false <-> Forall (fun x => f x = false) l.
Proof.
  induction l as [|a l IH]; simpl.
  - split; [constructor | reflexivity].
  - rewrite orb_false_iff, IH. split.
    + intros [Ha Hl]. constructor; assumption.
    + intros F. inversion F; subst. split; assumption.
Qed.

Lemma clash_sym (a b : option string) : clash a b = clash b a.
Proof. destruct a, b; simpl; auto using String.eqb_sym. Qed.

Lemma clash_None_r (a : option string) : clash a None = false.
Proof. destruct a; reflexivity. Qed.

Lemma clashes_sym (r u : User) : clashes r u = clashes u r.
Proof.
  unfold clashes.
  rewrite (String.eqb_sym (id r)), (String.eqb_sym (email r)).
  rewrite (clash_sym (activationToken r)), (clash_sym (resetToken r)),
    (clash_sym (refreshToken r)).
  reflexivity.
Qed.

Lemma clashes_false (r u : User) :
  clashes r u = false <->
  String.eqb (id r) (id u) = false /\
  String.eqb (email r) (email u) = false /\
  clash (activationToken r) (activationToken u) = false /\
  clash (resetToken r) (resetToken u) = false /\
  clash (refreshToken r) (refreshToken u) = false.
Proof. unfold clashes. rewrite !orb_false_iff. tauto. Qed.

Lemma uniqueViolation_None (u : User) (others : list User) :
  uniqueViolation u others = None <->
  Forall (fun r => clashes r u = false) others.
Proof.
  unfold uniqueViolation.
  split.
  - intros V.
    destruct (existsb _ others) eqn:E1; [discriminate|].
    destruct (existsb (fun r => String.eqb (email r) (email u)) others) eqn:E2;
      [discriminate|].
    destruct (existsb (fun r => clash (activationToken r) (activationToken u))
                others) eqn:E3; [discriminate|].
    destruct (existsb (fun r => clash (resetToken r) (resetToken u)) others)
      eqn:E4; [discriminate|].
    destruct (existsb (fun r => clash (refreshToken r) (refreshToken u))
                others) eqn:E5; [discriminate|].
    apply existsb_false_Forall in E1, E2, E3, E4, E5.
    rewrite List.Forall_forall in *. intros r Hr. apply clashes_false.
    repeat split; auto.
  - intros F.
    assert (G : forall r, In r others ->
      String.eqb (id r) (id u) = false /\
      String.eqb (email r) (email u) = false /\
      clash (activationToken r) (activationToken u) = false /\
      clash (resetToken r) (resetToken u) = false /\
      clash (refreshToken r) (refreshToken u) = false).
    { intros r Hr. apply clashes_false. rewrite List.Forall_forall in F. auto. }
    assert (E1 : existsb (fun r => String.eqb (id r) (id u)) others = false).
    { apply existsb_false_Forall, List.Forall_forall. intros r Hr.
      destruct (G r Hr) as (? & ? & ? & ? & ?); assumption. }
    assert (E2 : existsb (fun r => String.eqb (email r) (email u)) others
                 = false).
    { apply existsb_false_Forall, List.Forall_forall. intros r Hr.
      destruct (G r Hr) as (? & ? & ? & ? & ?); assumption. }
    assert (E3 : existsb (fun r => clash (activationToken r)
                                     (activationToken u)) others = false).
    { apply existsb_false_Forall, List.Forall_forall. intros r Hr.
      destruct (G r Hr) as (? & ? & ? & ? & ?); assumption. }
    assert (E4 : existsb (fun r => clash (resetToken r) (resetToken u)) others
                 = false).
    { apply existsb_false_Forall, List.Forall_forall. intros r Hr.
      destruct (G r Hr) as (? & ? & ? & ? & ?); assumption. }
    assert (E5 : existsb (fun r => clash (refreshToken r) (refreshToken u))
                   others = false).
    { apply existsb_false_Forall, List.Forall_forall. intros r Hr.
      destruct (G r Hr) as (? & ? & ? & ? & ?); assumption. }
    rewrite E1, E2, E3, E4, E5. reflexivity.
Qed.

Lemma uniqueRows_cons (u : User) (us : list User) :
  uniqueRows (u :: us) = true <->
  Forall (fun r => clashes r u = false) us /\ uniqueRows us = true.
Proof.
  simpl. destruct (uniqueViolation u us) eqn:V.
  - split; [discriminate|]. intros [F _].
    apply uniqueViolation_None in F. congruence.
  - apply uniqueViolation_None in V. tauto.
Qed.

Lemma clashes_refl (u : User) : clashes u u = true.
Proof. unfold clashes. rewrite String.eqb_refl. reflexivity. Qed.

(** In a table that respects its indexes, two rows that clash are the
    same row. *)
Lemma uniqueRows_clash (us : list User) (r u : User) :
  uniqueRows us = true -> In r us -> In u us -> clashes r u = true -> r = u.
Proof.
  induction us as [|a us IH]; intros U Hr Hu C; [destruct Hr|].
  apply uniqueRows_cons in U. destruct U as [F U].
  rewrite List.Forall_forall in F.
  destruct Hr as [<-|Hr], Hu as [<-|Hu].
  - reflexivity.
  - rewrite clashes_sym in C. rewrite (F u Hu) in C. discriminate.
  - rewrite (F r Hr) in C. discriminate.
  - apply IH; assumption.
Qed.

Lemma findUnique_Some (w : UserWhere) (us : list User) (u : User) :
  findUnique w us = Some u -> In u us /\ matches w u = true.
Proof. apply find_some. Qed.

Lemma findUnique_None (w : UserWhere) (us : list User) :
  findUnique w us = None -> forall r, In r us -> matches w r = false.
Proof. apply find_none. Qed.

Lemma findUnique_id (us : list User) (u : User) :
  uniqueRows us = true -> In u us -> findUnique (WhereId (id u)) us = Some u.
Proof.
  intros U Hu. destruct (findUnique (WhereId (id u)) us) as [r|] eqn:E.
  - apply findUnique_Some in E. destruct E as [Hr M]. simpl in M.
    f_equal. apply (uniqueRows_clash us); auto.
    unfold clashes. rewrite M. reflexivity.
  - apply (findUnique_None _ _ E) in Hu. simpl in Hu.
    rewrite String.eqb_refl in Hu. discriminate.
Qed.

Lemma otherThan_In (i : string) (us : list User) (r : User) :
  In r (otherThan i us) <-> In r us /\ String.eqb (id r) i = false.
Proof.
  unfold otherThan. rewrite filter_In, negb_true_iff. reflexivity.
Qed.

Lemma clash_default_cleared (a b : option string) (d : option (option string)) :
  cleared d -> clash a b = false -> clash a (default b d) = false.
Proof.
  destruct d as [[x|]|]; simpl; intros C E; try assumption.
  - destruct C.
  - apply clash_None_r.
Qed.

(** An update of an existing row that writes no new token value goes
    through. *)
Lemma prismaUpdate_cleared (us : list User) (u : User) (d : UserData) :
  uniqueRows us = true -> In u us -> noNewToken d ->
  prismaUpdate (id u) d us
    = (Returned (applyData d u), replaceRow (applyData d u) us).
Proof.
  intros U Hu (C1 & C2 & C3). unfold prismaUpdate.
  rewrite (findUnique_id us u U Hu).
  assert (V : uniqueViolation (applyData d u) (otherThan (id u) us) = None).
  { apply uniqueViolation_None, List.Forall_forall. intros r Hr.
    apply otherThan_In in Hr. destruct Hr as [Hr Ne].
    assert (N : clashes r u = false).
    { destruct (clashes r u) eqn:C; [|reflexivity].
      apply (uniqueRows_clash us r u U Hr Hu) in C. subst r.
      rewrite String.eqb_refl in Ne. discriminate. }
    apply clashes_false in N. destruct N as (N1 & N2 & N3 & N4 & N5).
    apply clashes_false. simpl.
    repeat split; auto using clash_default_cleared. }
  rewrite V. reflexivity.
Qed.

Lemma replaceRow_In (u' r : User) (us : list User) :
  In r (replaceRow u' us) -> id r = id u' -> r = u'.
Proof.
  unfold replaceRow. rewrite in_map_iff. intros (x & E & _) I.
  destruct (String.eqb (id x) (id u')) eqn:X; [congruence|].
  subst r. apply String.eqb_neq in X. contradiction.
Qed.

Lemma replaceRow_other (u' r : User) (us : list User) :
  In r (replaceRow u' us) -> id r <> id u' -> In r us.
Proof.
  unfold replaceRow. rewrite in_map_iff. intros (x & E & Hx) I.
  destruct (String.eqb (id x) (id u')) eqn:X; congruence.
Qed.

Lemma replaceRow_same_id (u' : User) (us : list User) :
  In u' (replaceRow u' us) <-> exists x, In x us /\ id x = id u'.
Proof.
  unfold replaceRow. rewrite in_map_iff. split.
  - intros (x & E & Hx). exists x. split; [assumption|].
    destruct (String.eqb (id x) (id u')) eqn:X.
    + apply String.eqb_eq, X.
    + congruence.
  - intros (x & Hx & I). exists x. split; [|assumption].
    apply String.eqb_eq in I. rewrite I. reflexivity.
Qed.

Lemma setUsers_same (w : World) : setUsers w (users w) = w.
Proof. destruct w; reflexivity. Qed.

Lemma findUnique_replaceRow (i : string) (u' x : User) (us : list User) :
  id u' = i ->
  findUnique (WhereId i) us = Some x ->
  findUnique (WhereId i) (replaceRow u' us) = Some u'.
Proof.
  intros <-. unfold findUnique. induction us as [|a us IH]; simpl; [discriminate|].
  destruct (String.eqb (id a) (id u')) eqn:E; simpl.
  - intros _. rewrite String.eqb_refl. reflexivity.
  - rewrite E. exact IH.
Qed.

Lemma replaceRow_idem (u' : User) (us : list User) :
  replaceRow u' (replaceRow u' us) = replaceRow u' us.
Proof.
  unfold replaceRow. rewrite map_map. apply map_ext. intros a.
  destruct (String.eqb (id a) (id u')) eqn:E.
  - rewrite String.eqb_refl. reflexivity.
  - rewrite E. reflexivity.
Qed.

(** Replacing a row by one that clashes with no row of another id keeps
    the indexes. *)
Lemma uniqueRows_replaceRow (u' : User) (us : list User) :
  uniqueRows us = true ->
  (forall r, In r us -> String.eqb (id r) (id u') = false ->
             clashes r u' = false) ->
  uniqueRows (replaceRow u' us) = true.
Proof.
  induction us as [|a us IH]; intros U C; [reflexivity|].
  apply uniqueRows_cons in U. destruct U as [F U].
  rewrite List.Forall_forall in F.
  change (replaceRow u' (a :: us))
    with ((if String.eqb (id a) (id u') then u' else a) :: replaceRow u' us).
  apply uniqueRows_cons. split.
  - apply List.Forall_forall. intros r Hr.
    unfold replaceRow in Hr. apply in_map_iff in Hr.
    destruct Hr as (x & <- & Hx). pose proof (F x Hx) as Fx.
    destruct (String.eqb (id a) (id u')) eqn:A,
             (String.eqb (id x) (id u')) eqn:X.
    + apply clashes_false in Fx. destruct Fx as [Fx _].
      apply String.eqb_eq in A, X. rewrite X, <- A, String.eqb_refl in Fx.
      discriminate.
    + apply C; [right; exact Hx | exact X].
    + rewrite clashes_sym. apply C; [left; reflexivity | exact A].
    + exact Fx.
  - apply IH; [exact U|]. intros r Hr. apply C. right. exact Hr.
Qed.

Lemma uniqueRows_snoc (u : User) (us : list User) :
  uniqueRows us = true -> uniqueViolation u us = None ->
  uniqueRows (us ++ [u]) = true.
Proof.
  induction us as [|a us IH]; intros U V.
  - reflexivity.
  - apply uniqueRows_cons in U. destruct U as [F U].
    apply uniqueViolation_None in V. inversion V as [|? ? Ca Vus]; subst.
    change ((a :: us) ++ [u]) with (a :: (us ++ [u])).
    apply uniqueRows_cons. split.
    + apply Forall_app. split; [exact F|].
      constructor; [|constructor]. rewrite clashes_sym. exact Ca.
    + apply IH; [exact U|]. apply uniqueViolation_None. exact Vus.
Qed.

Lemma prismaUpdate_uniqueRows (i : string) (d : UserData) (us : list User) :
  uniqueRows us = true -> uniqueRows (snd (prismaUpdate i d us)) = true.
Proof.
  intros U. unfold prismaUpdate.
  destruct (findUnique (WhereId i) us) as [u|] eqn:E; [|exact U].
  destruct (uniqueViolation _ _) eqn:V; [exact U|]. simpl.
  apply findUnique_Some in E. destruct E as [Hu M]. simpl in M.
  apply String.eqb_eq in M. subst i.
  apply uniqueRows_replaceRow; [exact U|]. intros r Hr Ne.
  apply uniqueViolation_None in V. rewrite List.Forall_forall in V.
  apply V. apply otherThan_In. split; [exact Hr | exact Ne].
Qed.

Lemma prismaCreate_uniqueRows (u : User) (w : World) :
  uniqueRows (users w) = true -> uniqueRows (snd (prismaCreate u w)) = true.
Proof.
  intros U. unfold prismaCreate.
  destruct (uniqueViolation u (users w)) eqn:V; [exact U|].
  destruct (existsb _ _); [|exact U]. simpl. apply uniqueRows_snoc; assumption.
Qed.

(** Whatever a request does, the table keeps its indexes. *)
Lemma run_uniqueRows {A} (p : Prog A) (w : World) :
  uniqueRows (users w) = true -> uniqueRows (users (snd (run p w))) = true.
Proof.
  revert w. induction p as [o|wh k IH|wh k IH|i d k IH|u k IH|k IH|m k IH];
    intros w U; simpl; auto.
  - pose proof (prismaUpdate_uniqueRows i d (users w) U) as P.
    destruct (prismaUpdate i d (users w)) as [r us]. apply IH. exact P.
  - pose proof (prismaCreate_uniqueRows u w U) as P.
    destruct (prismaCreate u w) as [r us]. apply IH. exact P.
Qed.

Lemma step_uniqueRows {A} (p : Prog A) (w : World) :
  uniqueRows (users w) = true -> uniqueRows (users (snd (step p w))) = true.
Proof.
  intros U. destruct p as [o|wh k|wh k|i d k|u k|k|m k]; simpl; auto.
  - pose proof (prismaUpdate_uniqueRows i d (users w) U) as P.
    destruct (prismaUpdate i d (users w)) as [r us]. exact P.
  - pose proof (prismaCreate_uniqueRows u w U) as P.
    destruct (prismaCreate u w) as [r us]. exact P.
Qed.

(** ** Refresh and logout *)

Section Sessions.
Context {crypto : Crypto}.

Lemma findUnique_WhereId (i : string) (us : list User) (u : User) :
  findUnique (WhereId i) us = Some u -> In u us /\ id u = i.
Proof.
  intros E. apply findUnique_Some in E. destruct E as [Hu M].
  split; [exact Hu|]. apply String.eqb_eq. exact M.
Qed.

Lemma noNewToken_clearRefresh : noNewToken AuthService.clearRefresh.
Proof. repeat split. Qed.

(** C6. When the presented token is the stored, unexpired refresh token of
    an account and its signature does not verify, the refresh clears the
    two refresh columns of that account and only then fails with
    Unauthorized. *)
Theorem refreshToken_bad_signature_clears
    (w : World) (token : string) (now now' : Z) (u : User) :
  uniqueRows (users w) = true ->
  findUnique (WhereRefreshTokenGt token now) (users w) = Some u ->
  refreshVerify token now' = false ->
  exists u',
    run (AuthService.refreshToken token now now') w
      = (Thrown (UnauthorizedException "Invalid refresh token"),
         setUsers w (replaceRow u' (users w)))
    /\ findUnique (WhereId (id u)) (replaceRow u' (users w)) = Some u'
    /\ refreshToken u' = None
    /\ refreshTokenExpires u' = None.
Proof.
  intros U E V. exists (applyData AuthService.clearRefresh u).
  pose proof (findUnique_Some _ _ _ E) as [Hu _].
  split; [|split; [|split; reflexivity]].
  - unfold AuthService.refreshToken. simpl. rewrite E, V. simpl.
    rewrite (prismaUpdate_cleared _ _ _ U Hu noNewToken_clearRefresh).
    reflexivity.
  - apply (findUnique_replaceRow _ _ u); [reflexivity|].
    apply findUnique_id; assumption.
Qed.

Lemma logout_missing (w : World) (userId : string) :
  findUnique (WhereId userId) (users w) = None ->
  run (AuthService.logout userId) w = (Returned "Logout successful", w).
Proof.
  intros E. unfold AuthService.logout, prismaUpdate. simpl.
  unfold prismaUpdate. rewrite E. simpl. rewrite setUsers_same. reflexivity.
Qed.

Lemma logout_existing (w : World) (userId : string) (u : User) :
  uniqueRows (users w) = true ->
  findUnique (WhereId userId) (users w) = Some u ->
  run (AuthService.logout userId) w
    = (Returned "Logout successful",
       setUsers w (replaceRow (applyData AuthService.clearRefresh u) (users w))).
Proof.
  intros U E. apply findUnique_WhereId in E. destruct E as [Hu <-].
  unfold AuthService.logout. simpl.
  rewrite (prismaUpdate_cleared _ _ _ U Hu noNewToken_clearRefresh).
  reflexivity.
Qed.

(** C9. On a table that respects its indexes, logout returns its success
    message for every user id, whether or not an account has it and
    whether or not a refresh token is stored; afterwards every row of that
    id has both refresh columns null, a missing account leaves the world
    untouched, and a second logout changes nothing more. *)
Theorem logout_always_succeeds (w : World) (userId : string) :
  uniqueRows (users w) = true ->
  exists w',
    run (AuthService.logout userId) w = (Returned "Logout successful", w')
    /\ (forall r, In r (users w') -> id r = userId ->
          refreshToken r = None /\ refreshTokenExpires r = None)
    /\ (findUnique (WhereId userId) (users w) = None -> w' = w)
    /\ run (AuthService.logout userId) w' = (Returned "Logout successful", w').
Proof.
  intros U. destruct (findUnique (WhereId userId) (users w)) as [u|] eqn:E.
  - set (u' := applyData AuthService.clearRefresh u).
    exists (setUsers w (replaceRow u' (users w))).
    pose proof (findUnique_WhereId _ _ _ E) as [Hu I].
    split; [apply logout_existing; assumption|].
    split; [|split; [discriminate|]].
    + simpl. intros r Hr Ir. assert (r = u') as ->.
      { apply (replaceRow_In u' r (users w) Hr). rewrite Ir, <- I. reflexivity. }
      split; reflexivity.
    + assert (E' : findUnique (WhereId userId) (replaceRow u' (users w))
                   = Some u').
      { apply (findUnique_replaceRow _ _ u); [exact I | exact E]. }
      assert (U' : uniqueRows (replaceRow u' (users w)) = true).
      { pose proof (prismaUpdate_uniqueRows (id u) AuthService.clearRefresh
                      (users w) U) as P.
        rewrite (prismaUpdate_cleared _ _ _ U Hu noNewToken_clearRefresh) in P.
        exact P. }
      rewrite (logout_existing (setUsers w (replaceRow u' (users w))) userId u'
                 U' E').
      simpl. change (applyData AuthService.clearRefresh u') with u'.
      rewrite replaceRow_idem. reflexivity.
  - exists w. split; [apply logout_missing; exact E|].
    split; [|split; [reflexivity | apply logout_missing; exact E]].
    intros r Hr Ir. apply (findUnique_None _ _ E) in Hr. simpl in Hr.
    rewrite Ir, String.eqb_refl in Hr. discriminate.
Qed.

End Sessions.

(** C6 at bob's stored token, whose signature [demoCrypto] rejects. *)
Lemma refreshToken_bad_signature_clears_witness :
  uniqueRows (users demoWorld) = true /\
  findUnique (WhereRefreshTokenGt "forged" 1000) (users demoWorld) = Some bob /\
  refreshVerify (Crypto := demoCrypto) "forged" 1000 = false /\
  exists u',
    run (AuthService.refreshToken (crypto := demoCrypto) "forged" 1000 1000)
        demoWorld
      = (Thrown (UnauthorizedException "Invalid refresh token"),
         setUsers demoWorld (replaceRow u' (users demoWorld)))
    /\ findUnique (WhereId (id bob)) (replaceRow u' (users demoWorld)) = Some u'
    /\ refreshToken u' = None
    /\ refreshTokenExpires u' = None.
Proof.
  split; [reflexivity|]. split; [reflexivity|]. split; [reflexivity|].
  apply (refreshToken_bad_signature_clears (crypto := demoCrypto)
           demoWorld "forged" 1000 1000 bob); reflexivity.
Defined.

(** C9 at the id of bob, who holds a refresh token. *)
Lemma logout_always_succeeds_witness :
  uniqueRows (users demoWorld) = true /\
  exists w',
    run (AuthService.logout "u2") demoWorld
      = (Returned "Logout successful", w')
    /\ (forall r, In r (users w') -> id r = "u2" ->
          refreshToken r = None /\ refreshTokenExpires r = None)
    /\ (findUnique (WhereId "u2") (users demoWorld) = None
        -> w' = demoWorld)
    /\ run (AuthService.logout "u2") w' = (Returned "Logout successful", w').
Proof.
  split; [reflexivity|].
  apply (logout_always_succeeds demoWorld "u2"). reflexivity.
Defined.

(** ** Lookups by token *)

Lemma optStrEq_true (o : option string) (s : string) :
  optStrEq o s = true <-> o = Some s.
Proof.
  destruct o as [x|]; simpl.
  - rewrite String.eqb_eq. split; congruence.
  - split; discriminate.
Qed.

Lemma clash_same (o o' : option string) (s : string) :
  o = Some s -> o' = Some s -> clash o o' = true.
Proof. intros -> ->. simpl. apply String.eqb_refl. Qed.

(** A key that two rows cannot share selects the row that has it. *)
Lemma findUnique_unique (wh : UserWhere) (us : list User) (u : User) :
  uniqueRows us = true -> In u us -> matches wh u = true ->
  (forall r, matches wh r = true -> clashes r u = true) ->
  findUnique wh us = Some u.
Proof.
  intros U Hu M K. destruct (findUnique wh us) as [r|] eqn:E.
  - apply findUnique_Some in E. destruct E as [Hr Mr].
    f_equal. apply (uniqueRows_clash us); auto.
  - rewrite (findUnique_None _ _ E u Hu) in M. discriminate.
Qed.

Lemma findUnique_activationToken (us : list User) (u : User) (t : string) :
  uniqueRows us = true -> In u us -> activationToken u = Some t ->
  findUnique (WhereActivationToken t) us = Some u.
Proof.
  intros U Hu T. apply findUnique_unique; auto.
  - simpl. apply optStrEq_true, T.
  - intros r M. simpl in M. apply optStrEq_true in M.
    unfold clashes. rewrite (clash_same _ _ t M T).
    rewrite !orb_true_r. reflexivity.
Qed.

Lemma findUnique_resetToken (us : list User) (u : User) (t : string) :
  uniqueRows us = true -> In u us -> resetToken u = Some t ->
  findUnique (WhereResetToken t) us = Some u.
Proof.
  intros U Hu T. apply findUnique_unique; auto.
  - simpl. apply optStrEq_true, T.
  - intros r M. simpl in M. apply optStrEq_true in M.
    unfold clashes. rewrite (clash_same _ _ t M T).
    rewrite !orb_true_r. reflexivity.
Qed.

Lemma findUnique_refreshToken_expired
    (us : list User) (u : User) (t : string) (e now : Z) :
  uniqueRows us = true -> In u us -> refreshToken u = Some t ->
  refreshTokenExpires u = Some e -> e <= now ->
  findUnique (WhereRefreshTokenGt t now) us = None.
Proof.
  intros U Hu T X L.
  destruct (findUnique (WhereRefreshTokenGt t now) us) as [r|] eqn:E;
    [|reflexivity].
  apply findUnique_Some in E. destruct E as [Hr M]. simpl in M.
  apply andb_true_iff in M. destruct M as [M G].
  apply optStrEq_true in M.
  assert (r = u) as ->.
  { apply (uniqueRows_clash us); auto. unfold clashes.
    rewrite (clash_same _ _ t M T). rewrite !orb_true_r. reflexivity. }
  rewrite X in G. simpl in G. apply Z.ltb_lt in G. lia.
Qed.

(** ** Consuming a reset token ([updatePassword]) *)

Section Consumption.
Context {crypto : Crypto}.

Lemma noNewToken_passwordReset (h : string) :
  noNewToken (UsersService.passwordReset h).
Proof. repeat split. Qed.

Lemma noNewToken_activated : noNewToken UsersService.activated.
Proof. repeat split. Qed.

Lemma findByResetToken_run (w : World) (token : string) (now : Z) :
  run (UsersService.findByResetToken token now) w =
  if String.eqb token ""
  then (Thrown (NotFoundException "Reset token is required."), w)
  else match findUnique (WhereResetToken token) (users w) with
       | None => (Thrown (NotFoundException "Invalid reset token."), w)
       | Some u =>
           if UsersService.expiredAt (resetTokenExpiry u) now
           then (Thrown (NotFoundException "Reset token has expired."), w)
           else (Returned (withoutPassword (userObject u)), w)
       end.
Proof.
  unfold UsersService.findByResetToken.
  destruct (String.eqb token ""); [reflexivity|]. simpl.
  destruct (findUnique _ _) as [u|]; [|reflexivity].
  destruct (UsersService.expiredAt _ _); reflexivity.
Qed.

(** C7 (amended). [updatePassword] fails with the NotFound kind, and with
    a message that tells an unknown token from an expired one; when the
    token is that of an account and has not expired, one update stores the
    hash of the new password and nulls both reset columns of that
    account. *)
Theorem updatePassword_outcomes
    (w : World) (token newPassword salt : string) (now : Z) :
  uniqueRows (users w) = true ->
  if String.eqb token ""
  then run (UsersService.updatePassword token newPassword salt now) w
       = (Thrown (NotFoundException "Reset token is required."), w)
  else
    match findUnique (WhereResetToken token) (users w) with
    | None =>
        run (UsersService.updatePassword token newPassword salt now) w
        = (Thrown (NotFoundException "Invalid reset token."), w)
    | Some u =>
        if UsersService.expiredAt (resetTokenExpiry u) now
        then run (UsersService.updatePassword token newPassword salt now) w
             = (Thrown (NotFoundException "Reset token has expired."), w)
        else
          exists u',
            run (UsersService.updatePassword token newPassword salt now) w
            = (Returned (withoutPassword (userObject u')),
               setUsers w (replaceRow u' (users w)))
            /\ u' = applyData
                      (UsersService.passwordReset
                         (bcryptHash newPassword salt)) u
            /\ password u' = bcryptHash newPassword salt
            /\ resetToken u' = None
            /\ resetTokenExpiry u' = None
    end.
Proof.
  intros U. unfold UsersService.updatePassword.
  rewrite run_bind, findByResetToken_run.
  destruct (String.eqb token ""); [reflexivity|].
  destruct (findUnique (WhereResetToken token) (users w)) as [u|] eqn:E;
    [|reflexivity].
  destruct (UsersService.expiredAt (resetTokenExpiry u) now); [reflexivity|].
  apply findUnique_Some in E. destruct E as [Hu _].
  eexists. split; [|repeat split].
  cbn [run]. rewrite propStr_id.
  rewrite (prismaUpdate_cleared _ _ _ U Hu (noNewToken_passwordReset _)).
  reflexivity.
Qed.

End Consumption.

(** C7 at alice's reset token, presented before it expires. *)
Lemma updatePassword_outcomes_witness :
  uniqueRows (users demoWorld) = true /\
  exists u',
    run (UsersService.updatePassword (crypto := demoCrypto)
           "rst-1" "NewPass1!" "s9" 500) demoWorld
    = (Returned (withoutPassword (userObject u')),
       setUsers demoWorld (replaceRow u' (users demoWorld)))
    /\ u' = applyData
              (UsersService.passwordReset
                 (bcryptHash (Crypto := demoCrypto) "NewPass1!" "s9")) alice
    /\ password u' = bcryptHash (Crypto := demoCrypto) "NewPass1!" "s9"
    /\ resetToken u' = None
    /\ resetTokenExpiry u' = None.
Proof.
  split; [reflexivity|].
  exact (updatePassword_outcomes (crypto := demoCrypto)
           demoWorld "rst-1" "NewPass1!" "s9" 500 eq_refl).
Defined.

(** C7 (as stated) fails: an unknown token and an expired token are both
    answered with NotFound, not Unauthorized, and with different
    messages. *)
Lemma updatePassword_fails_with_not_found :
  run (UsersService.updatePassword (crypto := demoCrypto)
         "nope" "NewPass1!" "s9" 500) demoWorld
    = (Thrown (NotFoundException "Invalid reset token."), demoWorld)
  /\ run (UsersService.updatePassword (crypto := demoCrypto)
            "rst-1" "NewPass1!" "s9" 2000) demoWorld
    = (Thrown (NotFoundException "Reset token has expired."), demoWorld)
  /\ kindOf (NotFoundException "Invalid reset token.") <> Unauthorized
  /\ kindOf (NotFoundException "Reset token has expired.") <> Unauthorized.
Proof. repeat split; discriminate. Qed.

(** ** Expiry of the three token classes *)

Section Expiry.
Context {crypto : Crypto}.

Lemma activateUser_run (w : World) (token : string) (now : Z) :
  run (UsersService.activateUser token now) w =
  if String.eqb token ""
  then (Thrown (UnauthorizedException "Invalid activation token."), w)
  else match findUnique (WhereActivationToken token) (users w) with
       | None =>
           (Thrown (UnauthorizedException "Invalid activation token."), w)
       | Some u =>
           if UsersService.expiredAt (activationTokenExpires u) now
           then (Thrown (UnauthorizedException
                           "Activation token has expired."), w)
           else
             match prismaUpdate (id u) UsersService.activated (users w) with
             | (Returned u', us) =>
                 (Returned (withoutPassword (userObject u')), setUsers w us)
             | (Thrown e, us) => (Thrown e, setUsers w us)
             end
       end.
Proof.
  unfold UsersService.activateUser, UsersService.findByActivationToken.
  destruct (String.eqb token ""); [reflexivity|]. simpl.
  destruct (findUnique _ _) as [u|]; [|reflexivity].
  destruct (UsersService.expiredAt _ _); [reflexivity|]. simpl.
  destruct (prismaUpdate _ _ _) as [[u'|e] us]; reflexivity.
Qed.

Lemma refreshToken_not_found (w : World) (token : string) (now now' : Z) :
  findUnique (WhereRefreshTokenGt token now) (users w) = None ->
  run (AuthService.refreshToken token now now') w
    = (Thrown (UnauthorizedException "Invalid or expired refresh token"), w).
Proof.
  intros E. unfold AuthService.refreshToken. simpl. rewrite E. reflexivity.
Qed.

(** C5 (amended). A refresh token is accepted only while its expiry is
    strictly after the instant of the query, so an expiry equal to that
    instant counts as expired; an activation or reset token is rejected
    only when its expiry is strictly before the instant of the check, so
    an expiry equal to that instant is still accepted. In the three
    classes an expiry in the past fails the validation. *)
Theorem expiry_boundaries (w : World) (now : Z) :
  uniqueRows (users w) = true ->
  (forall u token t now',
      In u (users w) -> refreshToken u = Some token ->
      refreshTokenExpires u = Some t -> t <= now ->
      run (AuthService.refreshToken token now now') w
        = (Thrown (UnauthorizedException "Invalid or expired refresh token"),
           w))
  /\ (forall u token t,
        In u (users w) -> token <> "" -> activationToken u = Some token ->
        activationTokenExpires u = Some t ->
        (t < now ->
           run (UsersService.activateUser token now) w
             = (Thrown (UnauthorizedException "Activation token has expired."),
                w))
        /\ (t = now ->
              succeeded (fst (run (UsersService.activateUser token now) w))
                = true))
  /\ (forall u token t,
        In u (users w) -> token <> "" -> resetToken u = Some token ->
        resetTokenExpiry u = Some t ->
        (t < now ->
           run (UsersService.findByResetToken token now) w
             = (Thrown (NotFoundException "Reset token has expired."), w))
        /\ (t = now ->
              succeeded (fst (run (UsersService.findByResetToken token now) w))
                = true)).
Proof.
  intros U. split; [|split].
  - intros u token t now' Hu T X L. apply refreshToken_not_found.
    apply (findUnique_refreshToken_expired _ u token t); assumption.
  - intros u token t Hu Ne T X.
    apply String.eqb_neq in Ne.
    pose proof (findUnique_activationToken _ _ _ U Hu T) as E.
    rewrite activateUser_run, Ne, E. unfold UsersService.expiredAt.
    rewrite X. split.
    + intros L. apply Z.ltb_lt in L. rewrite L. reflexivity.
    + intros ->. rewrite Z.ltb_irrefl.
      rewrite (prismaUpdate_cleared _ _ _ U Hu noNewToken_activated).
      reflexivity.
  - intros u token t Hu Ne T X.
    apply String.eqb_neq in Ne.
    pose proof (findUnique_resetToken _ _ _ U Hu T) as E.
    rewrite findByResetToken_run, Ne, E. unfold UsersService.expiredAt.
    rewrite X. split.
    + intros L. apply Z.ltb_lt in L. rewrite L. reflexivity.
    + intros ->. rewrite Z.ltb_irrefl. reflexivity.
Qed.

End Expiry.

(** C5 at alice, whose three tokens expire at instant 1000, checked at
    that instant. *)
Lemma expiry_boundaries_witness :
  uniqueRows (users demoWorld) = true /\
  run (AuthService.refreshToken (crypto := demoCrypto)
         "refresh.u1.0" 1000 1000) demoWorld
    = (Thrown (UnauthorizedException "Invalid or expired refresh token"),
       demoWorld)
  /\ succeeded (fst (run (UsersService.activateUser "act-1" 1000) demoWorld))
     = true
  /\ succeeded (fst (run (UsersService.findByResetToken "rst-1" 1000)
                       demoWorld)) = true.
Proof.
  destruct (expiry_boundaries (crypto := demoCrypto) demoWorld 1000 eq_refl)
    as (R & A & P).
  split; [reflexivity|]. split; [|split].
  - apply (R alice "refresh.u1.0" 1000 1000);
      [left; reflexivity | reflexivity | reflexivity | lia].
  - apply (A alice "act-1" 1000);
      [left; reflexivity | discriminate | reflexivity | reflexivity
      | reflexivity].
  - apply (P alice "rst-1" 1000);
      [left; reflexivity | discriminate | reflexivity | reflexivity
      | reflexivity].
Defined.

(** C5 (as stated) fails: alice's activation and reset tokens expire at
    instant 1000 and are accepted at instant 1000. *)
Lemma tokens_accepted_at_expiry_instant :
  activationTokenExpires alice = Some 1000
  /\ succeeded (fst (run (UsersService.activateUser "act-1" 1000) demoWorld))
     = true
  /\ resetTokenExpiry alice = Some 1000
  /\ succeeded (fst (run (UsersService.findByResetToken "rst-1" 1000)
                       demoWorld)) = true
  /\ succeeded (fst (run (UsersService.updatePassword (crypto := demoCrypto)
                            "rst-1" "NewPass1!" "s9" 1000) demoWorld)) = true.
Proof. repeat split. Qed.

(** ** Single use of a token *)

Lemma succeeded_Returned {A} (r : Outcome A * World) :
  succeeded (fst r) = true -> exists a, r = (Returned a, snd r).
Proof.
  destruct r as [[a|e] w]; simpl; [|discriminate].
  intros _. exists a. reflexivity.
Qed.


Lemma findUnique_absent (wh : UserWhere) (us : list User) :
  (forall r, In r us -> matches wh r = false) -> findUnique wh us = None.
Proof.
  intros N. destruct (findUnique wh us) as [r|] eqn:E; [|reflexivity].
  apply findUnique_Some in E. destruct E as [Hr M].
  rewrite (N r Hr) in M. discriminate.
Qed.

(** Once the row that held a token no longer holds it, no row does. *)
Lemma token_gone (col : User -> option string) (t : string)
    (us : list User) (u u' : User) :
  (forall r, col r = Some t -> col u = Some t -> clashes r u = true) ->
  uniqueRows us = true -> In u us -> col u = Some t ->
  id u' = id u -> col u' <> Some t ->
  forall r, In r (replaceRow u' us) -> col r <> Some t.
Proof.
  intros K U Hu T I N r Hr C.
  destruct (String.eqb (id r) (id u')) eqn:E.
  - apply String.eqb_eq in E. apply (replaceRow_In u' r us Hr) in E.
    subst r. contradiction.
  - apply String.eqb_neq in E.
    pose proof (replaceRow_other u' r us Hr E) as Hr'.
    assert (r = u) by (apply (uniqueRows_clash us); auto).
    subst r. congruence.
Qed.

Lemma optStrEq_false (o : option string) (s : string) :
  o <> Some s -> optStrEq o s = false.
Proof.
  intros N. destruct (optStrEq o s) eqn:E; [|reflexivity].
  apply optStrEq_true in E. contradiction.
Qed.

Lemma clashes_activationToken (t : string) (r u : User) :
  activationToken r = Some t -> activationToken u = Some t ->
  clashes r u = true.
Proof.
  intros A B. unfold clashes. rewrite (clash_same _ _ t A B).
  rewrite !orb_true_r. reflexivity.
Qed.

Lemma clashes_resetToken (t : string) (r u : User) :
  resetToken r = Some t -> resetToken u = Some t -> clashes r u = true.
Proof.
  intros A B. unfold clashes. rewrite (clash_same _ _ t A B).
  rewrite !orb_true_r. reflexivity.
Qed.

Lemma clashes_refreshToken (t : string) (r u : User) :
  refreshToken r = Some t -> refreshToken u = Some t -> clashes r u = true.
Proof.
  intros A B. unfold clashes. rewrite (clash_same _ _ t A B).
  rewrite !orb_true_r. reflexivity.
Qed.

Lemma prismaUpdate_Returned (i : string) (d : UserData) (us us' : list User)
    (u' : User) :
  prismaUpdate i d us = (Returned u', us') ->
  exists u,
    findUnique (WhereId i) us = Some u
    /\ u' = applyData d u
    /\ uniqueViolation u' (otherThan i us) = None
    /\ us' = replaceRow u' us.
Proof.
  unfold prismaUpdate. destruct (findUnique (WhereId i) us) as [u|];
    [|discriminate].
  destruct (uniqueViolation (applyData d u) (otherThan i us)) eqn:V;
    [discriminate|].
  intros R. injection R as <- <-. exists u. repeat split. exact V.
Qed.

Lemma otherThan_replaceRow (u' : User) (us : list User) :
  otherThan (id u') (replaceRow u' us) = otherThan (id u') us.
Proof.
  unfold otherThan, replaceRow. induction us as [|a us IH]; [reflexivity|].
  simpl. destruct (String.eqb (id a) (id u')) eqn:E; simpl.
  - rewrite String.eqb_refl. simpl. exact IH.
  - rewrite E. simpl. f_equal. exact IH.
Qed.

Section SingleUse.
Context {crypto : Crypto}.

(** *** Activation *)

Lemma activateUser_success (w w1 : World) (token : string) (now : Z)
    (o : JsObject) :
  uniqueRows (users w) = true ->
  run (UsersService.activateUser token now) w = (Returned o, w1) ->
  exists u,
    String.eqb token "" = false
    /\ findUnique (WhereActivationToken token) (users w) = Some u
    /\ UsersService.expiredAt (activationTokenExpires u) now = false
    /\ w1 = setUsers w (replaceRow (applyData UsersService.activated u)
                          (users w)).
Proof.
  intros U R. rewrite activateUser_run in R.
  destruct (String.eqb token ""); [discriminate|].
  destruct (findUnique (WhereActivationToken token) (users w)) as [u|] eqn:E;
    [|discriminate].
  destruct (UsersService.expiredAt (activationTokenExpires u) now) eqn:X;
    [discriminate|].
  pose proof (findUnique_Some _ _ _ E) as [Hu _].
  rewrite (prismaUpdate_cleared _ _ _ U Hu noNewToken_activated) in R.
  exists u. repeat split; congruence.
Qed.

Lemma activateUser_twice (w w1 : World) (token : string) (now now2 : Z)
    (o : JsObject) :
  uniqueRows (users w) = true ->
  run (UsersService.activateUser token now) w = (Returned o, w1) ->
  run (UsersService.activateUser token now2) w1
    = (Thrown (UnauthorizedException "Invalid activation token."), w1).
Proof.
  intros U R. destruct (activateUser_success _ _ _ _ _ U R)
    as (u & Ne & E & _ & ->).
  pose proof (findUnique_Some _ _ _ E) as [Hu M]. simpl in M.
  apply optStrEq_true in M.
  rewrite activateUser_run, Ne.
  rewrite findUnique_absent; [reflexivity|].
  intros r Hr. simpl. apply optStrEq_false.
  refine (token_gone activationToken token (users w) u
            (applyData UsersService.activated u) _ U Hu M eq_refl _ r Hr).
  - intros; apply (clashes_activationToken token); assumption.
  - discriminate.
Qed.

Lemma activateUser_interleaved (w : World) (token : string) (now1 now2 : Z) :
  uniqueRows (users w) = true ->
  succeeded (fst (run (UsersService.activateUser token now1) w)) = true ->
  succeeded (fst (run (UsersService.activateUser token now2) w)) = true ->
  exists o1 o2 w',
    interleave [true; false; true; false]
      (UsersService.activateUser token now1)
      (UsersService.activateUser token now2) w
    = (Done (Returned o1), Done (Returned o2), w').
Proof.
  intros U S1 S2.
  destruct (run (UsersService.activateUser token now1) w) as [[o1|] w1] eqn:R1;
    [|discriminate].
  destruct (run (UsersService.activateUser token now2) w) as [[o2|] w2] eqn:R2;
    [|discriminate].
  destruct (activateUser_success _ _ _ _ _ U R1) as (u & Ne & E & X1 & _).
  destruct (activateUser_success _ _ _ _ _ U R2) as (u2 & _ & E2 & X2 & _).
  rewrite E in E2. injection E2 as <-.
  pose proof (findUnique_Some _ _ _ E) as [Hu _].
  set (u' := applyData UsersService.activated u).
  assert (U' : uniqueRows (replaceRow u' (users w)) = true).
  { pose proof (prismaUpdate_uniqueRows (id u) UsersService.activated
                  (users w) U) as P.
    rewrite (prismaUpdate_cleared _ _ _ U Hu noNewToken_activated) in P.
    exact P. }
  assert (Hu' : In u' (replaceRow u' (users w))).
  { apply replaceRow_same_id. exists u. split; [exact Hu | reflexivity]. }
  unfold UsersService.activateUser, UsersService.findByActivationToken.
  rewrite Ne. cbn [interleave step bind ret throw users setUsers]. rewrite E, X1, X2. cbn [interleave step bind ret throw users setUsers].
  rewrite (prismaUpdate_cleared _ _ _ U Hu noNewToken_activated). cbn [interleave step bind ret throw users setUsers].
  fold u'. change (id u) with (id u').
  rewrite (prismaUpdate_cleared _ _ _ U' Hu' noNewToken_activated). cbn [interleave step bind ret throw users setUsers].
  eexists _, _, _. reflexivity.
Qed.

(** *** Password reset *)

Lemma updatePassword_success (w w1 : World) (token pw salt : string) (now : Z)
    (o : JsObject) :
  uniqueRows (users w) = true ->
  run (UsersService.updatePassword token pw salt now) w = (Returned o, w1) ->
  exists u,
    String.eqb token "" = false
    /\ findUnique (WhereResetToken token) (users w) = Some u
    /\ UsersService.expiredAt (resetTokenExpiry u) now = false
    /\ w1 = setUsers w
              (replaceRow
                 (applyData (UsersService.passwordReset (bcryptHash pw salt)) u)
                 (users w)).
Proof.
  intros U R. unfold UsersService.updatePassword in R.
  rewrite run_bind, findByResetToken_run in R.
  destruct (String.eqb token ""); [discriminate|].
  destruct (findUnique (WhereResetToken token) (users w)) as [u|] eqn:E;
    [|discriminate].
  destruct (UsersService.expiredAt (resetTokenExpiry u) now) eqn:X;
    [discriminate|].
  pose proof (findUnique_Some _ _ _ E) as [Hu _].
  cbn [run] in R. rewrite propStr_id in R.
  rewrite (prismaUpdate_cleared _ _ _ U Hu (noNewToken_passwordReset _)) in R.
  cbn [run ret] in R. injection R as _ <-.
  exists u. repeat split; assumption.
Qed.

Lemma updatePassword_twice (w w1 : World) (token pw salt pw2 salt2 : string)
    (now now2 : Z) (o : JsObject) :
  uniqueRows (users w) = true ->
  run (UsersService.updatePassword token pw salt now) w = (Returned o, w1) ->
  run (UsersService.updatePassword token pw2 salt2 now2) w1
    = (Thrown (NotFoundException "Invalid reset token."), w1).
Proof.
  intros U R. destruct (updatePassword_success _ _ _ _ _ _ _ U R)
    as (u & Ne & E & _ & ->).
  pose proof (findUnique_Some _ _ _ E) as [Hu M]. simpl in M.
  apply optStrEq_true in M.
  unfold UsersService.updatePassword.
  rewrite run_bind, findByResetToken_run, Ne.
  rewrite findUnique_absent; [reflexivity|].
  intros r Hr. simpl. apply optStrEq_false.
  refine (token_gone resetToken token (users w) u
            (applyData (UsersService.passwordReset (bcryptHash pw salt)) u)
            _ U Hu M eq_refl _ r Hr).
  - intros; apply (clashes_resetToken token); assumption.
  - discriminate.
Qed.

Lemma updatePassword_interleaved (w : World) (token pw1 salt1 pw2 salt2 : string)
    (now1 now2 : Z) :
  uniqueRows (users w) = true ->
  succeeded (fst (run (UsersService.updatePassword token pw1 salt1 now1) w))
    = true ->
  succeeded (fst (run (UsersService.updatePassword token pw2 salt2 now2) w))
    = true ->
  exists o1 o2 w',
    interleave [true; false; true; false; true; false]
      (UsersService.updatePassword token pw1 salt1 now1)
      (UsersService.updatePassword token pw2 salt2 now2) w
    = (Done (Returned o1), Done (Returned o2), w').
Proof.
  intros U S1 S2.
  destruct (run (UsersService.updatePassword token pw1 salt1 now1) w)
    as [[o1|] w1] eqn:R1; [|discriminate].
  destruct (run (UsersService.updatePassword token pw2 salt2 now2) w)
    as [[o2|] w2] eqn:R2; [|discriminate].
  destruct (updatePassword_success _ _ _ _ _ _ _ U R1) as (u & Ne & E & X1 & _).
  destruct (updatePassword_success _ _ _ _ _ _ _ U R2)
    as (u2 & _ & E2 & X2 & _).
  rewrite E in E2. injection E2 as <-.
  pose proof (findUnique_Some _ _ _ E) as [Hu _].
  set (u' := applyData (UsersService.passwordReset (bcryptHash pw1 salt1)) u).
  assert (U' : uniqueRows (replaceRow u' (users w)) = true).
  { pose proof (prismaUpdate_uniqueRows (id u)
                  (UsersService.passwordReset (bcryptHash pw1 salt1))
                  (users w) U) as P.
    rewrite (prismaUpdate_cleared _ _ _ U Hu (noNewToken_passwordReset _)) in P.
    exact P. }
  assert (Hu' : In u' (replaceRow u' (users w))).
  { apply replaceRow_same_id. exists u. split; [exact Hu | reflexivity]. }
  unfold UsersService.updatePassword, UsersService.findByResetToken.
  rewrite Ne. cbn [interleave step bind ret throw users setUsers]. rewrite E, X1, X2. cbn [interleave step bind ret throw users setUsers]. rewrite !propStr_id.
  rewrite (prismaUpdate_cleared _ _ _ U Hu (noNewToken_passwordReset _)). cbn [interleave step bind ret throw users setUsers].
  fold u'. change (id u) with (id u').
  rewrite (prismaUpdate_cleared _ _ _ U' Hu' (noNewToken_passwordReset _)).
  cbn [interleave step bind ret throw users setUsers]. eexists _, _, _. reflexivity.
Qed.

(** *** Refresh *)

Abbreviation rotated u t :=
  (AuthService.storeRefresh (refreshSign (email u) (id u) t)
     (t + AuthService.sevenDays)).

Lemma refreshToken_success (w w1 : World) (token : string) (now now' : Z)
    (resp : LoginResponse) :
  uniqueRows (users w) = true ->
  run (AuthService.refreshToken token now now') w = (Returned resp, w1) ->
  exists u,
    In u (users w)
    /\ refreshToken u = Some token
    /\ findUnique (WhereRefreshTokenGt token now) (users w) = Some u
    /\ refreshVerify token now' = true
    /\ refresh_token resp = refreshSign (email u) (id u) now'
    /\ uniqueViolation (applyData (rotated u now') u)
         (otherThan (id u) (users w)) = None
    /\ w1 = setUsers w (replaceRow (applyData (rotated u now') u) (users w)).
Proof.
  intros U R. unfold AuthService.refreshToken in R. simpl in R.
  destruct (findUnique (WhereRefreshTokenGt token now) (users w)) as [u|] eqn:E;
    [|discriminate].
  destruct (refreshVerify token now') eqn:V.
  - simpl in R.
    destruct (prismaUpdate (id u) (rotated u now') (users w)) as [[u'|e] us']
      eqn:P; [|discriminate].
    simpl in R. injection R as <- <-.
    pose proof (findUnique_Some _ _ _ E) as [Hu M]. simpl in M.
    apply andb_true_iff in M. destruct M as [M _]. apply optStrEq_true in M.
    apply prismaUpdate_Returned in P. destruct P as (u0 & E0 & -> & V0 & ->).
    rewrite (findUnique_id _ _ U Hu) in E0. injection E0 as <-.
    exists u. repeat split; assumption.
  - simpl in R.
    destruct (prismaUpdate (id u) AuthService.clearRefresh (users w))
      as [[u'|e] us']; discriminate.
Qed.

Lemma refreshToken_twice (w w1 : World) (token : string) (now now' n2 n2' : Z)
    (resp : LoginResponse) :
  uniqueRows (users w) = true ->
  run (AuthService.refreshToken token now now') w = (Returned resp, w1) ->
  refresh_token resp <> token ->
  run (AuthService.refreshToken token n2 n2') w1
    = (Thrown (UnauthorizedException "Invalid or expired refresh token"), w1).
Proof.
  intros U R Ne. destruct (refreshToken_success _ _ _ _ _ _ U R)
    as (u & Hu & T & _ & _ & S & _ & ->).
  apply refreshToken_not_found. apply findUnique_absent.
  intros r Hr. simpl. apply andb_false_iff. left. apply optStrEq_false.
  refine (token_gone refreshToken token (users w) u
            (applyData (rotated u now') u) _ U Hu T eq_refl _ r Hr).
  - intros; apply (clashes_refreshToken token); assumption.
  - simpl. rewrite <- S. congruence.
Qed.

Lemma refreshToken_interleaved (w : World) (token : string)
    (now1 now1' now2 now2' : Z) :
  uniqueRows (users w) = true ->
  succeeded (fst (run (AuthService.refreshToken token now1 now1') w)) = true ->
  succeeded (fst (run (AuthService.refreshToken token now2 now2') w)) = true ->
  exists r1 r2 w',
    interleave [true; false; true; false]
      (AuthService.refreshToken token now1 now1')
      (AuthService.refreshToken token now2 now2') w
    = (Done (Returned r1), Done (Returned r2), w').
Proof.
  intros U S1 S2.
  destruct (run (AuthService.refreshToken token now1 now1') w)
    as [[r1|] w1] eqn:R1; [|discriminate].
  destruct (run (AuthService.refreshToken token now2 now2') w)
    as [[r2|] w2] eqn:R2; [|discriminate].
  destruct (refreshToken_success _ _ _ _ _ _ U R1)
    as (u & Hu & T & E1 & V1 & _ & C1 & _).
  destruct (refreshToken_success _ _ _ _ _ _ U R2)
    as (u2 & Hu2 & T2 & E2 & V2 & _ & C2 & _).
  assert (u2 = u) as ->.
  { apply (uniqueRows_clash (users w)); auto.
    apply (clashes_refreshToken token); assumption. }
  set (u' := applyData (rotated u now1') u).
  assert (P1 : prismaUpdate (id u) (rotated u now1') (users w)
               = (Returned u', replaceRow u' (users w))).
  { unfold prismaUpdate. rewrite (findUnique_id _ _ U Hu).
    rewrite C1. reflexivity. }
  assert (P2 : prismaUpdate (id u) (rotated u now2') (replaceRow u' (users w))
               = (Returned (applyData (rotated u now2') u),
                  replaceRow (applyData (rotated u now2') u)
                    (replaceRow u' (users w)))).
  { unfold prismaUpdate.
    rewrite (findUnique_replaceRow (id u) u' u (users w) eq_refl
               (findUnique_id _ _ U Hu)).
    change (applyData (rotated u now2') u')
      with (applyData (rotated u now2') u).
    assert (O : otherThan (id u) (replaceRow u' (users w))
                = otherThan (id u) (users w))
      by apply (otherThan_replaceRow u').
    rewrite O, C2. reflexivity. }
  unfold AuthService.refreshToken. cbn [interleave step bind ret throw users setUsers].
  rewrite E1, E2, V1, V2. cbn [interleave step bind ret throw users setUsers].
  rewrite P1. cbn [interleave step bind ret throw users setUsers]. rewrite P2. cbn [interleave step bind ret throw users setUsers].
  eexists _, _, _. reflexivity.
Qed.

(** C1 (amended). Each consumption is a lookup that matches the token
    (and its non-expiry) followed by a separate update keyed by the
    account id. When two requests that present the same token are served
    one after the other, the second fails as if the token had never
    existed (for a refresh token: provided the token issued by the first
    differs from the presented one). When the lookups of the two requests
    both run before either update, each request that would succeed alone
    succeeds. *)
Theorem single_use_only_when_sequential (w : World) :
  uniqueRows (users w) = true ->
  (forall token now now2 o w1,
      run (UsersService.activateUser token now) w = (Returned o, w1) ->
      run (UsersService.activateUser token now2) w1
        = (Thrown (UnauthorizedException "Invalid activation token."), w1))
  /\ (forall token pw salt pw2 salt2 now now2 o w1,
        run (UsersService.updatePassword token pw salt now) w
          = (Returned o, w1) ->
        run (UsersService.updatePassword token pw2 salt2 now2) w1
          = (Thrown (NotFoundException "Invalid reset token."), w1))
  /\ (forall token now now' n2 n2' resp w1,
        run (AuthService.refreshToken token now now') w = (Returned resp, w1) ->
        refresh_token resp <> token ->
        run (AuthService.refreshToken token n2 n2') w1
          = (Thrown (UnauthorizedException "Invalid or expired refresh token"),
             w1))
  /\ (forall token now1 now2,
        succeeded (fst (run (UsersService.activateUser token now1) w)) = true ->
        succeeded (fst (run (UsersService.activateUser token now2) w)) = true ->
        exists o1 o2 w',
          interleave [true; false; true; false]
            (UsersService.activateUser token now1)
            (UsersService.activateUser token now2) w
          = (Done (Returned o1), Done (Returned o2), w'))
  /\ (forall token pw1 salt1 pw2 salt2 now1 now2,
        succeeded
          (fst (run (UsersService.updatePassword token pw1 salt1 now1) w))
          = true ->
        succeeded
          (fst (run (UsersService.updatePassword token pw2 salt2 now2) w))
          = true ->
        exists o1 o2 w',
          interleave [true; false; true; false; true; false]
            (UsersService.updatePassword token pw1 salt1 now1)
            (UsersService.updatePassword token pw2 salt2 now2) w
          = (Done (Returned o1), Done (Returned o2), w'))
  /\ (forall token now1 now1' now2 now2',
        succeeded (fst (run (AuthService.refreshToken token now1 now1') w))
          = true ->
        succeeded (fst (run (AuthService.refreshToken token now2 now2') w))
          = true ->
        exists r1 r2 w',
          interleave [true; false; true; false]
            (AuthService.refreshToken token now1 now1')
            (AuthService.refreshToken token now2 now2') w
          = (Done (Returned r1), Done (Returned r2), w')).
Proof.
  intros U. repeat split; intros.
  - eapply activateUser_twice; eassumption.
  - eapply updatePassword_twice; eassumption.
  - eapply refreshToken_twice; eassumption.
  - apply activateUser_interleaved; assumption.
  - apply updatePassword_interleaved; assumption.
  - apply refreshToken_interleaved; assumption.
Qed.

End SingleUse.

(** C1 at alice's three tokens: used a second time after the first use
    has completed, each is refused. *)
Lemma single_use_only_when_sequential_witness :
  uniqueRows (users demoWorld) = true
  /\ (let w1 := snd (run (UsersService.activateUser "act-1" 500) demoWorld) in
      run (UsersService.activateUser "act-1" 600) w1
        = (Thrown (UnauthorizedException "Invalid activation token."), w1))
  /\ (let w1 := snd (run (UsersService.updatePassword (crypto := demoCrypto)
                            "rst-1" "NewPass1!" "s9" 500) demoWorld) in
      run (UsersService.updatePassword (crypto := demoCrypto)
             "rst-1" "NewPass2!" "s8" 600) w1
        = (Thrown (NotFoundException "Invalid reset token."), w1))
  /\ (let w1 := snd (run (AuthService.refreshToken (crypto := demoCrypto)
                            "refresh.u1.0" 500 501) demoWorld) in
      run (AuthService.refreshToken (crypto := demoCrypto)
             "refresh.u1.0" 600 601) w1
        = (Thrown (UnauthorizedException "Invalid or expired refresh token"),
           w1)).
Proof.
  destruct (single_use_only_when_sequential (crypto := demoCrypto)
              demoWorld eq_refl) as (A & P & R & _).
  split; [reflexivity|]. split; [|split]; cbv zeta.
  - destruct (succeeded_Returned
                (run (UsersService.activateUser "act-1" 500) demoWorld)
                eq_refl) as [o E].
    exact (A "act-1" 500 600 o _ E).
  - destruct (succeeded_Returned
                (run (UsersService.updatePassword (crypto := demoCrypto)
                       "rst-1" "NewPass1!" "s9" 500) demoWorld)
                eq_refl) as [o E].
    exact (P "rst-1" "NewPass1!" "s9" "NewPass2!" "s8" 500 600 o _ E).
  - destruct (succeeded_Returned
                (run (AuthService.refreshToken (crypto := demoCrypto)
                       "refresh.u1.0" 500 501) demoWorld)
                eq_refl) as [resp E].
    refine (R "refresh.u1.0" 500 501 600 601 resp _ E _).
    pose proof (f_equal fst E) as T. vm_compute in T.
    injection T as <-. discriminate.
Defined.

(** C1 (as stated) fails: two requests that present alice's activation
    token (or her reset token, or her refresh token) and whose lookups run
    before either update both succeed. *)
Lemma same_token_consumed_twice :
  (exists o1 o2 w',
      interleave [true; false; true; false]
        (UsersService.activateUser "act-1" 500)
        (UsersService.activateUser "act-1" 500) demoWorld
      = (Done (Returned o1), Done (Returned o2), w'))
  /\ (exists o1 o2 w',
        interleave [true; false; true; false; true; false]
          (UsersService.updatePassword (crypto := demoCrypto)
             "rst-1" "NewPass1!" "s9" 500)
          (UsersService.updatePassword (crypto := demoCrypto)
             "rst-1" "NewPass2!" "s8" 500) demoWorld
        = (Done (Returned o1), Done (Returned o2), w'))
  /\ (exists r1 r2 w',
        interleave [true; false; true; false]
          (AuthService.refreshToken (crypto := demoCrypto)
             "refresh.u1.0" 500 501)
          (AuthService.refreshToken (crypto := demoCrypto)
             "refresh.u1.0" 500 502) demoWorld
        = (Done (Returned r1), Done (Returned r2), w')).
Proof. repeat split; eexists _, _, _; reflexivity. Qed.

(** ** Tokens and expiries stay together *)

Lemma isNull_true {A} (o : option A) : isNull o = true <-> o = None.
Proof. destruct o; simpl; split; congruence. Qed.

Lemma eqb_isNull {A B} (a : option A) (b : option B) :
  Bool.eqb (isNull a) (isNull b) = true <-> (a = None <-> b = None).
Proof.
  rewrite Bool.eqb_true_iff. destruct a, b; simpl; split; intros H;
    try reflexivity; try discriminate; try (split; congruence).
  - destruct H as [_ H]. specialize (H eq_refl). discriminate.
  - destruct H as [H _]. specialize (H eq_refl). discriminate.
Qed.

(** What [paired] decides. *)
Lemma paired_iff (u : User) :
  paired u = true <->
  (activationToken u = None <-> activationTokenExpires u = None) /\
  (resetToken u = None <-> resetTokenExpiry u = None) /\
  (refreshToken u = None <-> refreshTokenExpires u = None).
Proof.
  unfold paired. rewrite !andb_true_iff, !eqb_isNull. tauto.
Qed.

Lemma pairedWrite_default {A B} (t : option (option A)) (e : option (option B))
    (a : option A) (b : option B) :
  pairedWrite t e = true ->
  Bool.eqb (isNull a) (isNull b) = true ->
  Bool.eqb (isNull (default a t)) (isNull (default b e)) = true.
Proof. destruct t, e; simpl; auto; discriminate. Qed.

Lemma applyData_paired (d : UserData) (u : User) :
  pairedData d = true -> paired u = true -> paired (applyData d u) = true.
Proof.
  unfold pairedData, paired. rewrite !andb_true_iff.
  intros [[D1 D2] D3] [[P1 P2] P3]. simpl.
  repeat split; apply pairedWrite_default; assumption.
Qed.

Lemma prismaUpdate_paired (i : string) (d : UserData) (us : list User) :
  pairedData d = true -> forallb paired us = true ->
  forallb paired (snd (prismaUpdate i d us)) = true.
Proof.
  intros D F. unfold prismaUpdate.
  destruct (findUnique (WhereId i) us) as [u|] eqn:E; [|exact F].
  destruct (uniqueViolation _ _); [exact F|]. simpl.
  apply findUnique_Some in E. destruct E as [Hu _].
  rewrite forallb_forall in F.
  apply forallb_forall. intros r Hr. unfold replaceRow in Hr.
  apply in_map_iff in Hr. destruct Hr as (x & <- & Hx).
  destruct (String.eqb (id x) (id (applyData d u))).
  - apply applyData_paired; auto.
  - auto.
Qed.

Lemma prismaCreate_paired (u : User) (w : World) :
  paired u = true -> forallb paired (users w) = true ->
  forallb paired (snd (prismaCreate u w)) = true.
Proof.
  intros P F. unfold prismaCreate.
  destruct (uniqueViolation u (users w)); [exact F|].
  destruct (existsb _ _); [|exact F]. simpl.
  rewrite forallb_app, F. simpl. rewrite P. reflexivity.
Qed.

(** A request all of whose writes keep tokens and expiries together
    leaves them together in every row. *)
Lemma run_paired {A} (p : Prog A) (w : World) :
  pairedProg p -> forallb paired (users w) = true ->
  forallb paired (users (snd (run p w))) = true.
Proof.
  intros P. revert w.
  induction P as [o|wh k _ IH|wh k _ IH|i d k D _ IH|u k Pu _ IH|k _ IH|m k _ IH];
    intros w F; simpl; auto.
  - pose proof (prismaUpdate_paired i d (users w) D F) as Q.
    destruct (prismaUpdate i d (users w)) as [r us]. apply IH. exact Q.
  - pose proof (prismaCreate_paired u w Pu F) as Q.
    destruct (prismaCreate u w) as [r us]. apply IH. exact Q.
Qed.

Lemma step_paired {A} (p : Prog A) (w : World) :
  pairedProg p -> forallb paired (users w) = true ->
  pairedProg (fst (step p w))
  /\ forallb paired (users (snd (step p w))) = true.
Proof.
  intros P F. destruct P as [o|wh k K|wh k K|i d k D K|u k Pu K|k K|m k K];
    simpl.
  - split; [constructor | exact F].
  - split; [apply K | exact F].
  - split; [apply K | exact F].
  - pose proof (prismaUpdate_paired i d (users w) D F) as Q.
    destruct (prismaUpdate i d (users w)) as [r us].
    split; [apply K | exact Q].
  - pose proof (prismaCreate_paired u w Pu F) as Q.
    destruct (prismaCreate u w) as [r us].
    split; [apply K | exact Q].
  - split; [exact K | exact F].
  - split; [exact K | exact F].
Qed.

(** The same with two requests in flight, under every schedule. *)
Lemma interleave_paired {A B} (sched : list bool) (p : Prog A) (q : Prog B)
    (w : World) :
  pairedProg p -> pairedProg q -> forallb paired (users w) = true ->
  forallb paired (users (snd (interleave sched p q w))) = true.
Proof.
  revert p q w. induction sched as [|[|] s IH]; intros p q w P Q F; simpl.
  - exact F.
  - destruct (step_paired p w P F) as [P' F'].
    destruct (step p w) as [p' w']. apply IH; assumption.
  - destruct (step_paired q w Q F) as [Q' F'].
    destruct (step q w) as [q' w']. apply IH; assumption.
Qed.

Lemma bind_paired {A B} (p : Prog A) (f : A -> Prog B) :
  pairedProg p -> (forall a, pairedProg (f a)) -> pairedProg (bind p f).
Proof.
  intros P F. induction P as [[a|e]|wh k _ IH|wh k _ IH|i d k D _ IH
                              |u k Pu _ IH|k _ IH|m k _ IH]; simpl;
    try (constructor; auto).
  apply F.
Qed.

Ltac paired_prog :=
  repeat (first
    [ apply pairedDone
    | apply bind_paired; [|intros]
    | apply pairedFindUnique; intros
    | apply pairedFindUniqueRole; intros
    | apply pairedUpdate; [reflexivity | intros]
    | apply pairedCreate; [reflexivity | intros]
    | apply pairedPause
    | apply pairedSendEmail
    | match goal with
      | |- pairedProg (match ?x with _ => _ end) => destruct x
      | |- pairedProg (if ?x then _ else _) => destruct x
      end ]).

Section Pairing.
Context {crypto : Crypto} {config : Config}.

Lemma login_paired uid mail now : pairedProg (AuthService.login uid mail now).
Proof. unfold AuthService.login, ret, throw. paired_prog. Qed.

Lemma logout_paired userId : pairedProg (AuthService.logout userId).
Proof. unfold AuthService.logout, ret, throw. paired_prog. Qed.

Lemma refreshToken_paired token now now' :
  pairedProg (AuthService.refreshToken token now now').
Proof. unfold AuthService.refreshToken, ret, throw. paired_prog. Qed.

Lemma create_paired dto salt token uuid now :
  pairedProg (UsersService.create dto salt token uuid now).
Proof. unfold UsersService.create, ret, throw. paired_prog. Qed.

Lemma activateUser_paired token now :
  pairedProg (UsersService.activateUser token now).
Proof.
  unfold UsersService.activateUser, UsersService.findByActivationToken,
    ret, throw.
  paired_prog.
Qed.

Lemma resetPassword_paired mail token now :
  pairedProg (UsersService.resetPassword mail token now).
Proof.
  unfold UsersService.resetPassword, UsersService.findUserByEmail, ret, throw.
  paired_prog.
Qed.

Lemma updatePassword_paired token pw salt now :
  pairedProg (UsersService.updatePassword token pw salt now).
Proof.
  unfold UsersService.updatePassword, UsersService.findByResetToken,
    ret, throw.
  paired_prog.
Qed.

Lemma changePassword_paired userId current new salt :
  pairedProg (UsersService.changePassword userId current new salt).
Proof. unfold UsersService.changePassword, ret, throw. paired_prog. Qed.

Lemma sendActivation_paired mail token now :
  pairedProg (UsersService.findByEmailAndSendEmailActivation mail token now).
Proof.
  unfold UsersService.findByEmailAndSendEmailActivation, ret, throw.
  paired_prog.
Qed.

(** C10. If in every row each token column is null exactly when its
    expiry column is, then the same holds after login, logout, refresh
    (rotation or signature failure), create, activateUser, resetPassword,
    updatePassword, changePassword and the re-issue of an activation
    token. *)
Theorem token_pairs_preserved (w : World) :
  forallb paired (users w) = true ->
  (forall uid mail now,
      forallb paired (users (snd (run (AuthService.login uid mail now) w)))
        = true)
  /\ (forall userId,
        forallb paired (users (snd (run (AuthService.logout userId) w)))
          = true)
  /\ (forall token now now',
        forallb paired
          (users (snd (run (AuthService.refreshToken token now now') w)))
          = true)
  /\ (forall dto salt token uuid now,
        forallb paired
          (users (snd (run (UsersService.create dto salt token uuid now) w)))
          = true)
  /\ (forall token now,
        forallb paired
          (users (snd (run (UsersService.activateUser token now) w))) = true)
  /\ (forall mail token now,
        forallb paired
          (users (snd (run (UsersService.resetPassword mail token now) w)))
          = true)
  /\ (forall token pw salt now,
        forallb paired
          (users (snd (run (UsersService.updatePassword token pw salt now) w)))
          = true)
  /\ (forall userId current new salt,
        forallb paired
          (users (snd (run (UsersService.changePassword userId current new
                              salt) w))) = true)
  /\ (forall mail token now,
        forallb paired
          (users (snd (run (UsersService.findByEmailAndSendEmailActivation
                              mail token now) w))) = true).
Proof.
  intros F. repeat split; intros; apply run_paired; try exact F.
  - apply login_paired.
  - apply logout_paired.
  - apply refreshToken_paired.
  - apply create_paired.
  - apply activateUser_paired.
  - apply resetPassword_paired.
  - apply updatePassword_paired.
  - apply changePassword_paired.
  - apply sendActivation_paired.
Qed.

End Pairing.

(** C10 at the sample world, for a login of bob. *)
Lemma token_pairs_preserved_witness :
  forallb paired (users demoWorld) = true
  /\ forallb paired
       (users (snd (run (AuthService.login (crypto := demoCrypto)
                           "u2" "bob@example.com" 500) demoWorld))) = true.
Proof.
  split; [reflexivity|].
  apply (token_pairs_preserved (crypto := demoCrypto) (config := demoConfig)
           demoWorld eq_refl).
Defined.

(** ** What the other methods hand back *)

Lemma run_hidesPassword (p : Prog JsObject) (w w' : World) (o : JsObject) :
  hidesPassword p -> run p w = (Returned o, w') -> o !! "password" = None.
Proof.
  intros H. revert w.
  induction H as [e|o' Ho|wh k _ IH|wh k _ IH|i d k _ IH|u k _ IH|k _ IH
                  |m k _ IH]; intros w R; simpl in R.
  - discriminate.
  - injection R as <- _. exact Ho.
  - eapply IH, R.
  - eapply IH, R.
  - destruct (prismaUpdate i d (users w)) as [r us]. eapply IH, R.
  - destruct (prismaCreate u w) as [r us]. eapply IH, R.
  - eapply IH, R.
  - eapply IH, R.
Qed.

Lemma bind_hidesPassword {A} (p : Prog A) (f : A -> Prog JsObject) :
  (forall a, hidesPassword (f a)) -> hidesPassword (bind p f).
Proof.
  intros F. induction p as [[a|e]|wh k IH|wh k IH|i d k IH|u k IH|k IH|m k IH];
    simpl; try (constructor; auto).
  apply F.
Qed.

Ltac hides_prog :=
  repeat (first
    [ apply hidesThrown
    | apply hidesReturned; apply withoutPassword_hides
    | apply bind_hidesPassword; intros
    | apply hidesFindUnique; intros
    | apply hidesFindUniqueRole; intros
    | apply hidesUpdate; intros
    | apply hidesCreate; intros
    | apply hidesPause
    | apply hidesSendEmail
    | match goal with
      | |- hidesPassword (match ?x with _ => _ end) => destruct x
      | |- hidesPassword (if ?x then _ else _) => destruct x
      end ]).

Section Redaction.
Context {crypto : Crypto} {config : Config}.

Lemma create_hides dto salt token uuid now :
  hidesPassword (UsersService.create dto salt token uuid now).
Proof. unfold UsersService.create, ret, throw. hides_prog. Qed.

Lemma findByResetToken_hides token now :
  hidesPassword (UsersService.findByResetToken token now).
Proof. unfold UsersService.findByResetToken, ret, throw. hides_prog. Qed.

Lemma activateUser_hides token now :
  hidesPassword (UsersService.activateUser token now).
Proof.
  unfold UsersService.activateUser, UsersService.findByActivationToken,
    ret, throw.
  hides_prog.
Qed.

Lemma resetPassword_hides mail token now :
  hidesPassword (UsersService.resetPassword mail token now).
Proof.
  unfold UsersService.resetPassword, UsersService.findUserByEmail, ret, throw.
  hides_prog.
Qed.

Lemma updatePassword_hides token pw salt now :
  hidesPassword (UsersService.updatePassword token pw salt now).
Proof.
  unfold UsersService.updatePassword, UsersService.findByResetToken,
    ret, throw.
  hides_prog.
Qed.

Lemma changePassword_hides userId current new salt :
  hidesPassword (UsersService.changePassword userId current new salt).
Proof. unfold UsersService.changePassword, ret, throw. hides_prog. Qed.

Lemma sendActivation_hides mail token now :
  hidesPassword (UsersService.findByEmailAndSendEmailActivation mail token now).
Proof.
  unfold UsersService.findByEmailAndSendEmailActivation, ret, throw.
  hides_prog.
Qed.

Lemma validateUser_hides (w w' : World) (mail pass : string) (o : JsObject) :
  run (AuthService.validateUser mail pass) w = (Returned (Some o), w') ->
  o !! "password" = None.
Proof.
  unfold AuthService.validateUser. simpl.
  destruct (findUnique (WhereEmail mail) (users w)) as [u|]; [|discriminate].
  destruct (isActive u); simpl; [|discriminate].
  destruct (bcryptCompare pass (password u)); [|discriminate].
  intros R. injection R as <- _. apply withoutPassword_hides.
Qed.

(** X1. Whatever [create], [findByResetToken], [activateUser],
    [resetPassword], [updatePassword], [changePassword],
    [findByEmailAndSendEmailActivation] and [validateUser] return, the
    returned user object has no [password] property: these methods all
    destructure [{ password, ...result }] before returning. *)
Theorem users_service_results_hide_password (w w' : World) (o : JsObject) :
  (forall dto salt token uuid now,
      run (UsersService.create dto salt token uuid now) w = (Returned o, w') ->
      o !! "password" = None)
  /\ (forall token now,
        run (UsersService.findByResetToken token now) w = (Returned o, w') ->
        o !! "password" = None)
  /\ (forall token now,
        run (UsersService.activateUser token now) w = (Returned o, w') ->
        o !! "password" = None)
  /\ (forall mail token now,
        run (UsersService.resetPassword mail token now) w = (Returned o, w') ->
        o !! "password" = None)
  /\ (forall token pw salt now,
        run (UsersService.updatePassword token pw salt now) w
          = (Returned o, w') ->
        o !! "password" = None)
  /\ (forall userId current new salt,
        run (UsersService.changePassword userId current new salt) w
          = (Returned o, w') ->
        o !! "password" = None)
  /\ (forall mail token now,
        run (UsersService.findByEmailAndSendEmailActivation mail token now) w
          = (Returned o, w') ->
        o !! "password" = None)
  /\ (forall mail pass,
        run (AuthService.validateUser mail pass) w = (Returned (Some o), w') ->
        o !! "password" = None).
Proof.
  repeat split; intros.
  - eapply run_hidesPassword; [apply create_hides | eassumption].
  - eapply run_hidesPassword; [apply findByResetToken_hides | eassumption].
  - eapply run_hidesPassword; [apply activateUser_hides | eassumption].
  - eapply run_hidesPassword; [apply resetPassword_hides | eassumption].
  - eapply run_hidesPassword; [apply updatePassword_hides | eassumption].
  - eapply run_hidesPassword; [apply changePassword_hides | eassumption].
  - eapply run_hidesPassword; [apply sendActivation_hides | eassumption].
  - eapply validateUser_hides; eassumption.
Qed.

End Redaction.

(** X1 at the activation of alice. *)
Lemma users_service_results_hide_password_witness :
  exists o w',
    run (UsersService.activateUser "act-1" 500) demoWorld = (Returned o, w')
    /\ o !! "password" = None.
Proof.
  destruct (succeeded_Returned
              (run (UsersService.activateUser "act-1" 500) demoWorld) eq_refl)
    as [o E].
  exists o, (snd (run (UsersService.activateUser "act-1" 500) demoWorld)).
  split; [exact E|].
  destruct (users_service_results_hide_password
              (crypto := demoCrypto) (config := demoConfig) demoWorld
              (snd (run (UsersService.activateUser "act-1" 500) demoWorld)) o)
    as (_ & _ & A & _).
  exact (A "act-1" 500 E).
Defined.

(** ** Issuing and consuming, one request at a time *)

Lemma uniqueRows_other (us : list User) (r u : User) :
  uniqueRows us = true -> In r us -> In u us ->
  String.eqb (id r) (id u) = false -> clashes r u = false.
Proof.
  intros U Hr Hu Ne. destruct (clashes r u) eqn:C; [|reflexivity].
  apply (uniqueRows_clash us r u U Hr Hu) in C. subst r.
  rewrite String.eqb_refl in Ne. discriminate.
Qed.

(** An update that writes one new token value goes through exactly when no
    other row holds that value in the same column. *)
Lemma prismaUpdate_ok (us : list User) (u : User) (d : UserData) :
  uniqueRows us = true -> In u us ->
  (forall r, In r us -> String.eqb (id r) (id u) = false ->
             clashes r (applyData d u) = false) ->
  prismaUpdate (id u) d us
    = (Returned (applyData d u), replaceRow (applyData d u) us).
Proof.
  intros U Hu C. unfold prismaUpdate. rewrite (findUnique_id us u U Hu).
  assert (V : uniqueViolation (applyData d u) (otherThan (id u) us) = None).
  { apply uniqueViolation_None, List.Forall_forall. intros r Hr.
    apply otherThan_In in Hr. destruct Hr as [Hr Ne]. apply C; assumption. }
  rewrite V. reflexivity.
Qed.

Lemma prismaUpdate_unchanged (i : string) (d : UserData) (us us' : list User)
    (e : Exception) :
  prismaUpdate i d us = (Thrown e, us') -> us' = us.
Proof.
  unfold prismaUpdate. destruct (findUnique (WhereId i) us) as [u|].
  - destruct (uniqueViolation _ _); intros R.
    + injection R as _ <-. reflexivity.
    + discriminate R.
  - intros R. injection R as _ <-. reflexivity.
Qed.

Section OneRequest.
Context {crypto : Crypto} {config : Config}.

(** X2. A pending, unexpired activation token activates its account: the
    one update sets [isActive] and nulls both activation columns, leaves
    the password and the other tokens as they were, and the updated user is
    returned without its password. *)
Theorem activateUser_activates
    (w : World) (u : User) (token : string) (t now : Z) :
  uniqueRows (users w) = true -> In u (users w) -> token <> "" ->
  activationToken u = Some token -> activationTokenExpires u = Some t ->
  now <= t ->
  exists u',
    run (UsersService.activateUser token now) w
      = (Returned (withoutPassword (userObject u')),
         setUsers w (replaceRow u' (users w)))
    /\ id u' = id u
    /\ isActive u' = true
    /\ activationToken u' = None
    /\ activationTokenExpires u' = None
    /\ password u' = password u
    /\ resetToken u' = resetToken u
    /\ resetTokenExpiry u' = resetTokenExpiry u
    /\ refreshToken u' = refreshToken u
    /\ refreshTokenExpires u' = refreshTokenExpires u.
Proof.
  intros U Hu Ne T X L. exists (applyData UsersService.activated u).
  split; [|repeat split].
  apply String.eqb_neq in Ne.
  rewrite activateUser_run, Ne, (findUnique_activationToken _ _ _ U Hu T).
  unfold UsersService.expiredAt. rewrite X.
  assert (G : (t <? now) = false) by (apply Z.ltb_ge; exact L).
  rewrite G, (prismaUpdate_cleared _ _ _ U Hu noNewToken_activated).
  reflexivity.
Qed.

(** X3. [changePassword] fails with Unauthorized, changing nothing, when no
    account has the id or the current password does not verify; otherwise
    its one update replaces the password hash and nothing else. *)
Theorem changePassword_outcomes
    (w : World) (userId current new salt : string) :
  uniqueRows (users w) = true ->
  match findUnique (WhereId userId) (users w) with
  | None =>
      run (UsersService.changePassword userId current new salt) w
      = (Thrown (UnauthorizedException "User not found."), w)
  | Some u =>
      if bcryptCompare current (password u)
      then
        exists u',
          run (UsersService.changePassword userId current new salt) w
          = (Returned (withoutPassword (userObject u')),
             setUsers w (replaceRow u' (users w)))
          /\ password u' = bcryptHash new salt
          /\ isActive u' = isActive u
          /\ activationToken u' = activationToken u
          /\ activationTokenExpires u' = activationTokenExpires u
          /\ resetToken u' = resetToken u
          /\ resetTokenExpiry u' = resetTokenExpiry u
          /\ refreshToken u' = refreshToken u
          /\ refreshTokenExpires u' = refreshTokenExpires u
      else
        run (UsersService.changePassword userId current new salt) w
        = (Thrown (UnauthorizedException "Incorrect current password."), w)
  end.
Proof.
  intros U. unfold UsersService.changePassword. cbn [run].
  destruct (findUnique (WhereId userId) (users w)) as [u|] eqn:E;
    [|reflexivity].
  destruct (bcryptCompare current (password u)); [|reflexivity].
  apply findUnique_WhereId in E. destruct E as [Hu <-].
  exists (applyData (UsersService.storePassword (bcryptHash new salt)) u).
  split; [|repeat split].
  cbn [run]. rewrite prismaUpdate_cleared; [reflexivity | exact U | exact Hu |].
  repeat split.
Qed.

(** X4. [login] stores the refresh token it returns, with an expiry seven
    days after the call; it fails with an internal error, storing nothing,
    when no account has the id or another account already holds that
    token. *)
Theorem login_outcomes (w : World) (uid mail : string) (now : Z) :
  uniqueRows (users w) = true ->
  match findUnique (WhereId uid) (users w) with
  | None =>
      run (AuthService.login uid mail now) w
      = (Thrown (InternalServerErrorException
                   "Failed to complete login process."), w)
  | Some u =>
      if existsb (fun r => negb (String.eqb (id r) uid)
                           && optStrEq (refreshToken r)
                                (refreshSign mail uid now)) (users w)
      then
        run (AuthService.login uid mail now) w
        = (Thrown (InternalServerErrorException
                     "Failed to complete login process."), w)
      else
        exists u',
          run (AuthService.login uid mail now) w
          = (Returned {| access_token := accessSign mail uid now;
                         refresh_token := refreshSign mail uid now |},
             setUsers w (replaceRow u' (users w)))
          /\ id u' = uid
          /\ refreshToken u' = Some (refreshSign mail uid now)
          /\ refreshTokenExpires u' = Some (now + 604800000)
          /\ password u' = password u
          /\ activationToken u' = activationToken u
          /\ resetToken u' = resetToken u
  end.
Proof.
  intros U. unfold AuthService.login. cbn [run].
  destruct (findUnique (WhereId uid) (users w)) as [u|] eqn:E.
  - pose proof (findUnique_WhereId _ _ _ E) as [Hu I].
    destruct (existsb _ (users w)) eqn:X.
    + destruct (prismaUpdate uid _ (users w)) as [[u'|e] us'] eqn:P.
      * exfalso. apply prismaUpdate_Returned in P.
        destruct P as (u0 & E0 & -> & V & _).
        apply existsb_exists in X. destruct X as (r & Hr & Xr).
        apply andb_true_iff in Xr. destruct Xr as [Ne T].
        apply negb_true_iff in Ne. apply optStrEq_true in T.
        apply uniqueViolation_None in V. rewrite List.Forall_forall in V.
        assert (Hr' : In r (otherThan uid (users w)))
          by (apply otherThan_In; split; assumption).
        apply V, clashes_false in Hr'. destruct Hr' as (_ & _ & _ & _ & C).
        simpl in C. rewrite T in C. simpl in C.
        rewrite String.eqb_refl in C. discriminate.
      * apply prismaUpdate_unchanged in P. subst us'.
        cbn [run throw]. rewrite setUsers_same. reflexivity.
    + subst uid.
      exists (applyData
                (AuthService.storeRefresh (refreshSign mail (id u) now)
                   (now + AuthService.sevenDays)) u).
      split; [|repeat split].
      rewrite prismaUpdate_ok; [reflexivity | exact U | exact Hu |].
      intros r Hr Ne.
      pose proof (uniqueRows_other _ _ _ U Hr Hu Ne) as C.
      apply clashes_false in C. destruct C as (C1 & C2 & C3 & C4 & _).
      apply clashes_false. simpl. repeat split; try assumption.
      destruct (refreshToken r) as [x|] eqn:T; [|reflexivity]. simpl.
      destruct (String.eqb x (refreshSign mail (id u) now)) eqn:Q;
        [|reflexivity].
      exfalso. apply not_true_iff_false in X. apply X.
      apply existsb_exists. exists r. split; [exact Hr|].
      rewrite Ne, T. simpl. exact Q.
  - unfold prismaUpdate. rewrite E. cbn [run throw].
    rewrite setUsers_same. reflexivity.
Qed.

(** X5. A reset request for the address of an account stores the new
    token with an expiry one hour after the call, leaves the password and
    the other tokens as they were, hands one mail for that address to the
    mailer and returns the updated user without its password. *)
Theorem resetPassword_issues
    (w : World) (mail token : string) (now : Z) (u : User) :
  uniqueRows (users w) = true ->
  findUnique (WhereEmail mail) (users w) = Some u ->
  (forall r, In r (users w) -> String.eqb (id r) (id u) = false ->
             resetToken r <> Some token) ->
  exists u',
    run (UsersService.resetPassword mail token now) w
      = (Returned (withoutPassword (userObject u')),
         {| users := replaceRow u' (users w);
            roles := roles w;
            outbox := outbox w ++ [UsersService.resetMail u token] |})
    /\ mail_to (UsersService.resetMail u token) = mail
    /\ resetToken u' = Some token
    /\ resetTokenExpiry u' = Some (now + 3600000)
    /\ password u' = password u
    /\ isActive u' = isActive u
    /\ activationToken u' = activationToken u
    /\ activationTokenExpires u' = activationTokenExpires u
    /\ refreshToken u' = refreshToken u
    /\ refreshTokenExpires u' = refreshTokenExpires u.
Proof.
  intros U E N.
  exists (applyData (UsersService.storeReset token (now + UsersService.oneHour))
            u).
  pose proof (findUnique_Some _ _ _ E) as [Hu M]. simpl in M.
  apply String.eqb_eq in M.
  split; [|split; [exact M | repeat split]].
  unfold UsersService.resetPassword, UsersService.findUserByEmail.
  cbn [bind run ret]. rewrite E. cbn [bind run ret].
  rewrite prismaUpdate_ok; [reflexivity | exact U | exact Hu |].
  intros r Hr Ne.
  pose proof (uniqueRows_other _ _ _ U Hr Hu Ne) as C.
  apply clashes_false in C. destruct C as (C1 & C2 & C3 & _ & C5).
  apply clashes_false. simpl. repeat split; try assumption.
  destruct (resetToken r) as [x|] eqn:T; [|reflexivity]. simpl.
  destruct (String.eqb x token) eqn:Q; [|reflexivity].
  apply String.eqb_eq in Q. subst x. exfalso. apply (N r Hr Ne). exact T.
Qed.

(** X6. [create] inserts an inactive account that carries the hash of the
    password, the activation token with an expiry one day after the call
    and no reset or refresh token; it hands the activation mail to the
    mailer and returns the user without its password. A clash with a
    unique index is reported as a conflict on that column and an unknown
    role as an internal error, and then nothing is stored or sent. *)
Theorem create_outcomes
    (w : World) (dto : CreateUserDto) (salt token uuid : string) (now : Z) :
  exists row,
    id row = uuid
    /\ email row = dto_email dto
    /\ password row = bcryptHash (dto_password dto) salt
    /\ isActive row = false
    /\ activationToken row = Some token
    /\ activationTokenExpires row = Some (now + 86400000)
    /\ resetToken row = None /\ resetTokenExpiry row = None
    /\ refreshToken row = None /\ refreshTokenExpires row = None
    /\ run (UsersService.create dto salt token uuid now) w
       = match uniqueViolation row (users w) with
         | Some target =>
             (Thrown (ConflictException
                        ("User with this " +:+ target +:+ " already exists.")),
              w)
         | None =>
             if existsb (fun r => String.eqb (role_id r) (dto_roleId dto))
                  (roles w)
             then (Returned (withoutPassword (userObject row)),
                   {| users := users w ++ [row];
                      roles := roles w;
                      outbox := outbox w
                                ++ [UsersService.activationMail row token] |})
             else (Thrown (InternalServerErrorException
                             "Could not create user."), w)
         end.
Proof.
  exists (UsersService.newUser dto uuid (bcryptHash (dto_password dto) salt)
            token (now + UsersService.oneDay)).
  repeat split.
  unfold UsersService.create. cbn [run]. unfold prismaCreate.
  destruct (uniqueViolation _ (users w)) as [target|].
  - cbn [run throw]. rewrite setUsers_same. reflexivity.
  - cbn [roleId UsersService.newUser]. destruct (existsb _ (roles w)).
    + reflexivity.
    + cbn [run throw]. rewrite setUsers_same. reflexivity.
Qed.

End OneRequest.

(** X2 at alice's activation token, presented before it expires. *)
Lemma activateUser_activates_witness :
  exists u',
    run (UsersService.activateUser "act-1" 500) demoWorld
      = (Returned (withoutPassword (userObject u')),
         setUsers demoWorld (replaceRow u' (users demoWorld)))
    /\ id u' = id alice
    /\ isActive u' = true
    /\ activationToken u' = None
    /\ activationTokenExpires u' = None
    /\ password u' = password alice
    /\ resetToken u' = resetToken alice
    /\ resetTokenExpiry u' = resetTokenExpiry alice
    /\ refreshToken u' = refreshToken alice
    /\ refreshTokenExpires u' = refreshTokenExpires alice.
Proof.
  apply (activateUser_activates demoWorld alice "act-1" 1000 500);
    [reflexivity | left; reflexivity | discriminate | reflexivity
    | reflexivity | lia].
Defined.

(** X3 at bob, who presents his current password. *)
Lemma changePassword_outcomes_witness :
  exists u',
    run (UsersService.changePassword (crypto := demoCrypto)
           "u2" "Secret2!" "NewPass1!" "s9") demoWorld
    = (Returned (withoutPassword (userObject u')),
       setUsers demoWorld (replaceRow u' (users demoWorld)))
    /\ password u' = bcryptHash (Crypto := demoCrypto) "NewPass1!" "s9"
    /\ isActive u' = isActive bob
    /\ activationToken u' = activationToken bob
    /\ activationTokenExpires u' = activationTokenExpires bob
    /\ resetToken u' = resetToken bob
    /\ resetTokenExpiry u' = resetTokenExpiry bob
    /\ refreshToken u' = refreshToken bob
    /\ refreshTokenExpires u' = refreshTokenExpires bob.
Proof.
  exact (changePassword_outcomes (crypto := demoCrypto)
           demoWorld "u2" "Secret2!" "NewPass1!" "s9" eq_refl).
Defined.

(** X4 at a login of bob. *)
Lemma login_outcomes_witness :
  exists u',
    run (AuthService.login (crypto := demoCrypto) "u2" "bob@example.com" 500)
        demoWorld
    = (Returned {| access_token := "access.u2.500";
                   refresh_token := "refresh.u2.500" |},
       setUsers demoWorld (replaceRow u' (users demoWorld)))
    /\ id u' = "u2"
    /\ refreshToken u' = Some "refresh.u2.500"
    /\ refreshTokenExpires u' = Some 604800500
    /\ password u' = password bob
    /\ activationToken u' = activationToken bob
    /\ resetToken u' = resetToken bob.
Proof.
  exact (login_outcomes (crypto := demoCrypto)
           demoWorld "u2" "bob@example.com" 500 eq_refl).
Defined.

(** X5 at a reset request for bob. *)
Lemma resetPassword_issues_witness :
  exists u',
    run (UsersService.resetPassword (config := demoConfig)
           "bob@example.com" "aa11" 10) demoWorld
      = (Returned (withoutPassword (userObject u')),
         {| users := replaceRow u' (users demoWorld);
            roles := roles demoWorld;
            outbox := outbox demoWorld
                      ++ [UsersService.resetMail (config := demoConfig)
                            bob "aa11"] |})
    /\ mail_to (UsersService.resetMail (config := demoConfig) bob "aa11")
       = "bob@example.com"
    /\ resetToken u' = Some "aa11"
    /\ resetTokenExpiry u' = Some 3600010
    /\ password u' = password bob
    /\ isActive u' = isActive bob
    /\ activationToken u' = activationToken bob
    /\ activationTokenExpires u' = activationTokenExpires bob
    /\ refreshToken u' = refreshToken bob
    /\ refreshTokenExpires u' = refreshTokenExpires bob.
Proof.
  apply (resetPassword_issues (config := demoConfig)
           demoWorld "bob@example.com" "aa11" 10 bob);
    [reflexivity | reflexivity |].
  intros r [<-|[<-|[]]] Ne; [discriminate | discriminate].
Defined.


(** ** Generated tokens *)

Lemma byte_cases (P : Z -> Prop) :
  Forall P (map Z.of_nat (seq 0 256)) -> forall b, 0 <= b < 256 -> P b.
Proof.
  intros F b Hb. rewrite List.Forall_forall in F. apply F.
  apply in_map_iff. exists (Z.to_nat b). split; [lia|].
  apply in_seq. lia.
Qed.

Lemma hex_pair_decodes (b : Z) :
  0 <= b < 256 ->
  AuthUtils.unhex (TokenGenerator.hexDigit (Z.shiftr b 4)) = Some (Z.shiftr b 4)
  /\ AuthUtils.unhex (TokenGenerator.hexDigit (Z.land b 15))
     = Some (Z.land b 15)
  /\ Z.lor (Z.shiftl (Z.shiftr b 4) 4) (Z.land b 15) = b.
Proof.
  revert b. apply byte_cases. apply List.Forall_forall. intros b Hb.
  assert (C : forallb
                (fun b =>
                   match AuthUtils.unhex
                           (TokenGenerator.hexDigit (Z.shiftr b 4)),
                         AuthUtils.unhex
                           (TokenGenerator.hexDigit (Z.land b 15)) with
                   | Some hi, Some lo =>
                       (hi =? Z.shiftr b 4) && (lo =? Z.land b 15)
                       && (Z.lor (Z.shiftl (Z.shiftr b 4) 4) (Z.land b 15)
                           =? b)
                   | _, _ => false
                   end) (map Z.of_nat (seq 0 256)) = true)
    by (vm_compute; reflexivity).
  rewrite forallb_forall in C. specialize (C b Hb).
  destruct (AuthUtils.unhex (TokenGenerator.hexDigit (Z.shiftr b 4)))
    as [hi|]; [|discriminate].
  destruct (AuthUtils.unhex (TokenGenerator.hexDigit (Z.land b 15)))
    as [lo|]; [|discriminate].
  apply andb_true_iff in C. destruct C as [C C3].
  apply andb_true_iff in C. destruct C as [C1 C2].
  apply Z.eqb_eq in C1, C2, C3. subst hi lo. repeat split. exact C3.
Qed.

Lemma isBuffer_spec (n : nat) (bs : list Z) :
  TokenGenerator.isBuffer n bs = true <->
  length bs = n /\ Forall (fun b => 0 <= b < 256) bs.
Proof.
  unfold TokenGenerator.isBuffer.
  rewrite andb_true_iff, Nat.eqb_eq, forallb_forall, List.Forall_forall.
  split; intros [L F]; (split; [exact L|]); intros b Hb.
  - specialize (F b Hb). apply andb_true_iff in F. lia.
  - apply andb_true_iff. specialize (F b Hb). lia.
Qed.

Lemma hex_decodes (bs : list Z) :
  Forall (fun b => 0 <= b < 256) bs ->
  AuthUtils.bufferFromHex (TokenGenerator.bufferToHex bs) = bs.
Proof.
  intros F. induction F as [|b bs Hb _ IH]; [reflexivity|].
  destruct (hex_pair_decodes b Hb) as (H1 & H2 & H3).
  cbn [TokenGenerator.bufferToHex AuthUtils.bufferFromHex].
  rewrite H1, H2, H3, IH. reflexivity.
Qed.

(** X8. Decoding the hexadecimal writing of a buffer gives the buffer
    back: [Buffer.from(buf.toString('hex'), 'hex')] is [buf]. *)
Theorem bufferFromHex_bufferToHex (n : nat) (bs : list Z) :
  TokenGenerator.isBuffer n bs = true ->
  AuthUtils.bufferFromHex (TokenGenerator.bufferToHex bs) = bs.
Proof.
  intros B. apply isBuffer_spec in B. destruct B as [_ F].
  exact (hex_decodes bs F).
Qed.

Lemma bufferToHex_length (bs : list Z) :
  String.length (TokenGenerator.bufferToHex bs) = (2 * length bs)%nat.
Proof.
  induction bs as [|b bs IH]; [reflexivity|].
  cbn [TokenGenerator.bufferToHex String.length length]. rewrite IH. lia.
Qed.

Lemma timingSafeEqual_same_length (a b : list Z) :
  length a = length b ->
  AuthUtils.timingSafeEqual a b = Returned (bool_decide (a = b)).
Proof.
  intros E. unfold AuthUtils.timingSafeEqual. rewrite E, Nat.eqb_refl.
  f_equal. destruct (AuthUtils.bytesEqual a b) eqn:B.
  - apply bytesEqual_spec in B. symmetry. apply bool_decide_eq_true. exact B.
  - symmetry. apply bool_decide_eq_false. intros C.
    apply bytesEqual_spec in C. congruence.
Qed.

(** X9. A generated activation token is 64 characters long, hence not
    empty, and comparing two generated tokens with
    [verifyActivationToken] never throws: it answers whether the tokens
    are the same. *)
Theorem generated_tokens_compare (bs1 bs2 : list Z) :
  TokenGenerator.isBuffer 32 bs1 = true ->
  TokenGenerator.isBuffer 32 bs2 = true ->
  String.length (TokenGenerator.generateActivationToken bs1) = 64%nat
  /\ TokenGenerator.generateActivationToken bs1 <> ""
  /\ AuthUtils.verifyActivationToken
       (TokenGenerator.generateActivationToken bs1)
       (TokenGenerator.generateActivationToken bs2)
     = Returned (bool_decide (TokenGenerator.generateActivationToken bs1
                              = TokenGenerator.generateActivationToken bs2)).
Proof.
  intros B1 B2.
  apply isBuffer_spec in B1, B2. destruct B1 as [L1 F1], B2 as [L2 F2].
  pose proof (hex_decodes bs1 F1) as R1.
  pose proof (hex_decodes bs2 F2) as R2.
  unfold TokenGenerator.generateActivationToken.
  assert (Len : String.length (TokenGenerator.bufferToHex bs1) = 64%nat)
    by (rewrite bufferToHex_length, L1; reflexivity).
  split; [exact Len|]. split.
  - intros E. rewrite E in Len. discriminate Len.
  - unfold AuthUtils.verifyActivationToken. rewrite R1, R2.
    rewrite timingSafeEqual_same_length by lia. f_equal. apply bool_decide_ext. split.
    + intros ->. reflexivity.
    + intros E. rewrite <- R1, <- R2, E. reflexivity.
Qed.

(** X8 at the buffer of the bytes 0 to 31. *)
Lemma bufferFromHex_bufferToHex_witness :
  AuthUtils.bufferFromHex
    (TokenGenerator.bufferToHex (map Z.of_nat (seq 0 32)))
  = map Z.of_nat (seq 0 32).
Proof.
  exact (bufferFromHex_bufferToHex 32 (map Z.of_nat (seq 0 32)) eq_refl).
Defined.

(** X9 at the buffers of the bytes 0 to 31 and 100 to 131. *)
Lemma generated_tokens_compare_witness :
  String.length
    (TokenGenerator.generateActivationToken (map Z.of_nat (seq 0 32)))
  = 64%nat
  /\ TokenGenerator.generateActivationToken (map Z.of_nat (seq 0 32)) <> ""
  /\ AuthUtils.verifyActivationToken
       (TokenGenerator.generateActivationToken (map Z.of_nat (seq 0 32)))
       (TokenGenerator.generateActivationToken (map Z.of_nat (seq 100 32)))
     = Returned
         (bool_decide
            (TokenGenerator.generateActivationToken (map Z.of_nat (seq 0 32))
             = TokenGenerator.generateActivationToken
                 (map Z.of_nat (seq 100 32)))).
Proof.
  exact (generated_tokens_compare (map Z.of_nat (seq 0 32))
           (map Z.of_nat (seq 100 32)) eq_refl eq_refl).
Defined.

(** ** File names ([sanitizeFilename]) *)

Module SanitizeFacts.
Import SanitizeFilenames.

Lemma collapse_cons (c c' : ascii) (t : string) :
  collapseUnderscores (String c (String c' t))
  = if Ascii.eqb c underscore && Ascii.eqb c' underscore
    then collapseUnderscores (String c' t)
    else String c (collapseUnderscores (String c' t)).
Proof. reflexivity. Qed.

Lemma collapse_first (s : string) :
  String.get 0 (collapseUnderscores s) = String.get 0 s.
Proof.
  induction s as [|c rest IH]; [reflexivity|].
  destruct rest as [|c' t]; [reflexivity|].
  rewrite collapse_cons.
  destruct (Ascii.eqb c underscore && Ascii.eqb c' underscore) eqn:E.
  - rewrite IH. apply andb_true_iff in E. destruct E as [E1 E2].
    apply Ascii.eqb_eq in E1, E2. subst. reflexivity.
  - reflexivity.
Qed.

Lemma collapse_noUnderscoreRun (s : string) :
  noUnderscoreRun (collapseUnderscores s) = true.
Proof.
  induction s as [|c rest IH]; [reflexivity|].
  destruct rest as [|c' t]; [reflexivity|].
  rewrite collapse_cons.
  destruct (Ascii.eqb c underscore && Ascii.eqb c' underscore) eqn:E.
  - exact IH.
  - pose proof (collapse_first (String c' t)) as F.
    destruct (collapseUnderscores (String c' t)) as [|d t'] eqn:C.
    + reflexivity.
    + simpl in F. injection F as ->.
      cbn [noUnderscoreRun]. rewrite E. exact IH.
Qed.

Lemma collapse_allSafe (s : string) :
  allSafe s = true -> allSafe (collapseUnderscores s) = true.
Proof.
  induction s as [|c rest IH]; [reflexivity|].
  intros A. cbn [allSafe] in A. apply andb_true_iff in A. destruct A as [Ac Ar].
  destruct rest as [|c' t]; [cbn [collapseUnderscores allSafe]; rewrite Ac; reflexivity|].
  rewrite collapse_cons.
  destruct (Ascii.eqb c underscore && Ascii.eqb c' underscore).
  - apply IH, Ar.
  - cbn [allSafe]. rewrite Ac. apply IH, Ar.
Qed.

Lemma collapse_length (s : string) :
  (String.length (collapseUnderscores s) <= String.length s)%nat.
Proof.
  induction s as [|c rest IH]; [reflexivity|].
  destruct rest as [|c' t]; [reflexivity|].
  rewrite collapse_cons.
  destruct (Ascii.eqb c underscore && Ascii.eqb c' underscore).
  - cbn [String.length] in *. lia.
  - cbn [String.length] in *. lia.
Qed.

Lemma collapse_fixed (s : string) :
  noUnderscoreRun s = true -> collapseUnderscores s = s.
Proof.
  induction s as [|c rest IH]; [reflexivity|].
  destruct rest as [|c' t]; [reflexivity|].
  intros N. cbn [noUnderscoreRun] in N. apply andb_true_iff in N.
  destruct N as [N1 N2]. apply negb_true_iff in N1.
  rewrite collapse_cons. rewrite N1, (IH N2). reflexivity.
Qed.

Lemma mapString_length (f : ascii -> ascii) (s : string) :
  String.length (mapString f s) = String.length s.
Proof.
  induction s as [|c rest IH]; [reflexivity|]. cbn. rewrite IH. reflexivity.
Qed.

Lemma replaceUnsafe_allSafe (s : string) : allSafe (replaceUnsafe s) = true.
Proof.
  induction s as [|c rest IH]; [reflexivity|].
  unfold replaceUnsafe in *. cbn [mapString allSafe]. rewrite IH.
  destruct (isSafe c) eqn:S; [rewrite S|]; reflexivity.
Qed.

Lemma space_not_safe (c : ascii) :
  isSafe c = true -> Ascii.eqb c " "%char = false.
Proof.
  intros S. destruct (Ascii.eqb c " "%char) eqn:E; [|reflexivity].
  apply Ascii.eqb_eq in E. subst c. discriminate S.
Qed.

Lemma replace_fixed (s : string) :
  allSafe s = true -> replaceUnsafe (replaceSpaces s) = s.
Proof.
  induction s as [|c rest IH]; [reflexivity|].
  intros A. cbn [allSafe] in A. apply andb_true_iff in A. destruct A as [Ac Ar].
  unfold replaceUnsafe, replaceSpaces in *. cbn [mapString].
  rewrite (space_not_safe c Ac), Ac, (IH Ar). reflexivity.
Qed.

End SanitizeFacts.

(** X10. Whatever the name, [sanitizeFilename] returns a name that is no
    longer than it, made only of letters, digits, underscores, dots and
    hyphens, with no two underscores in a row; sanitizing a second time
    changes nothing. *)
Theorem sanitizeFilename_safe (filename : string) :
  SanitizeFilenames.allSafe (SanitizeFilenames.sanitizeFilename filename)
    = true
  /\ SanitizeFilenames.noUnderscoreRun
       (SanitizeFilenames.sanitizeFilename filename) = true
  /\ (String.length (SanitizeFilenames.sanitizeFilename filename)
      <= String.length filename)%nat
  /\ SanitizeFilenames.sanitizeFilename
       (SanitizeFilenames.sanitizeFilename filename)
     = SanitizeFilenames.sanitizeFilename filename.
Proof.
  unfold SanitizeFilenames.sanitizeFilename.
  assert (A : SanitizeFilenames.allSafe
                (SanitizeFilenames.collapseUnderscores
                   (SanitizeFilenames.replaceUnsafe
                      (SanitizeFilenames.replaceSpaces filename))) = true)
    by apply SanitizeFacts.collapse_allSafe,
             SanitizeFacts.replaceUnsafe_allSafe.
  pose proof (SanitizeFacts.collapse_noUnderscoreRun
                (SanitizeFilenames.replaceUnsafe
                   (SanitizeFilenames.replaceSpaces filename))) as N.
  split; [exact A|]. split; [exact N|]. split.
  - etransitivity; [apply SanitizeFacts.collapse_length|].
    unfold SanitizeFilenames.replaceUnsafe, SanitizeFilenames.replaceSpaces.
    rewrite !SanitizeFacts.mapString_length. reflexivity.
  - rewrite (SanitizeFacts.replace_fixed _ A).
    apply SanitizeFacts.collapse_fixed, N.
Qed.

(** X11. A name made only of letters, digits, underscores, dots and
    hyphens, with no two underscores in a row, is returned as it is: dots
    are kept wherever they stand. *)
Theorem sanitizeFilename_fixed (filename : string) :
  SanitizeFilenames.allSafe filename = true ->
  SanitizeFilenames.noUnderscoreRun filename = true ->
  SanitizeFilenames.sanitizeFilename filename = filename.
Proof.
  intros A N. unfold SanitizeFilenames.sanitizeFilename.
  rewrite (SanitizeFacts.replace_fixed _ A).
  apply SanitizeFacts.collapse_fixed, N.
Qed.

(** X11 at a name that starts with two dots. *)
Lemma sanitizeFilename_fixed_witness :
  SanitizeFilenames.sanitizeFilename "..report_v1.0-final.pdf"
  = "..report_v1.0-final.pdf".
Proof.
  exact (sanitizeFilename_fixed "..report_v1.0-final.pdf" eq_refl eq_refl).
Defined.

(** ** Lookups do not write, failures leave no trace *)

Lemma run_readOnly {A} (p : Prog A) (w : World) :
  readOnly p -> snd (run p w) = w.
Proof.
  intros R. induction R as [o|wh k _ IH|wh k _ IH|k _ IH]; simpl; auto.
Qed.

Lemma prismaCreate_unchanged (u : User) (w : World) (us : list User)
    (e : Exception) :
  prismaCreate u w = (Thrown e, us) -> us = users w.
Proof.
  unfold prismaCreate. destruct (uniqueViolation u (users w)).
  - intros R. injection R as _ <-. reflexivity.
  - destruct (existsb _ _); intros R.
    + discriminate R.
    + injection R as _ <-. reflexivity.
Qed.

Lemma run_neverThrows {A} (p : Prog A) (w : World) :
  neverThrows p -> succeeded (fst (run p w)) = true.
Proof.
  intros N. revert w.
  induction N as [a|wh k _ IH|wh k _ IH|i d k _ IH|u k _ IH|k _ IH|m k _ IH];
    intros w; simpl; auto.
  - destruct (prismaUpdate i d (users w)) as [r us]. apply IH.
  - destruct (prismaCreate u w) as [r us]. apply IH.
Qed.

Lemma run_failsClean {A} (p : Prog A) (w w' : World) (e : Exception) :
  failsClean p -> run p w = (Thrown e, w') -> w' = w.
Proof.
  intros F. revert w.
  induction F as [o|wh k _ IH|wh k _ IH|i d k _ IHt N|u k _ IHt N|k _ IH|m k N];
    intros w R; simpl in R.
  - injection R as _ <-. reflexivity.
  - eapply IH, R.
  - eapply IH, R.
  - destruct (prismaUpdate i d (users w)) as [[u'|x] us] eqn:P.
    + pose proof (run_neverThrows _ (setUsers w us) (N u')) as S.
      rewrite R in S. discriminate S.
    + apply prismaUpdate_unchanged in P. subst us.
      rewrite setUsers_same in R. eapply IHt, R.
  - destruct (prismaCreate u w) as [[u'|x] us] eqn:P.
    + pose proof (run_neverThrows _ (setUsers w us) (N u')) as S.
      rewrite R in S. discriminate S.
    + apply prismaCreate_unchanged in P. subst us.
      rewrite setUsers_same in R. eapply IHt, R.
  - eapply IH, R.
  - pose proof (run_neverThrows _
                  {| users := users w; roles := roles w;
                     outbox := outbox w ++ [m] |} N) as S.
    rewrite R in S. discriminate S.
Qed.

Lemma bind_readOnly_failsClean {A B} (p : Prog A) (f : A -> Prog B) :
  readOnly p -> (forall a, failsClean (f a)) -> failsClean (bind p f).
Proof.
  intros R F. induction R as [[a|e]|wh k _ IH|wh k _ IH|k _ IH]; simpl;
    try (constructor; auto).
  apply F.
Qed.

Ltac read_only :=
  repeat (first
    [ apply readOnlyDone
    | apply readOnlyFindUnique; intros
    | apply readOnlyFindUniqueRole; intros
    | apply readOnlyPause
    | progress cbv beta iota
    | match goal with
      | |- readOnly (match ?x with _ => _ end) => destruct x
      | |- readOnly (if ?x then _ else _) => destruct x
      end ]).

Ltac never_throws :=
  repeat (first
    [ apply neverThrowsDone
    | apply neverThrowsSendEmail
    | apply neverThrowsPause ]).

Ltac fails_clean :=
  repeat (first
    [ apply failsCleanDone
    | apply bind_readOnly_failsClean; [read_only | intros]
    | apply failsCleanFindUnique; intros
    | apply failsCleanFindUniqueRole; intros
    | apply failsCleanUpdate; [intros | intros; never_throws]
    | apply failsCleanCreate; [intros | intros; never_throws]
    | apply failsCleanPause
    | apply failsCleanSendEmail; never_throws
    | progress cbv beta iota
    | match goal with
      | |- failsClean (match ?x with _ => _ end) => destruct x
      | |- failsClean (if ?x then _ else _) => destruct x
      end ]).

Section Traces.
Context {crypto : Crypto} {config : Config}.

(** X12. [validateUser], [getProfile], [findOne], [findByResetToken],
    [findUserByEmail] and [findByActivationToken] leave the tables and the
    outbox as they were, whatever they answer. *)
Theorem lookups_do_not_write (w : World) :
  (forall mail pass, snd (run (AuthService.validateUser mail pass) w) = w)
  /\ (forall uid mail, snd (run (AuthService.getProfile uid mail) w) = w)
  /\ (forall i, snd (run (UsersCrud.findOne i) w) = w)
  /\ (forall token now,
        snd (run (UsersService.findByResetToken token now) w) = w)
  /\ (forall mail, snd (run (UsersService.findUserByEmail mail) w) = w)
  /\ (forall token,
        snd (run (UsersService.findByActivationToken token) w) = w).
Proof.
  repeat match goal with |- _ /\ _ => split end; intros; apply run_readOnly.
  - unfold AuthService.validateUser, ret, throw. read_only.
  - unfold AuthService.getProfile, ret, throw. read_only.
  - unfold UsersCrud.findOne, ret, throw. read_only.
  - unfold UsersService.findByResetToken, ret, throw. read_only.
  - unfold UsersService.findUserByEmail, ret, throw. read_only.
  - unfold UsersService.findByActivationToken, ret, throw. read_only.
Qed.

(** X13. When [login], [logout], [create], [activateUser],
    [resetPassword], [updatePassword], [changePassword] or
    [findByEmailAndSendEmailActivation] throws, no row has been written and
    no mail handed over: the world is as it was before the call. *)
Theorem failures_leave_no_trace (w w' : World) (e : Exception) :
  (forall uid mail now,
      run (AuthService.login uid mail now) w = (Thrown e, w') -> w' = w)
  /\ (forall userId,
        run (AuthService.logout userId) w = (Thrown e, w') -> w' = w)
  /\ (forall dto salt token uuid now,
        run (UsersService.create dto salt token uuid now) w = (Thrown e, w') ->
        w' = w)
  /\ (forall token now,
        run (UsersService.activateUser token now) w = (Thrown e, w') ->
        w' = w)
  /\ (forall mail token now,
        run (UsersService.resetPassword mail token now) w = (Thrown e, w') ->
        w' = w)
  /\ (forall token pw salt now,
        run (UsersService.updatePassword token pw salt now) w
          = (Thrown e, w') ->
        w' = w)
  /\ (forall userId current new salt,
        run (UsersService.changePassword userId current new salt) w
          = (Thrown e, w') ->
        w' = w)
  /\ (forall mail token now,
        run (UsersService.findByEmailAndSendEmailActivation mail token now) w
          = (Thrown e, w') ->
        w' = w).
Proof.
  repeat match goal with |- _ /\ _ => split end; intros;
    eapply run_failsClean; try eassumption.
  - unfold AuthService.login, ret, throw. fails_clean.
  - unfold AuthService.logout, ret, throw. fails_clean.
  - unfold UsersService.create, ret, throw. fails_clean.
  - unfold UsersService.activateUser, UsersService.findByActivationToken,
      ret, throw. fails_clean.
  - unfold UsersService.resetPassword, UsersService.findUserByEmail,
      ret, throw. fails_clean.
  - unfold UsersService.updatePassword, UsersService.findByResetToken,
      ret, throw. fails_clean.
  - unfold UsersService.changePassword, ret, throw. fails_clean.
  - unfold UsersService.findByEmailAndSendEmailActivation, ret, throw.
    fails_clean.
Qed.

End Traces.

(** X13 at a reset request for an address that no account has. *)
Lemma failures_leave_no_trace_witness :
  exists e w',
    run (UsersService.resetPassword (config := demoConfig)
           "ghost@example.com" "aa11" 10) demoWorld = (Thrown e, w')
    /\ w' = demoWorld.
Proof.
  exists (NotFoundException "User not found"), demoWorld.
  split; [reflexivity|].
  destruct (failures_leave_no_trace (crypto := demoCrypto)
              (config := demoConfig) demoWorld demoWorld
              (NotFoundException "User not found"))
    as (_ & _ & _ & _ & R & _).
  exact (R "ghost@example.com" "aa11" 10 eq_refl).
Defined.

(** ** Requests one after the other *)

Lemma clashes_email (r u : User) : email r = email u -> clashes r u = true.
Proof.
  intros E. unfold clashes. rewrite E, String.eqb_refl.
  rewrite orb_true_r. reflexivity.
Qed.

Lemma findUnique_email (us : list User) (u : User) :
  uniqueRows us = true -> In u us ->
  findUnique (WhereEmail (email u)) us = Some u.
Proof.
  intros U Hu. apply findUnique_unique; auto.
  - simpl. apply String.eqb_refl.
  - intros r M. simpl in M. apply String.eqb_eq in M.
    apply clashes_email, M.
Qed.

Lemma findUnique_refreshToken_valid
    (us : list User) (u : User) (t : string) (e d : Z) :
  uniqueRows us = true -> In u us -> refreshToken u = Some t ->
  refreshTokenExpires u = Some e -> d < e ->
  findUnique (WhereRefreshTokenGt t d) us = Some u.
Proof.
  intros U Hu T X L. apply findUnique_unique; auto.
  - simpl. rewrite T, X. simpl. rewrite String.eqb_refl.
    apply Z.ltb_lt in L. rewrite L. reflexivity.
  - intros r M. simpl in M. apply andb_true_iff in M. destruct M as [M _].
    apply optStrEq_true in M. apply (clashes_refreshToken t); assumption.
Qed.

Lemma replaceRow_uniqueRows (us : list User) (u : User) (d : UserData)
    (us' : list User) (u' : User) :
  uniqueRows us = true ->
  prismaUpdate (id u) d us = (Returned u', us') ->
  uniqueRows us' = true.
Proof.
  intros U P. pose proof (prismaUpdate_uniqueRows (id u) d us U) as Q.
  rewrite P in Q. exact Q.
Qed.

Section Scenarios.
Context {crypto : Crypto} {config : Config}.

Lemma login_success (w w1 : World) (u : User) (mail : string) (now : Z)
    (resp : LoginResponse) :
  uniqueRows (users w) = true -> In u (users w) ->
  run (AuthService.login (id u) mail now) w = (Returned resp, w1) ->
  let u1 := applyData
              (AuthService.storeRefresh (refreshSign mail (id u) now)
                 (now + AuthService.sevenDays)) u in
  refresh_token resp = refreshSign mail (id u) now
  /\ w1 = setUsers w (replaceRow u1 (users w))
  /\ uniqueRows (users w1) = true
  /\ In u1 (users w1).
Proof.
  intros U Hu R u1. unfold AuthService.login in R. cbn [run] in R.
  destruct (prismaUpdate (id u) _ (users w)) as [[u'|e] us'] eqn:P;
    [|discriminate R].
  cbn [run ret] in R. injection R as <- <-.
  pose proof (replaceRow_uniqueRows _ _ _ _ _ U P) as U1.
  apply prismaUpdate_Returned in P. destruct P as (u0 & E0 & -> & _ & ->).
  rewrite (findUnique_id _ _ U Hu) in E0. injection E0 as <-.
  split; [reflexivity|]. split; [reflexivity|]. split; [exact U1|].
  apply replaceRow_same_id. exists u. split; [exact Hu | reflexivity].
Qed.

Lemma validateUser_active (w : World) (mail pass : string) (u : User) :
  findUnique (WhereEmail mail) (users w) = Some u ->
  isActive u = true ->
  bcryptCompare pass (password u) = true ->
  run (AuthService.validateUser mail pass) w
  = (Returned (Some (withoutPassword (userObject u))), w).
Proof.
  intros E A C. unfold AuthService.validateUser. cbn [run].
  rewrite E, A. cbn [negb run]. rewrite C. reflexivity.
Qed.

Lemma activateUser_ok (w : World) (u : User) (token : string) (t now : Z) :
  uniqueRows (users w) = true -> In u (users w) -> token <> "" ->
  activationToken u = Some token -> activationTokenExpires u = Some t ->
  now <= t ->
  run (UsersService.activateUser token now) w
  = (Returned (withoutPassword
                 (userObject (applyData UsersService.activated u))),
     setUsers w (replaceRow (applyData UsersService.activated u) (users w))).
Proof.
  intros U Hu Ne T X L. apply String.eqb_neq in Ne.
  rewrite activateUser_run, Ne, (findUnique_activationToken _ _ _ U Hu T).
  unfold UsersService.expiredAt. rewrite X.
  assert (G : (t <? now) = false) by (apply Z.ltb_ge; exact L).
  rewrite G, (prismaUpdate_cleared _ _ _ U Hu noNewToken_activated).
  reflexivity.
Qed.

Lemma updatePassword_ok (w : World) (u : User) (token pw salt : string)
    (t now : Z) :
  uniqueRows (users w) = true -> In u (users w) -> token <> "" ->
  resetToken u = Some token -> resetTokenExpiry u = Some t -> now <= t ->
  run (UsersService.updatePassword token pw salt now) w
  = (Returned (withoutPassword
                 (userObject
                    (applyData
                       (UsersService.passwordReset (bcryptHash pw salt)) u))),
     setUsers w
       (replaceRow
          (applyData (UsersService.passwordReset (bcryptHash pw salt)) u)
          (users w))).
Proof.
  intros U Hu Ne T X L. apply String.eqb_neq in Ne.
  unfold UsersService.updatePassword.
  rewrite run_bind, findByResetToken_run, Ne,
    (findUnique_resetToken _ _ _ U Hu T).
  unfold UsersService.expiredAt. rewrite X.
  assert (G : (t <? now) = false) by (apply Z.ltb_ge; exact L).
  rewrite G. cbn [run]. rewrite propStr_id.
  rewrite (prismaUpdate_cleared _ _ _ U Hu (noNewToken_passwordReset _)).
  reflexivity.
Qed.

(** X14. After a login, a refresh that presents the returned refresh
    token before its seven days are over, and whose signature verifies,
    returns a new pair signed for the account and stores the new refresh
    token with a new expiry of seven days. *)
Theorem login_then_refresh
    (w w1 : World) (u : User) (mail : string) (now now2 now2' : Z)
    (resp : LoginResponse) :
  uniqueRows (users w) = true -> In u (users w) ->
  run (AuthService.login (id u) mail now) w = (Returned resp, w1) ->
  now2 < now + 604800000 ->
  refreshVerify (refresh_token resp) now2' = true ->
  (forall r, In r (users w) -> String.eqb (id r) (id u) = false ->
             refreshToken r <> Some (refreshSign (email u) (id u) now2')) ->
  exists w2 u2,
    run (AuthService.refreshToken (refresh_token resp) now2 now2') w1
      = (Returned {| access_token := accessSign (email u) (id u) now2';
                     refresh_token := refreshSign (email u) (id u) now2' |},
         w2)
    /\ findUnique (WhereId (id u)) (users w2) = Some u2
    /\ refreshToken u2 = Some (refreshSign (email u) (id u) now2')
    /\ refreshTokenExpires u2 = Some (now2' + 604800000).
Proof.
  intros U Hu R L V N.
  destruct (login_success _ _ _ _ _ _ U Hu R) as (T & -> & U1 & Hu1).
  set (u1 := applyData
               (AuthService.storeRefresh (refreshSign mail (id u) now)
                  (now + AuthService.sevenDays)) u) in *.
  set (d2 := AuthService.storeRefresh (refreshSign (email u) (id u) now2')
               (now2' + AuthService.sevenDays)).
  assert (E : findUnique (WhereRefreshTokenGt (refresh_token resp) now2)
                (replaceRow u1 (users w)) = Some u1).
  { apply (findUnique_refreshToken_valid _ u1 _ (now + AuthService.sevenDays));
      auto. rewrite T. reflexivity. }
  assert (P : prismaUpdate (id u1) d2 (replaceRow u1 (users w))
              = (Returned (applyData d2 u1),
                 replaceRow (applyData d2 u1) (replaceRow u1 (users w)))).
  { apply prismaUpdate_ok; auto. intros r Hr Ne.
    pose proof (replaceRow_other u1 r (users w) Hr) as Hr'.
    assert (Hr0 : In r (users w)).
    { apply Hr'. intros I. rewrite I, String.eqb_refl in Ne. discriminate. }
    pose proof (uniqueRows_other _ _ _ U Hr0 Hu Ne) as C.
    apply clashes_false in C. destruct C as (C1 & C2 & C3 & C4 & _).
    apply clashes_false. simpl. repeat split; try assumption.
    destruct (refreshToken r) as [x|] eqn:X; [|reflexivity]. simpl.
    destruct (String.eqb x (refreshSign (email u) (id u) now2')) eqn:Q;
      [|reflexivity].
    apply String.eqb_eq in Q. subst x. exfalso. exact (N r Hr0 Ne X). }
  exists (setUsers (setUsers w (replaceRow u1 (users w)))
            (replaceRow (applyData d2 u1) (replaceRow u1 (users w)))),
         (applyData d2 u1).
  split; [|split; [|split; reflexivity]].
  - unfold AuthService.refreshToken. cbn [run users setUsers].
    rewrite E, V. cbn [run].
    change (AuthService.storeRefresh (refreshSign (email u1) (id u1) now2')
              (now2' + AuthService.sevenDays)) with d2.
    change (users (setUsers w (replaceRow u1 (users w))))
      with (replaceRow u1 (users w)).
    rewrite P. reflexivity.
  - cbn [users setUsers].
    apply (findUnique_replaceRow _ _ u1); [reflexivity|].
    exact (findUnique_id _ u1 U1 Hu1).
Qed.

(** X15. The refresh token returned by a login stops being accepted as
    soon as the account logs out, and as soon as a later login of the
    account stores a different token. *)
Theorem logout_and_relogin_revoke
    (w w1 : World) (u : User) (mail : string) (now : Z)
    (resp : LoginResponse) :
  uniqueRows (users w) = true -> In u (users w) ->
  run (AuthService.login (id u) mail now) w = (Returned resp, w1) ->
  (forall n n',
      run (AuthService.refreshToken (refresh_token resp) n n')
          (snd (run (AuthService.logout (id u)) w1))
      = (Thrown (UnauthorizedException "Invalid or expired refresh token"),
         snd (run (AuthService.logout (id u)) w1)))
  /\ (forall mail' now' resp' w2 n n',
        run (AuthService.login (id u) mail' now') w1 = (Returned resp', w2) ->
        refresh_token resp' <> refresh_token resp ->
        run (AuthService.refreshToken (refresh_token resp) n n') w2
        = (Thrown (UnauthorizedException "Invalid or expired refresh token"),
           w2)).
Proof.
  intros U Hu R.
  destruct (login_success _ _ _ _ _ _ U Hu R) as (T & E1 & U1 & Hu1).
  set (u1 := applyData
               (AuthService.storeRefresh (refreshSign mail (id u) now)
                  (now + AuthService.sevenDays)) u) in *.
  assert (T1 : refreshToken u1 = Some (refresh_token resp))
    by (rewrite T; reflexivity).
  split.
  - intros n n'.
    rewrite (logout_existing w1 (id u) u1 U1 (findUnique_id _ _ U1 Hu1)).
    cbn [snd]. apply refreshToken_not_found. apply findUnique_absent.
    intros r Hr. simpl. apply andb_false_iff. left. apply optStrEq_false.
    cbn [users setUsers] in Hr.
    refine (token_gone refreshToken (refresh_token resp) (users w1) u1
              (applyData AuthService.clearRefresh u1) _ U1 Hu1 T1 eq_refl _
              r Hr).
    + intros; apply (clashes_refreshToken (refresh_token resp)); assumption.
    + discriminate.
  - intros mail' now' resp' w2 n n' R2 Ne.
    change (id u) with (id u1) in R2.
    destruct (login_success _ _ _ _ _ _ U1 Hu1 R2) as (T2 & E2 & _ & _).
    rewrite E2.
    apply refreshToken_not_found. apply findUnique_absent.
    intros r Hr. simpl. apply andb_false_iff. left. apply optStrEq_false.
    cbn [users setUsers] in Hr.
    refine (token_gone refreshToken (refresh_token resp) (users w1) u1
              (applyData
                 (AuthService.storeRefresh (refreshSign mail' (id u1) now')
                    (now' + AuthService.sevenDays)) u1)
              _ U1 Hu1 T1 eq_refl _ r Hr).
    + intros; apply (clashes_refreshToken (refresh_token resp)); assumption.
    + change (Some (refreshSign mail' (id u1) now')
              <> Some (refresh_token resp)).
      rewrite <- T2. congruence.
Qed.

(** X16. [validateUser] gives the same answer, null, for an address that
    no account has and for an active account whose password does not
    verify. *)
Theorem unknown_email_like_wrong_password
    (w : World) (ghost mail pass pass' : string) (u : User) :
  findUnique (WhereEmail ghost) (users w) = None ->
  findUnique (WhereEmail mail) (users w) = Some u ->
  isActive u = true ->
  bcryptCompare pass' (password u) = false ->
  run (AuthService.validateUser ghost pass) w = (Returned None, w)
  /\ run (AuthService.validateUser mail pass') w = (Returned None, w).
Proof.
  intros G E A C. unfold AuthService.validateUser. cbn [run].
  rewrite G, E, A. cbn [negb run]. rewrite C. split; reflexivity.
Qed.

Lemma create_success (w w1 : World) (dto : CreateUserDto)
    (salt token uuid : string) (now : Z) (o : JsObject) :
  run (UsersService.create dto salt token uuid now) w = (Returned o, w1) ->
  let row := UsersService.newUser dto uuid (bcryptHash (dto_password dto) salt)
               token (now + UsersService.oneDay) in
  uniqueViolation row (users w) = None
  /\ w1 = {| users := users w ++ [row];
             roles := roles w;
             outbox := outbox w ++ [UsersService.activationMail row token] |}.
Proof.
  intros R row. unfold UsersService.create in R. cbn [run] in R.
  fold row in R. unfold prismaCreate in R.
  destruct (uniqueViolation row (users w)) as [col|] eqn:V.
  - discriminate R.
  - destruct (existsb _ (roles w)).
    + cbn [run ret setUsers users roles outbox] in R.
      injection R as _ <-. split; reflexivity.
    + discriminate R.
Qed.

(** X17. Registration, activation, login: after [create] the new account
    is refused by [validateUser] as inactive; [activateUser] with the
    token of the activation mail, up to one day later, succeeds; and then
    [validateUser] returns the active account for the registered password
    (given that bcrypt verifies a password against its own hash). *)
Theorem register_activate_login
    (w w1 : World) (dto : CreateUserDto) (salt token uuid : string)
    (now now2 : Z) (o : JsObject) :
  uniqueRows (users w) = true ->
  run (UsersService.create dto salt token uuid now) w = (Returned o, w1) ->
  token <> "" ->
  now2 <= now + 86400000 ->
  bcryptCompare (dto_password dto) (bcryptHash (dto_password dto) salt)
    = true ->
  (exists e,
      run (AuthService.validateUser (dto_email dto) (dto_password dto)) w1
        = (Thrown e, w1)
      /\ kindOf e = AccountInactive)
  /\ exists o2 w2 o3,
       run (UsersService.activateUser token now2) w1 = (Returned o2, w2)
       /\ run (AuthService.validateUser (dto_email dto) (dto_password dto)) w2
          = (Returned (Some o3), w2)
       /\ o3 !! "id" = Some (VStr uuid)
       /\ o3 !! "isActive" = Some (VBool true)
       /\ o3 !! "activationToken" = Some VNull.
Proof.
  intros U R Ne L C.
  pose proof (run_uniqueRows (UsersService.create dto salt token uuid now) w U)
    as U1.
  rewrite R in U1. cbn [snd] in U1.
  destruct (create_success _ _ _ _ _ _ _ _ R) as (V & ->).
  set (row := UsersService.newUser dto uuid
                (bcryptHash (dto_password dto) salt) token
                (now + UsersService.oneDay)) in *.
  cbn [users] in U1.
  assert (Hrow : In row (users w ++ [row])).
  { apply in_or_app. right. left. reflexivity. }
  split.
  - eexists. split; [|].
    + apply (validateUser_inactive _ _ _ row); [|reflexivity].
      exact (findUnique_email _ row U1 Hrow).
    + reflexivity.
  - set (row' := applyData UsersService.activated row).
    assert (P : prismaUpdate (id row) UsersService.activated (users w ++ [row])
                = (Returned row', replaceRow row' (users w ++ [row])))
      by (apply prismaUpdate_cleared; auto using noNewToken_activated).
    pose proof (replaceRow_uniqueRows _ _ _ _ _ U1 P) as U2.
    assert (Hrow' : In row' (replaceRow row' (users w ++ [row]))).
    { apply replaceRow_same_id. exists row. split; [exact Hrow|reflexivity]. }
    eexists _, _, (withoutPassword (userObject row')).
    split; [|split; [|repeat split]].
    + apply (activateUser_ok _ row token (now + UsersService.oneDay));
        [exact U1 | exact Hrow | exact Ne | reflexivity | reflexivity
        | unfold UsersService.oneDay; lia].
    + apply (validateUser_active _ _ _ row'); [|reflexivity|exact C].
      exact (findUnique_email _ row' U2 Hrow').
Qed.

Lemma resetPassword_success (w w1 : World) (mail token : string) (now : Z)
    (o : JsObject) :
  uniqueRows (users w) = true ->
  run (UsersService.resetPassword mail token now) w = (Returned o, w1) ->
  exists u,
    In u (users w) /\ email u = mail
    /\ let u1 := applyData
                   (UsersService.storeReset token (now + UsersService.oneHour))
                   u in
       w1 = {| users := replaceRow u1 (users w);
               roles := roles w;
               outbox := outbox w ++ [UsersService.resetMail u token] |}
       /\ uniqueRows (replaceRow u1 (users w)) = true
       /\ In u1 (replaceRow u1 (users w)).
Proof.
  intros U R. unfold UsersService.resetPassword, UsersService.findUserByEmail
    in R. cbn [bind run ret] in R.
  destruct (findUnique (WhereEmail mail) (users w)) as [u|] eqn:E;
    [|discriminate R].
  cbn [bind run ret] in R.
  destruct (prismaUpdate (id u) _ (users w)) as [[u'|e] us'] eqn:P;
    [|discriminate R].
  cbn [run ret setUsers users roles outbox] in R. injection R as _ <-.
  pose proof (findUnique_Some _ _ _ E) as [Hu M]. simpl in M.
  apply String.eqb_eq in M.
  pose proof (replaceRow_uniqueRows _ _ _ _ _ U P) as U1.
  apply prismaUpdate_Returned in P. destruct P as (u0 & E0 & -> & _ & ->).
  rewrite (findUnique_id _ _ U Hu) in E0. injection E0 as <-.
  exists u. split; [exact Hu|]. split; [exact M|]. cbv zeta.
  split; [reflexivity|]. split; [exact U1|].
  apply replaceRow_same_id. exists u. split; [exact Hu | reflexivity].
Qed.

(** X18. Password reset from request to confirmation: after a
    [resetPassword] that succeeded, [updatePassword] with the token of the
    reset mail, up to one hour later, stores the hash of the new password
    on the account of that address, nulls its reset token and sends no
    further mail. *)
Theorem reset_then_update
    (w w1 : World) (mail token pw salt : string) (now now2 : Z)
    (o : JsObject) :
  uniqueRows (users w) = true ->
  run (UsersService.resetPassword mail token now) w = (Returned o, w1) ->
  token <> "" ->
  now2 <= now + 3600000 ->
  exists o2 w2 u2,
    run (UsersService.updatePassword token pw salt now2) w1 = (Returned o2, w2)
    /\ o2 !! "password" = None
    /\ findUnique (WhereEmail mail) (users w2) = Some u2
    /\ password u2 = bcryptHash pw salt
    /\ resetToken u2 = None
    /\ resetTokenExpiry u2 = None
    /\ outbox w2 = outbox w1.
Proof.
  intros U R Ne L.
  destruct (resetPassword_success _ _ _ _ _ _ U R)
    as (u & Hu & M & E1 & U1 & Hu1).
  set (u1 := applyData
               (UsersService.storeReset token (now + UsersService.oneHour)) u)
    in *.
  set (u2 := applyData (UsersService.passwordReset (bcryptHash pw salt)) u1).
  assert (P : prismaUpdate (id u1) (UsersService.passwordReset
                                      (bcryptHash pw salt))
                (replaceRow u1 (users w))
              = (Returned u2, replaceRow u2 (replaceRow u1 (users w))))
    by (apply prismaUpdate_cleared; auto using noNewToken_passwordReset).
  pose proof (replaceRow_uniqueRows _ _ _ _ _ U1 P) as U2.
  assert (Hu2 : In u2 (replaceRow u2 (replaceRow u1 (users w)))).
  { apply replaceRow_same_id. exists u1. split; [exact Hu1|reflexivity]. }
  exists (withoutPassword (userObject u2)),
         (setUsers w1 (replaceRow u2 (replaceRow u1 (users w)))), u2.
  split; [|split; [apply withoutPassword_hides|split; [|split; [|split; [|split]]]]];
    try reflexivity.
  - rewrite E1.
    assert (L' : now2 <= now + UsersService.oneHour)
      by (unfold UsersService.oneHour; lia).
    exact (updatePassword_ok
             {| users := replaceRow u1 (users w); roles := roles w;
                outbox := outbox w ++ [UsersService.resetMail u token] |}
             u1 token pw salt (now + UsersService.oneHour) now2
             U1 Hu1 Ne eq_refl eq_refl L').
  - cbn [users setUsers]. rewrite <- M.
    exact (findUnique_email _ u2 U2 Hu2).
Qed.

(** X19. Issuing overwrites: once [findByEmailAndSendEmailActivation] has
    stored a new activation token, the one it replaced no longer
    activates and the new one does for a day; once [resetPassword] has
    stored a new reset token, the one it replaced no longer resets. *)
Theorem reissue_overwrites (w : World) :
  uniqueRows (users w) = true ->
  (forall mail token' now u old o w1,
      findUnique (WhereEmail mail) (users w) = Some u ->
      activationToken u = Some old -> old <> token' ->
      run (UsersService.findByEmailAndSendEmailActivation mail token' now) w
        = (Returned o, w1) ->
      (forall n,
          run (UsersService.activateUser old n) w1
          = (Thrown (UnauthorizedException "Invalid activation token."), w1))
      /\ (token' <> "" -> forall n, n <= now + 86400000 ->
          succeeded (fst (run (UsersService.activateUser token' n) w1))
            = true))
  /\ (forall mail token' now u old o w1,
        findUnique (WhereEmail mail) (users w) = Some u ->
        resetToken u = Some old -> old <> token' ->
        run (UsersService.resetPassword mail token' now) w = (Returned o, w1) ->
        forall pw salt n,
          exists e,
            run (UsersService.updatePassword old pw salt n) w1 = (Thrown e, w1)
            /\ kindOf e = NotFound).
Proof.
  intros U. split.
  - intros mail token' now u old o w1 E T Ne R.
    pose proof (findUnique_Some _ _ _ E) as [Hu _].
    unfold UsersService.findByEmailAndSendEmailActivation in R.
    destruct (String.eqb mail ""); [discriminate R|].
    cbn [run] in R. rewrite E in R. cbn [run] in R.
    set (d := UsersService.storeActivation token' (now + UsersService.oneDay))
      in *.
    destruct (prismaUpdate (id u) d (users w)) as [[u'|e] us'] eqn:P;
      [|discriminate R].
    cbn [run ret setUsers users roles outbox] in R. injection R as _ <-.
    pose proof (replaceRow_uniqueRows _ _ _ _ _ U P) as U1.
    apply prismaUpdate_Returned in P. destruct P as (u0 & E0 & -> & _ & ->).
    rewrite (findUnique_id _ _ U Hu) in E0. injection E0 as <-.
    set (u1 := applyData d u) in *.
    assert (Hu1 : In u1 (replaceRow u1 (users w))).
    { apply replaceRow_same_id. exists u. split; [exact Hu|reflexivity]. }
    split.
    + intros n. rewrite activateUser_run.
      destruct (String.eqb old ""); [reflexivity|]. cbn [users].
      rewrite findUnique_absent; [reflexivity|].
      intros r Hr. simpl. apply optStrEq_false.
      refine (token_gone activationToken old (users w) u u1 _ U Hu T
                eq_refl _ r Hr).
      * intros; apply (clashes_activationToken old); assumption.
      * change (Some token' <> Some old). congruence.
    + intros Ne' n L.
      rewrite (activateUser_ok
                 {| users := replaceRow u1 (users w); roles := roles w;
                    outbox := outbox w ++ [UsersService.activationMail u token']
                 |} u1 token' (now + UsersService.oneDay) n);
        [reflexivity | exact U1 | exact Hu1 | exact Ne' | reflexivity
        | reflexivity | unfold UsersService.oneDay; lia].
  - intros mail token' now u old o w1 E T Ne R pw salt n.
    destruct (resetPassword_success _ _ _ _ _ _ U R)
      as (u0 & Hu0 & M & E1 & U1 & Hu1).
    pose proof (findUnique_Some _ _ _ E) as [Hu Mu]. simpl in Mu.
    apply String.eqb_eq in Mu.
    assert (u0 = u) as ->.
    { apply (uniqueRows_clash (users w)); auto.
      apply clashes_email. congruence. }
    unfold UsersService.updatePassword.
    rewrite run_bind, findByResetToken_run.
    destruct (String.eqb old ""); [eexists; split; reflexivity|].
    rewrite E1. cbn [users].
    rewrite findUnique_absent; [eexists; split; reflexivity|].
    intros r Hr. simpl. apply optStrEq_false.
    refine (token_gone resetToken old (users w) u
              (applyData
                 (UsersService.storeReset token' (now + UsersService.oneHour))
                 u) _ U Hu T eq_refl _ r Hr).
    + intros; apply (clashes_resetToken old); assumption.
    + change (Some token' <> Some old). congruence.
Qed.

End Scenarios.

(** X14 at a login of bob followed by a refresh. *)
Lemma login_then_refresh_witness :
  exists w2 u2,
    run (AuthService.refreshToken (crypto := demoCrypto)
           "refresh.u2.500" 600 601)
        (snd (run (AuthService.login (crypto := demoCrypto)
                     "u2" "bob@example.com" 500) demoWorld))
      = (Returned {| access_token := "access.u2.601";
                     refresh_token := "refresh.u2.601" |}, w2)
    /\ findUnique (WhereId "u2") (users w2) = Some u2
    /\ refreshToken u2 = Some "refresh.u2.601"
    /\ refreshTokenExpires u2 = Some 604800601.
Proof.
  apply (login_then_refresh (crypto := demoCrypto) demoWorld _ bob
           "bob@example.com" 500 600 601
           {| access_token := "access.u2.500";
              refresh_token := "refresh.u2.500" |});
    [reflexivity | right; left; reflexivity | reflexivity | lia
    | reflexivity |].
  intros r [<-|[<-|[]]] Ne; discriminate.
Defined.

(** X15 at a login of bob followed by his logout. *)
Lemma logout_and_relogin_revoke_witness :
  let w1 := snd (run (AuthService.login (crypto := demoCrypto)
                        "u2" "bob@example.com" 500) demoWorld) in
  run (AuthService.refreshToken (crypto := demoCrypto)
         "refresh.u2.500" 600 601)
      (snd (run (AuthService.logout "u2") w1))
  = (Thrown (UnauthorizedException "Invalid or expired refresh token"),
     snd (run (AuthService.logout "u2") w1)).
Proof.
  cbv zeta.
  destruct (logout_and_relogin_revoke (crypto := demoCrypto) demoWorld
              (snd (run (AuthService.login (crypto := demoCrypto)
                           "u2" "bob@example.com" 500) demoWorld))
              bob "bob@example.com" 500
              {| access_token := "access.u2.500";
                 refresh_token := "refresh.u2.500" |}
              eq_refl (or_intror (or_introl eq_refl)) eq_refl) as [L _].
  exact (L 600 601).
Defined.

(** X16 at an unknown address and at bob with a wrong password. *)
Lemma unknown_email_like_wrong_password_witness :
  run (AuthService.validateUser (crypto := demoCrypto)
         "ghost@example.com" "Secret2!") demoWorld
    = (Returned None, demoWorld)
  /\ run (AuthService.validateUser (crypto := demoCrypto)
            "bob@example.com" "wrong") demoWorld
     = (Returned None, demoWorld).
Proof.
  apply (unknown_email_like_wrong_password (crypto := demoCrypto) demoWorld
           "ghost@example.com" "bob@example.com" "Secret2!" "wrong" bob);
    reflexivity.
Defined.

(** X17 at the registration of carol. *)
Lemma register_activate_login_witness :
  let w1 := snd (run (UsersService.create (crypto := demoCrypto)
                        (config := demoConfig) carol "s3" "c0ffee" "u3" 0)
                   demoWorld) in
  (exists e,
      run (AuthService.validateUser (crypto := demoCrypto)
             "carol@example.com" "Secret3!") w1 = (Thrown e, w1)
      /\ kindOf e = AccountInactive)
  /\ exists o2 w2 o3,
       run (UsersService.activateUser "c0ffee" 100) w1 = (Returned o2, w2)
       /\ run (AuthService.validateUser (crypto := demoCrypto)
                 "carol@example.com" "Secret3!") w2 = (Returned (Some o3), w2)
       /\ o3 !! "id" = Some (VStr "u3")
       /\ o3 !! "isActive" = Some (VBool true)
       /\ o3 !! "activationToken" = Some VNull.
Proof.
  cbv zeta.
  destruct (succeeded_Returned
              (run (UsersService.create (crypto := demoCrypto)
                      (config := demoConfig) carol "s3" "c0ffee" "u3" 0)
                 demoWorld) eq_refl) as [o E].
  apply (register_activate_login (crypto := demoCrypto) (config := demoConfig)
           demoWorld _ carol "s3" "c0ffee" "u3" 0 100 o);
    [reflexivity | exact E | discriminate | lia | reflexivity].
Defined.

(** X18 at a reset request for bob, confirmed within the hour. *)
Lemma reset_then_update_witness :
  let w1 := snd (run (UsersService.resetPassword (config := demoConfig)
                        "bob@example.com" "aa11" 10) demoWorld) in
  exists o2 w2 u2,
    run (UsersService.updatePassword (crypto := demoCrypto)
           "aa11" "NewPass1!" "s9" 20) w1 = (Returned o2, w2)
    /\ o2 !! "password" = None
    /\ findUnique (WhereEmail "bob@example.com") (users w2) = Some u2
    /\ password u2 = bcryptHash (Crypto := demoCrypto) "NewPass1!" "s9"
    /\ resetToken u2 = None
    /\ resetTokenExpiry u2 = None
    /\ outbox w2 = outbox w1.
Proof.
  cbv zeta.
  destruct (succeeded_Returned
              (run (UsersService.resetPassword (config := demoConfig)
                      "bob@example.com" "aa11" 10) demoWorld) eq_refl)
    as [o E].
  apply (reset_then_update (crypto := demoCrypto) (config := demoConfig)
           demoWorld _ "bob@example.com" "aa11" "NewPass1!" "s9" 10 20 o);
    [reflexivity | exact E | discriminate | lia].
Defined.

(** X19 at a new activation token for alice. *)
Lemma reissue_overwrites_witness :
  let w1 := snd (run (UsersService.findByEmailAndSendEmailActivation
                        (config := demoConfig) "alice@example.com" "bb22" 10)
                   demoWorld) in
  run (UsersService.activateUser "act-1" 20) w1
  = (Thrown (UnauthorizedException "Invalid activation token."), w1).
Proof.
  cbv zeta.
  destruct (succeeded_Returned
              (run (UsersService.findByEmailAndSendEmailActivation
                      (config := demoConfig) "alice@example.com" "bb22" 10)
                 demoWorld) eq_refl) as [o E].
  destruct (reissue_overwrites (crypto := demoCrypto) (config := demoConfig)
              demoWorld eq_refl) as [A _].
  destruct (A "alice@example.com" "bb22" 10 alice "act-1" o _ eq_refl eq_refl
              ltac:(discriminate) E) as [Old _].
  exact (Old 20).
Defined.

(** ** The plain CRUD methods of [UsersService] *)

Lemma otherThan_uniqueRows (i : string) (us : list User) :
  uniqueRows us = true -> uniqueRows (otherThan i us) = true.
Proof.
  induction us as [|x us IH]; intros U; [reflexivity|].
  apply uniqueRows_cons in U. destruct U as [F U].
  unfold otherThan in *. cbn [List.filter].
  destruct (negb (String.eqb (id x) i)); [|exact (IH U)].
  apply uniqueRows_cons. split; [|exact (IH U)].
  apply List.Forall_forall. intros r Hr.
  apply filter_In in Hr. destruct Hr as [Hr _].
  exact (proj1 (List.Forall_forall _ _) F r Hr).
Qed.

Lemma findUnique_otherThan_same (i : string) (us : list User) :
  findUnique (WhereId i) (otherThan i us) = None.
Proof.
  apply findUnique_absent. intros r Hr.
  apply otherThan_In in Hr. destruct Hr as [_ Ne]. exact Ne.
Qed.

Lemma findUnique_otherThan_other (i j : string) (us : list User) :
  j <> i ->
  findUnique (WhereId j) (otherThan i us) = findUnique (WhereId j) us.
Proof.
  intros Ne. unfold otherThan, findUnique.
  induction us as [|x us IH]; [reflexivity|].
  cbn [List.filter find matches].
  destruct (String.eqb (id x) i) eqn:Xi; cbn [negb].
  - apply String.eqb_eq in Xi.
    destruct (String.eqb (id x) j) eqn:Xj.
    + apply String.eqb_eq in Xj. congruence.
    + exact IH.
  - cbn [find matches]. destruct (String.eqb (id x) j); [reflexivity|].
    exact IH.
Qed.

Lemma findUnique_app_absent (wh : UserWhere) (us rest : list User) :
  (forall r, In r us -> matches wh r = false) ->
  findUnique wh (us ++ rest) = findUnique wh rest.
Proof.
  unfold findUnique. induction us as [|x us IH]; intros F; [reflexivity|].
  cbn [app find]. rewrite (F x (or_introl eq_refl)).
  apply IH. intros r Hr. apply F. right. exact Hr.
Qed.

Lemma otherThan_fresh (i : string) (us : list User) :
  (forall r, In r us -> String.eqb (id r) i = false) -> otherThan i us = us.
Proof.
  induction us as [|x us IH]; intros F; [reflexivity|].
  unfold otherThan in *. cbn [List.filter].
  rewrite (F x (or_introl eq_refl)). cbn [negb].
  f_equal. apply IH. intros r Hr. apply F. right. exact Hr.
Qed.

Lemma clashes_id_false (r u : User) :
  clashes r u = false -> String.eqb (id r) (id u) = false.
Proof.
  unfold clashes. intros C.
  repeat (apply orb_false_iff in C; destruct C as [C _]). exact C.
Qed.

Lemma replaceRow_self (u : User) (us : list User) :
  uniqueRows us = true -> In u us -> replaceRow u us = us.
Proof.
  intros U Hu. unfold replaceRow.
  rewrite <- (map_id us) at 2. apply map_ext_in. intros r Hr.
  destruct (String.eqb (id r) (id u)) eqn:E; [|reflexivity].
  symmetry. apply (uniqueRows_clash us r u U Hr Hu).
  unfold clashes. rewrite E. reflexivity.
Qed.

Lemma uniqueViolation_self (u : User) (us : list User) :
  uniqueRows us = true -> In u us ->
  uniqueViolation u (otherThan (id u) us) = None.
Proof.
  intros U Hu. apply uniqueViolation_None. apply List.Forall_forall.
  intros r Hr. apply otherThan_In in Hr. destruct Hr as [Hr Ne].
  exact (uniqueRows_other us r u U Hr Hu Ne).
Qed.

Lemma findUnique_replaceRow_other (j : string) (u' : User) (us : list User) :
  j <> id u' ->
  findUnique (WhereId j) (replaceRow u' us) = findUnique (WhereId j) us.
Proof.
  intros Ne. unfold replaceRow, findUnique.
  induction us as [|x us IH]; [reflexivity|].
  cbn [map find matches].
  destruct (String.eqb (id x) (id u')) eqn:X.
  - apply String.eqb_eq in X.
    destruct (String.eqb (id u') j) eqn:J.
    + apply String.eqb_eq in J. congruence.
    + rewrite X, J. exact IH.
  - destruct (String.eqb (id x) j); [reflexivity | exact IH].
Qed.

Lemma existsb_id_otherThan (i : string) (us : list User) :
  existsb (fun r => String.eqb (id r) i) (otherThan i us) = false.
Proof.
  destruct (existsb _ _) eqn:E; [|reflexivity].
  apply existsb_exists in E. destruct E as (r & Hr & M).
  apply otherThan_In in Hr. destruct Hr as [_ Ne]. congruence.
Qed.

Section Crud.
Context {crypto : Crypto} {config : Config}.

Lemma findOne_run (i : string) (w : World) :
  run (UsersCrud.findOne i) w
  = match findUnique (WhereId i) (users w) with
    | Some u =>
        (Returned (withoutPassword
                     (UsersCrud.withRole u (findRole (roleId u) (roles w)))),
         w)
    | None =>
        (Thrown (NotFoundException ("User with ID " +:+ i +:+ " not found.")),
         w)
    end.
Proof.
  unfold UsersCrud.findOne. cbn [run].
  destruct (findUnique (WhereId i) (users w)); reflexivity.
Qed.

Lemma remove_missing (i : string) (w : World) :
  findUnique (WhereId i) (users w) = None ->
  UsersCrud.remove i w
  = (Thrown (NotFoundException ("User with ID " +:+ i +:+ " not found.")), w).
Proof.
  intros E. unfold UsersCrud.remove, UsersCrud.prismaDelete. rewrite E.
  rewrite setUsers_same. reflexivity.
Qed.

Lemma remove_found (i : string) (w : World) (u : User) :
  findUnique (WhereId i) (users w) = Some u ->
  UsersCrud.remove i w = (Returned tt, setUsers w (otherThan i (users w))).
Proof.
  intros E. unfold UsersCrud.remove, UsersCrud.prismaDelete. rewrite E.
  reflexivity.
Qed.

(** X20. [findAll] returns one object per row, in the order of the
    table, and every one of them carries the password hash and the three
    tokens of its row; [findOne] returns, for a row of the table, the
    same object without its [password] property (the tokens are still
    there), and leaves the world as it was. *)
Theorem findAll_keeps_password_findOne_drops_it
    (w : World) (n : nat) (u : User) :
  uniqueRows (users w) = true ->
  users w !! n = Some u ->
  length (UsersCrud.findAll w) = length (users w)
  /\ exists o,
       UsersCrud.findAll w !! n = Some o
       /\ o !! "id" = Some (VStr (id u))
       /\ o !! "password" = Some (VStr (password u))
       /\ o !! "activationToken" = Some (optStr (activationToken u))
       /\ o !! "resetToken" = Some (optStr (resetToken u))
       /\ o !! "refreshToken" = Some (optStr (refreshToken u))
       /\ run (UsersCrud.findOne (id u)) w = (Returned (withoutPassword o), w)
       /\ (forall k, k <> "password" -> withoutPassword o !! k = o !! k)
       /\ withoutPassword o !! "password" = None.
Proof.
  intros U L. unfold UsersCrud.findAll. split; [apply length_map|].
  exists (UsersCrud.withRole u (findRole (roleId u) (roles w))).
  split; [rewrite list_lookup_fmap, L; reflexivity|].
  repeat match goal with |- _ /\ _ => split end;
    try (destruct (findRole (roleId u) (roles w)); reflexivity).
  - rewrite findOne_run.
    rewrite (findUnique_id _ u U
               (proj1 (list_elem_of_In _ _) (list_elem_of_lookup_2 _ _ _ L))).
    reflexivity.
  - intros k Ne. unfold withoutPassword. apply lookup_delete_ne. congruence.
Qed.

(** X21. [remove] of an id that no row has fails with [NotFoundException]
    and leaves the world as it was. [remove] of an id that a row has
    returns, leaves the roles and the outbox alone, keeps exactly the rows
    with another id (the integrity of the table with them); after it
    [findOne] and a second [remove] of that id fail with
    [NotFoundException]. *)
Theorem remove_outcomes (w : World) (i : string) :
  match findUnique (WhereId i) (users w) with
  | None =>
      UsersCrud.remove i w
      = (Thrown (NotFoundException ("User with ID " +:+ i +:+ " not found.")),
         w)
  | Some _ =>
      exists w',
        UsersCrud.remove i w = (Returned tt, w')
        /\ roles w' = roles w /\ outbox w' = outbox w
        /\ (forall r, In r (users w') <-> In r (users w) /\ id r <> i)
        /\ (forall j, j <> i ->
              findUnique (WhereId j) (users w')
              = findUnique (WhereId j) (users w))
        /\ (uniqueRows (users w) = true -> uniqueRows (users w') = true)
        /\ run (UsersCrud.findOne i) w'
           = (Thrown (NotFoundException
                        ("User with ID " +:+ i +:+ " not found.")), w')
        /\ UsersCrud.remove i w'
           = (Thrown (NotFoundException
                        ("User with ID " +:+ i +:+ " not found.")), w')
  end.
Proof.
  destruct (findUnique (WhereId i) (users w)) as [u|] eqn:E.
  - exists (setUsers w (otherThan i (users w))).
    split; [exact (remove_found i w u E)|].
    split; [reflexivity|]. split; [reflexivity|].
    cbn [users setUsers].
    split; [|split; [|split; [|split]]].
    + intros r. rewrite otherThan_In. rewrite String.eqb_neq. reflexivity.
    + intros j Ne. apply findUnique_otherThan_other. exact Ne.
    + apply otherThan_uniqueRows.
    + rewrite findOne_run. cbn [users setUsers].
      rewrite findUnique_otherThan_same. reflexivity.
    + apply remove_missing. cbn [users setUsers].
      apply findUnique_otherThan_same.
  - exact (remove_missing i w E).
Qed.

(** X22. Removing the account that [create] has just made gives back the
    users table as it was before the registration; the activation mail
    has gone out all the same, and its token activates nothing. *)
Theorem create_then_remove (w w1 : World) (dto : CreateUserDto)
    (salt token uuid : string) (now now2 : Z) (o : JsObject) :
  run (UsersService.create dto salt token uuid now) w = (Returned o, w1) ->
  exists w2 m,
    UsersCrud.remove uuid w1 = (Returned tt, w2)
    /\ users w2 = users w
    /\ roles w2 = roles w
    /\ outbox w2 = outbox w ++ [m]
    /\ mail_to m = dto_email dto
    /\ run (UsersService.activateUser token now2) w2
       = (Thrown (UnauthorizedException "Invalid activation token."), w2).
Proof.
  intros R. destruct (create_success _ _ _ _ _ _ _ _ R) as (V & ->).
  set (row := UsersService.newUser dto uuid
                (bcryptHash (dto_password dto) salt) token
                (now + UsersService.oneDay)) in *.
  apply uniqueViolation_None in V.
  assert (F : forall r, In r (users w) -> clashes r row = false).
  { exact (proj1 (List.Forall_forall _ _) V). }
  assert (O : otherThan uuid (users w ++ [row]) = users w).
  { unfold otherThan. rewrite List.filter_app. cbn [List.filter id row UsersService.newUser].
    rewrite String.eqb_refl. cbn [negb]. rewrite app_nil_r.
    apply otherThan_fresh. intros r Hr.
    exact (clashes_id_false r row (F r Hr)). }
  assert (Hrow : findUnique (WhereId uuid) (users w ++ [row]) = Some row).
  { rewrite findUnique_app_absent.
    - cbn [findUnique find matches id row UsersService.newUser].
      rewrite String.eqb_refl. reflexivity.
    - intros r Hr. exact (clashes_id_false r row (F r Hr)). }
  eexists. exists (UsersService.activationMail row token).
  split; [apply (remove_found uuid _ row); exact Hrow|].
  cbn [users setUsers roles outbox]. rewrite O.
  split; [reflexivity|]. split; [reflexivity|]. split; [reflexivity|].
  split; [reflexivity|].
  rewrite activateUser_run. cbn [users setUsers].
  destruct (String.eqb token ""); [reflexivity|].
  rewrite (findUnique_absent (WhereActivationToken token) (users w)).
  - reflexivity.
  - intros r Hr. specialize (F r Hr). unfold clashes in F.
    repeat (apply orb_false_iff in F; destruct F as [F ?]).
    cbn [matches].
    match goal with
    | H : clash (activationToken r) (activationToken row) = false |- _ =>
        cbn [activationToken row UsersService.newUser] in H;
        destruct (activationToken r); [exact H | reflexivity]
    end.
Qed.

Lemma update_missing (i : string) (dto : UpdateUserDto) (salt : string)
    (w : World) :
  findUnique (WhereId i) (users w) = None ->
  UsersCrud.update i dto salt w
  = (Thrown (NotFoundException ("User with ID " +:+ i +:+ " not found.")), w).
Proof.
  intros E. unfold UsersCrud.update. rewrite findOne_run, E. reflexivity.
Qed.

Lemma update_found (i : string) (dto : UpdateUserDto) (salt : string)
    (w : World) (u : User) :
  findUnique (WhereId i) (users w) = Some u ->
  UsersCrud.update i dto salt w
  = match UsersCrud.prismaUpdateUser i (UsersCrud.dataToUpdate dto salt) w with
    | (Returned updatedUser, us) =>
        (Returned (withoutPassword (userObject updatedUser)), setUsers w us)
    | (Thrown (PrismaClientKnownRequestError (P2002 target)), us) =>
        (Thrown (ConflictException
                   ("Update failed: " +:+ target +:+ " must be unique.")),
         setUsers w us)
    | (Thrown _, us) =>
        (Thrown (InternalServerErrorException "Could not update user."),
         setUsers w us)
    end.
Proof.
  intros E. unfold UsersCrud.update. rewrite findOne_run, E. reflexivity.
Qed.

Lemma prismaUpdateUser_cases (i : string) (d : UpdateUserDto) (w : World)
    (u : User) :
  findUnique (WhereId i) (users w) = Some u ->
  (exists e, UsersCrud.prismaUpdateUser i d w = (Thrown e, users w)
             /\ e <> PrismaClientKnownRequestError P2025)
  \/ (UsersCrud.prismaUpdateUser i d w
        = (Returned (UsersCrud.applyUpdate d u),
           replaceRow (UsersCrud.applyUpdate d u) (users w))
      /\ uniqueViolation (UsersCrud.applyUpdate d u) (otherThan i (users w))
         = None).
Proof.
  intros E. unfold UsersCrud.prismaUpdateUser. rewrite E.
  destruct (uniqueViolation _ _) as [col|] eqn:V.
  - left. eexists. split; [reflexivity | discriminate].
  - destruct (upd_roleId d) as [r|].
    + destruct (existsb _ (roles w)).
      * right. split; reflexivity.
      * left. eexists. split; [reflexivity | discriminate].
    + right. split; reflexivity.
Qed.

(** X23. [update] of an id that no row has fails with
    [NotFoundException]; for a row that exists it can only fail with
    [ConflictException] ("... must be unique.") or with
    [InternalServerErrorException]; a failure leaves the world as it was.
    When [update] returns, the result is the new row without its
    [password] property; the row keeps its id and its six token columns
    (no session or pending link is revoked); its password is the hash of
    the given one when one is given and not empty, and the stored one
    otherwise; the other rows, the roles and the outbox are as before, and
    the integrity of the table is kept. *)
Theorem update_outcomes (w : World) (i : string) (dto : UpdateUserDto)
    (salt : string) :
  match UsersCrud.update i dto salt w with
  | (Thrown e, w') =>
      w' = w
      /\ match findUnique (WhereId i) (users w) with
         | None =>
             e = NotFoundException ("User with ID " +:+ i +:+ " not found.")
         | Some _ =>
             (exists col,
                 e = ConflictException
                       ("Update failed: " +:+ col +:+ " must be unique."))
             \/ e = InternalServerErrorException "Could not update user."
         end
  | (Returned o, w') =>
      exists u u',
        findUnique (WhereId i) (users w) = Some u
        /\ findUnique (WhereId i) (users w') = Some u'
        /\ o = withoutPassword (userObject u')
        /\ o !! "password" = None
        /\ id u' = id u
        /\ password u'
           = match upd_password dto with
             | Some p =>
                 if String.eqb p "" then password u else bcryptHash p salt
             | None => password u
             end
        /\ activationToken u' = activationToken u
        /\ activationTokenExpires u' = activationTokenExpires u
        /\ resetToken u' = resetToken u
        /\ resetTokenExpiry u' = resetTokenExpiry u
        /\ refreshToken u' = refreshToken u
        /\ refreshTokenExpires u' = refreshTokenExpires u
        /\ roles w' = roles w
        /\ outbox w' = outbox w
        /\ (forall j, j <> i ->
              findUnique (WhereId j) (users w')
              = findUnique (WhereId j) (users w))
        /\ (uniqueRows (users w) = true -> uniqueRows (users w') = true)
  end.
Proof.
  destruct (findUnique (WhereId i) (users w)) as [u|] eqn:E.
  - rewrite (update_found i dto salt w u E).
    destruct (findUnique_WhereId _ _ _ E) as [Hu Iu].
    destruct (prismaUpdateUser_cases i (UsersCrud.dataToUpdate dto salt) w u E)
      as [(e & -> & Ne) | [-> V]].
    + rewrite setUsers_same.
      destruct e as [| | | | |[| |]|]; try congruence;
        (split; [reflexivity|]); try (right; reflexivity).
      left. eexists. reflexivity.
    + set (u' := UsersCrud.applyUpdate (UsersCrud.dataToUpdate dto salt) u).
      exists u, u'. split; [reflexivity|].
      cbn [users setUsers roles outbox].
      split; [exact (findUnique_replaceRow i u' u (users w) Iu E)|].
      split; [reflexivity|]. split; [apply withoutPassword_hides|].
      split; [reflexivity|].
      split.
      { unfold u', UsersCrud.applyUpdate, UsersCrud.dataToUpdate.
        cbn [password upd_password].
        destruct (upd_password dto) as [p|]; [|reflexivity].
        destruct (String.eqb p ""); reflexivity. }
      repeat (split; [reflexivity|]).
      split.
      * intros j Ne. apply findUnique_replaceRow_other.
        change (id u') with (id u). congruence.
      * intros U. apply uniqueRows_replaceRow; [exact U|].
        intros r Hr Nr. change (id u') with (id u) in Nr. rewrite Iu in Nr.
        apply uniqueViolation_None in V.
        apply (proj1 (List.Forall_forall _ _) V).
        apply otherThan_In. split; assumption.
  - rewrite (update_missing i dto salt w E). split; reflexivity.
Qed.

(** X24. [update] with an address that another account already has fails
    with [ConflictException] "Update failed: email must be unique." and
    changes nothing. *)
Theorem update_email_taken (w : World) (i : string) (dto : UpdateUserDto)
    (salt : string) (u r : User) :
  findUnique (WhereId i) (users w) = Some u ->
  In r (users w) -> id r <> i ->
  upd_email dto = Some (email r) ->
  UsersCrud.update i dto salt w
  = (Thrown (ConflictException "Update failed: email must be unique."), w).
Proof.
  intros E Hr Nr M. rewrite (update_found i dto salt w u E).
  destruct (findUnique_WhereId _ _ _ E) as [Hu Iu].
  unfold UsersCrud.prismaUpdateUser. rewrite E.
  unfold uniqueViolation.
  change (id (UsersCrud.applyUpdate (UsersCrud.dataToUpdate dto salt) u))
    with (id u).
  rewrite Iu, existsb_id_otherThan.
  assert (X : existsb
                (fun x => String.eqb (email x)
                   (email (UsersCrud.applyUpdate
                             (UsersCrud.dataToUpdate dto salt) u)))
                (otherThan i (users w)) = true).
  { apply existsb_exists. exists r. split.
    - apply otherThan_In. split; [exact Hr|]. apply String.eqb_neq. exact Nr.
    - cbn [email UsersCrud.applyUpdate UsersCrud.dataToUpdate upd_email].
      rewrite M. cbn [default]. apply String.eqb_refl. }
  rewrite X. rewrite setUsers_same. reflexivity.
Qed.

(** X25. [update] with no field set, or with nothing but an empty password,
    writes the row back as it is: the result is the stored row without its
    password, and the world is unchanged (the empty password is neither
    hashed nor stored). *)
Theorem update_without_changes (w : World) (i : string) (salt : string)
    (pass : option string) (u : User) :
  uniqueRows (users w) = true ->
  findUnique (WhereId i) (users w) = Some u ->
  pass = None \/ pass = Some "" ->
  UsersCrud.update i
    {| upd_email := None; upd_password := pass; upd_name := None;
       upd_lastName := None; upd_address := None; upd_phone := None;
       upd_isActive := None; upd_roleId := None |} salt w
  = (Returned (withoutPassword (userObject u)), w).
Proof.
  intros U E P. rewrite (update_found _ _ salt w u E).
  destruct (findUnique_WhereId _ _ _ E) as [Hu Iu].
  unfold UsersCrud.prismaUpdateUser. rewrite E.
  assert (A : UsersCrud.applyUpdate
                (UsersCrud.dataToUpdate
                   {| upd_email := None; upd_password := pass;
                      upd_name := None; upd_lastName := None;
                      upd_address := None; upd_phone := None;
                      upd_isActive := None; upd_roleId := None |} salt) u
              = u).
  { destruct P as [-> | ->]; destruct u; reflexivity. }
  rewrite A. cbn [upd_roleId UsersCrud.dataToUpdate].
  rewrite <- Iu. rewrite (uniqueViolation_self u (users w) U Hu).
  rewrite (replaceRow_self u (users w) U Hu), setUsers_same. reflexivity.
Qed.

End Crud.

(** X20 at the first row of the sample table. *)
Lemma findAll_keeps_password_findOne_drops_it_witness :
  length (UsersCrud.findAll demoWorld) = length (users demoWorld)
  /\ exists o,
       UsersCrud.findAll demoWorld !! 0%nat = Some o
       /\ o !! "id" = Some (VStr "u1")
       /\ o !! "password" = Some (VStr (password alice))
       /\ o !! "activationToken" = Some (optStr (activationToken alice))
       /\ o !! "resetToken" = Some (optStr (resetToken alice))
       /\ o !! "refreshToken" = Some (optStr (refreshToken alice))
       /\ run (UsersCrud.findOne "u1") demoWorld
          = (Returned (withoutPassword o), demoWorld)
       /\ (forall k, k <> "password" -> withoutPassword o !! k = o !! k)
       /\ withoutPassword o !! "password" = None.
Proof.
  exact (findAll_keeps_password_findOne_drops_it demoWorld 0 alice
           eq_refl eq_refl).
Defined.

(** X22 at the registration of carol. *)
Lemma create_then_remove_witness :
  let w1 := snd (run (UsersService.create (crypto := demoCrypto)
                        (config := demoConfig) carol "s3" "c0ffee" "u3" 0)
                   demoWorld) in
  exists w2 m,
    UsersCrud.remove "u3" w1 = (Returned tt, w2)
    /\ users w2 = users demoWorld
    /\ roles w2 = roles demoWorld
    /\ outbox w2 = outbox demoWorld ++ [m]
    /\ mail_to m = "carol@example.com"
    /\ run (UsersService.activateUser "c0ffee" 100) w2
       = (Thrown (UnauthorizedException "Invalid activation token."), w2).
Proof.
  cbv zeta.
  destruct (succeeded_Returned
              (run (UsersService.create (crypto := demoCrypto)
                      (config := demoConfig) carol "s3" "c0ffee" "u3" 0)
                 demoWorld) eq_refl) as [o E].
  exact (create_then_remove (crypto := demoCrypto) (config := demoConfig)
           demoWorld _ carol "s3" "c0ffee" "u3" 0 100 o E).
Defined.

(** X24 at bob asking for the address of alice. *)
Lemma update_email_taken_witness :
  UsersCrud.update (crypto := demoCrypto) "u2"
    {| upd_email := Some "alice@example.com"; upd_password := None;
       upd_name := None; upd_lastName := None; upd_address := None;
       upd_phone := None; upd_isActive := None; upd_roleId := None |}
    "s9" demoWorld
  = (Thrown (ConflictException "Update failed: email must be unique."),
     demoWorld).
Proof.
  apply (update_email_taken (crypto := demoCrypto) demoWorld "u2" _ "s9"
           bob alice);
    [reflexivity | left; reflexivity | discriminate | reflexivity].
Defined.

(** X25 at bob sending an empty password. *)
Lemma update_without_changes_witness :
  UsersCrud.update (crypto := demoCrypto) "u2"
    {| upd_email := None; upd_password := Some ""; upd_name := None;
       upd_lastName := None; upd_address := None; upd_phone := None;
       upd_isActive := None; upd_roleId := None |} "s9" demoWorld
  = (Returned (withoutPassword (userObject bob)), demoWorld).
Proof.
  apply (update_without_changes (crypto := demoCrypto) demoWorld "u2" "s9"
           (Some "") bob);
    [reflexivity | reflexivity | right; reflexivity].
Defined.
